(** * LetsPrint: GST invoices for Shopify orders

    A shallow embedding of the tax engine, the HSN resolver, the invoice
    numbering, the bulk queue processor, the single-order print action and
    the file storage gateway, followed by the properties checked on them.

    Conventions of the embedding.
    - A JavaScript [number] is the rational it stands for ([Q]), and every
      arithmetic operation of the sources rounds its exact result to the
      nearest IEEE 754 double, a tie going to the even one ([JS.double]).
      [NaN] is [None] where a function can produce it; the infinities, the
      sign of zero and the limits of the exponent (overflow, subnormal
      numbers) are outside the model.
    - A JavaScript string is a [string] of bytes.  Case mapping and
      whitespace are those of ASCII; other bytes are left untouched.
    - [throw] / rejected promises are the [Throw] constructor of [Exc].
    - Objects used as dictionaries are association lists looked up by key;
      where a key comes from outside, the keys an object literal inherits
      from [Object.prototype] are looked up as well. *)

From Stdlib Require Import Bool Arith ZArith QArith Qround Qpower Lia Lqa List.
From Stdlib Require Import Permutation.
From Stdlib Require Import Ascii String DecimalString.
Import ListNotations.

Close Scope Q_scope.
Open Scope string_scope.

(** ** Exceptions *)

Inductive Exc (A : Type) : Type :=
| Ok (a : A)
| Throw (message : string).
Arguments Ok {A} a.
Arguments Throw {A} message.

(** ** The JavaScript built-ins the sources call *)
Module JS.
Local Open Scope Q_scope.

Definition code (c : ascii) : nat := nat_of_ascii c.

Definition isUpper (c : ascii) : bool := (65 <=? code c)%nat && (code c <=? 90)%nat.
Definition isLower (c : ascii) : bool := (97 <=? code c)%nat && (code c <=? 122)%nat.
Definition isDigit (c : ascii) : bool := (48 <=? code c)%nat && (code c <=? 57)%nat.

Definition upperChar (c : ascii) : ascii :=
  if isLower c then ascii_of_nat (code c - 32) else c.
Definition lowerChar (c : ascii) : ascii :=
  if isUpper c then ascii_of_nat (code c + 32) else c.

Fixpoint mapChars (f : ascii -> ascii) (s : string) : string :=
  match s with
  | EmptyString => EmptyString
  | String c r => String (f c) (mapChars f r)
  end.

(** [String.prototype.toUpperCase] and [toLowerCase]. *)
Definition toUpperCase : string -> string := mapChars upperChar.
Definition toLowerCase : string -> string := mapChars lowerChar.

(** White space removed by [String.prototype.trim]: TAB, LF, VT, FF, CR, SP. *)
Definition isWhiteSpace (c : ascii) : bool :=
  ((9 <=? code c)%nat && (code c <=? 13)%nat) || (code c =? 32)%nat.

Fixpoint trimStart (s : string) : string :=
  match s with
  | EmptyString => EmptyString
  | String c r => if isWhiteSpace c then trimStart r else s
  end.

Fixpoint trimEnd (s : string) : string :=
  match s with
  | EmptyString => EmptyString
  | String c r =>
      match trimEnd r with
      | EmptyString => if isWhiteSpace c then EmptyString else String c EmptyString
      | r' => String c r'
      end
  end.

Definition trim (s : string) : string := trimEnd (trimStart s).

(** [s.startsWith(p)]. *)
Definition startsWith (s p : string) : bool := String.prefix p s.

(** [s.includes(sub)]: [sub] is a prefix of some suffix of [s]. *)
Fixpoint includes (s sub : string) : bool :=
  String.prefix sub s ||
  match s with
  | EmptyString => false
  | String _ r => includes r sub
  end.

(** The double-quote character, for template literals that contain it. *)
Definition dquote : string := String (ascii_of_nat 34) EmptyString.

(** [arr.join(sep)]. *)
Definition join (sep : string) (l : list string) : string := String.concat sep l.

(** Truthiness of a string and of a number. *)
Definition truthy (s : string) : bool := negb (s =? "").
Definition truthyNum (x : Q) : bool := negb (Qeq_bool x 0).

Definition ltNum (x y : Q) : bool := negb (Qle_bool y x).
Definition leNum (x y : Q) : bool := Qle_bool x y.

(** *** Numbers

    The nearest integer, a tie going to the even one. *)
Definition roundHalfEven (y : Q) : Z :=
  let f := Qfloor y in
  match Qcompare (y - inject_Z f) (1 # 2) with
  | Lt => f
  | Gt => (f + 1)%Z
  | Eq => if Z.even f then f else (f + 1)%Z
  end.

(** For [x > 0], the [e] with [2^e <= x < 2^(e+1)]. *)
Definition binaryExponent (x : Q) : Z :=
  let e := (Z.log2 (Qnum x) - Z.log2 (Zpos (Qden x)))%Z in
  if Qle_bool (Qpower 2 e) x then e else (e - 1)%Z.

(** 53 significant bits for a positive number. *)
Definition doublePos (x : Q) : Q :=
  let e := binaryExponent x in
  inject_Z (roundHalfEven (x * Qpower 2 (52 - e))) * Qpower 2 (e - 52).

(** The double nearest to [x], as a reduced fraction. *)
Definition double (x : Q) : Q :=
  let x := Qred x in
  Qred (match Qcompare x 0 with
        | Eq => 0
        | Gt => doublePos x
        | Lt => - doublePos (- x)
        end).

(** [x * y], [x / y] and [x + y] on doubles. *)
Definition mulNum (x y : Q) : Q := double (x * y).
Definition divNum (x y : Q) : Q := double (x / y).
Definition addNum (x y : Q) : Q := double (x + y).

(** [Math.round]: the nearest integer, halves rounded up.  It is exact: no
    double lies strictly between a double and the integer it rounds to. *)
Definition Math_round (x : Q) : Q := inject_Z (Qfloor (x + (1 # 2))).

(** Reading a run of decimal digits: the value with [acc] as the digits
    already read, how many digits were read, and the rest of the input. *)
Fixpoint readDigits (s : string) (acc : Z) (count : nat) : Z * nat * string :=
  match s with
  | String c r =>
      if isDigit c then readDigits r (10 * acc + Z.of_nat (code c - 48))%Z (S count)
      else (acc, count, s)
  | EmptyString => (acc, count, s)
  end.

Definition readSign (s : string) : bool * string :=
  match s with
  | String c r =>
      if Ascii.eqb c "-" then (true, r)
      else if Ascii.eqb c "+" then (false, r)
      else (false, s)
  | EmptyString => (false, s)
  end.

(** The exponent part of a decimal literal, [0] when there is none. *)
Definition readExponent (s : string) : Z :=
  match s with
  | String c r =>
      if Ascii.eqb c "e" || Ascii.eqb c "E" then
        let '(neg, r1) := readSign r in
        let '(e, n, _) := readDigits r1 0%Z 0%nat in
        if (n =? 0)%nat then 0%Z else if neg then (- e)%Z else e
      else 0%Z
  | EmptyString => 0%Z
  end.

(** [parseFloat]: the longest prefix that is a decimal literal, after
    leading white space, read as the nearest double; [None] is [NaN].  The
    literal [Infinity] is outside the numeric model and reads as [NaN]. *)
Definition parseFloat (s : string) : option Q :=
  let '(neg, s1) := readSign (trimStart s) in
  let '(ip, ni, s2) := readDigits s1 0%Z 0%nat in
  let '(m, nf, s3) :=
    match s2 with
    | String c r => if Ascii.eqb c "." then readDigits r ip 0%nat else (ip, 0%nat, s2)
    | EmptyString => (ip, 0%nat, s2)
    end in
  if ((ni + nf)%nat =? 0)%nat then None
  else
    let mantissa := inject_Z (if neg then (- m)%Z else m) in
    Some (double (mantissa * Qpower 10 (readExponent s3 - Z.of_nat nf))).

(** [x || 0] for the result of [parseFloat]: [NaN] and [0] are falsy. *)
Definition orZero (x : option Q) : Q :=
  match x with
  | Some q => if truthyNum q then q else 0
  | None => 0
  end.

(** Decimal text of an integer, as in a template literal. *)
Definition intToString (z : Z) : string :=
  DecimalString.NilZero.string_of_int (Z.to_int z).

End JS.

(** ** app/lib/utils/gstCalculator.ts *)
Module GstCalculator.
Import JS.
Local Open Scope Q_scope.

Inductive GSTType : Type := CGST_SGST | IGST.

Record GSTRateConfig : Type := {
  threshold : Q;
  lowRate : Q;
  highRate : Q
}.

Record HSNCodeMapping : Type := {
  hsn_textiles : string;
  hsn_cotton : string;
  hsn_polyester : string;
  hsn_blend : string;
  hsn_default : string
}.

Record StateInfo : Type := {
  state_name : string;
  state_code : string;
  state_gstCode : string
}.

Record GSTCalculationContext : Type := {
  orderTotal : Q;
  subtotal : Q;
  customerState : string;
  storeState : string;
  productType : option string;
  hsnCode : option string;
  orderId : option string
}.

Record GSTBreakdown : Type := {
  gstType : GSTType;
  gstRate : Q;
  cgstAmount : option Q;
  sgstAmount : option Q;
  igstAmount : option Q;
  totalGstAmount : Q;
  taxableAmount : Q;
  bd_hsnCode : option string
}.

(** The audit trail without its clock and random parts ([calculationId],
    [timestamp]), which no property below reads. *)
Record GSTAuditTrail : Type := {
  audit_orderId : string;
  audit_input : GSTCalculationContext;
  audit_output : GSTBreakdown;
  audit_version : string
}.

Inductive GSTCalculationResult : Type :=
| Success (breakdown : GSTBreakdown) (auditTrail : GSTAuditTrail)
| Failure (error : string) (errorCode : string).

(** The literals [0.05] and [0.12] are the doubles nearest to them. *)
Definition DEFAULT_GST_CONFIG : GSTRateConfig :=
  {| threshold := 1000; lowRate := double (5 # 100); highRate := double (12 # 100) |}.

Definition TEXTILE_HSN_CODES : HSNCodeMapping :=
  {| hsn_textiles := "6109";
     hsn_cotton := "6109.10";
     hsn_polyester := "6109.90";
     hsn_blend := "6109.90";
     hsn_default := "6109" |}.

Definition st (n c g : string) : string * StateInfo :=
  (c, {| state_name := n; state_code := c; state_gstCode := g |}).

Definition INDIAN_STATES : list (string * StateInfo) :=
  [ st "Andaman and Nicobar Islands" "AN" "35";
    st "Andhra Pradesh" "AP" "28";
    st "Arunachal Pradesh" "AR" "12";
    st "Assam" "AS" "18";
    st "Bihar" "BR" "10";
    st "Chandigarh" "CH" "04";
    st "Chhattisgarh" "CG" "22";
    st "Dadra and Nagar Haveli" "DN" "26";
    st "Daman and Diu" "DD" "25";
    st "Delhi" "DL" "07";
    st "Goa" "GA" "30";
    st "Gujarat" "GJ" "24";
    st "Haryana" "HR" "06";
    st "Himachal Pradesh" "HP" "02";
    st "Jammu and Kashmir" "JK" "01";
    st "Jharkhand" "JH" "20";
    st "Karnataka" "KA" "29";
    st "Kerala" "KL" "32";
    st "Lakshadweep" "LD" "31";
    st "Madhya Pradesh" "MP" "23";
    st "Maharashtra" "MH" "27";
    st "Manipur" "MN" "14";
    st "Meghalaya" "ML" "17";
    st "Mizoram" "MZ" "15";
    st "Nagaland" "NL" "13";
    st "Odisha" "OR" "21";
    st "Puducherry" "PY" "34";
    st "Punjab" "PB" "03";
    st "Rajasthan" "RJ" "08";
    st "Sikkim" "SK" "11";
    st "Tamil Nadu" "TN" "33";
    st "Telangana" "TG" "36";
    st "Tripura" "TR" "16";
    st "Uttar Pradesh" "UP" "09";
    st "Uttarakhand" "UT" "05";
    st "West Bengal" "WB" "19" ].

(** [INDIAN_STATES[key]] *)
Fixpoint lookupState (tbl : list (string * StateInfo)) (key : string) : option StateInfo :=
  match tbl with
  | [] => None
  | (k, v) :: rest => if k =? key then Some v else lookupState rest key
  end.

Definition isState (key : string) : bool :=
  match lookupState INDIAN_STATES key with Some _ => true | None => false end.

Record Validation : Type := {
  isValid : bool;
  errors : list string
}.

Definition pushIf (cond : bool) (msg : string) (errs : list string) : list string :=
  if cond then errs ++ [msg] else errs.

Definition validateGSTContext (context : GSTCalculationContext) : Validation :=
  let errors := [] in
  let errors :=
    pushIf (negb (truthyNum (orderTotal context)) || leNum (orderTotal context) 0)
           "Order total must be greater than 0" errors in
  let errors :=
    pushIf (negb (truthyNum (subtotal context)) || leNum (subtotal context) 0)
           "Subtotal must be greater than 0" errors in
  let errors :=
    pushIf (negb (truthy (customerState context)) || (trim (customerState context) =? ""))
           "Customer state is required" errors in
  let errors :=
    pushIf (negb (truthy (storeState context)) || (trim (storeState context) =? ""))
           "Store state is required" errors in
  let errors :=
    pushIf (truthy (customerState context) && negb (isState (toUpperCase (customerState context))))
           ("Invalid customer state code: " ++ customerState context) errors in
  let errors :=
    pushIf (truthy (storeState context) && negb (isState (toUpperCase (storeState context))))
           ("Invalid store state code: " ++ storeState context) errors in
  {| isValid := (List.length errors =? 0)%nat; errors := errors |}.

Definition determineGSTRate (orderTotal : Q) (config : GSTRateConfig) : Q :=
  if ltNum orderTotal (threshold config) then lowRate config else highRate config.

Definition getHSNCode (productType hsnCode : option string) : string :=
  let explicit :=
    match hsnCode with
    | Some h => if truthy h && negb (trim h =? "") then Some (trim h) else None
    | None => None
    end in
  match explicit with
  | Some code => code
  | None =>
      let inferred :=
        match productType with
        | Some p =>
            if truthy p then
              let type := toLowerCase p in
              if includes type "blend" || includes type "mix" then Some (hsn_blend TEXTILE_HSN_CODES)
              else if includes type "cotton" then Some (hsn_cotton TEXTILE_HSN_CODES)
              else if includes type "polyester" then Some (hsn_polyester TEXTILE_HSN_CODES)
              else None
            else None
        | None => None
        end in
      match inferred with
      | Some code => code
      | None => hsn_default TEXTILE_HSN_CODES
      end
  end.

Definition normalizeStateCode (stateCode : string) : Exc string :=
  if negb (truthy stateCode) || (trim stateCode =? "") then
    Throw "State code cannot be empty"
  else
    let normalized := toUpperCase (trim stateCode) in
    if negb (isState normalized) then Throw ("Invalid state code: " ++ stateCode)
    else Ok normalized.

(** [Math.round(x * 100) / 100] *)
Definition round2 (x : Q) : Q := divNum (Math_round (mulNum x 100)) 100.

Definition calculateGST (context : GSTCalculationContext) : GSTCalculationResult :=
  let validation := validateGSTContext context in
  if negb (isValid validation) then
    Failure (join ", " (errors validation)) "VALIDATION_ERROR"
  else
    match normalizeStateCode (customerState context) with
    | Throw e => Failure e "CALCULATION_ERROR"
    | Ok customerState =>
    match normalizeStateCode (storeState context) with
    | Throw e => Failure e "CALCULATION_ERROR"
    | Ok storeState =>
        let gstRate := determineGSTRate (orderTotal context) DEFAULT_GST_CONFIG in
        let taxableAmount := subtotal context in
        let totalGstAmount := round2 (mulNum taxableAmount gstRate) in
        let hsnCode := getHSNCode (productType context) (hsnCode context) in
        let isSameState := customerState =? storeState in
        let breakdown :=
          if isSameState then
            let cgstAmount := round2 (divNum totalGstAmount 2) in
            let sgstAmount := round2 (divNum totalGstAmount 2) in
            {| gstType := CGST_SGST;
               gstRate := gstRate;
               cgstAmount := Some cgstAmount;
               sgstAmount := Some sgstAmount;
               igstAmount := None;
               totalGstAmount := totalGstAmount;
               taxableAmount := taxableAmount;
               bd_hsnCode := Some hsnCode |}
          else
            {| gstType := IGST;
               gstRate := gstRate;
               cgstAmount := None;
               sgstAmount := None;
               igstAmount := Some totalGstAmount;
               totalGstAmount := totalGstAmount;
               taxableAmount := taxableAmount;
               bd_hsnCode := Some hsnCode |} in
        let auditTrail :=
          {| audit_orderId := match orderId context with
                              | Some o => if truthy o then o else "unknown"
                              | None => "unknown"
                              end;
             audit_input := context;
             audit_output := breakdown;
             audit_version := "1.0.0" |} in
        Success breakdown auditTrail
    end
    end.

End GstCalculator.

(** ** Node's [path] module (POSIX flavour) and the URI built-ins *)
Module NodePath.
Import JS.

(** [s.split(sep)] for a one-character separator. *)
Fixpoint split (sep : ascii) (s : string) : list string :=
  match s with
  | EmptyString => [EmptyString]
  | String c r =>
      if Ascii.eqb c sep then EmptyString :: split sep r
      else
        match split sep r with
        | [] => [String c EmptyString]
        | seg :: segs => String c seg :: segs
        end
  end.

(** [normalizeString]: the segment stack is kept innermost first. *)
Definition pushSegment (allowAboveRoot : bool) (stack : list string) (seg : string)
  : list string :=
  if (seg =? "") || (seg =? ".") then stack
  else if seg =? ".." then
    match stack with
    | top :: below =>
        if top =? ".." then (if allowAboveRoot then seg :: stack else stack) else below
    | [] => if allowAboveRoot then [seg] else []
    end
  else seg :: stack.

Definition normalizeString (path : string) (allowAboveRoot : bool) : string :=
  join "/" (rev (fold_left (pushSegment allowAboveRoot) (split "/" path) [])).

Definition isAbsolute (path : string) : bool := String.prefix "/" path.

Fixpoint endsWithSlash (path : string) : bool :=
  match path with
  | EmptyString => false
  | String c EmptyString => Ascii.eqb c "/"
  | String _ r => endsWithSlash r
  end.

(** [path.normalize] *)
Definition normalize (path : string) : string :=
  if path =? "" then "."
  else
    let abs := isAbsolute path in
    let trailing := endsWithSlash path in
    let p := normalizeString path (negb abs) in
    if p =? "" then
      if abs then "/" else if trailing then "./" else "."
    else
      let p := if trailing then p ++ "/" else p in
      if abs then "/" ++ p else p.

(** [path.join(a, b)] *)
Definition join2 (a b : string) : string :=
  if a =? "" then (if b =? "" then "." else normalize b)
  else if b =? "" then normalize a
  else normalize (a ++ "/" ++ b).

(** [path.resolve(p)] in a process whose working directory is [cwd]
    (an absolute path). *)
Definition resolve (cwd path : string) : string :=
  let full := if isAbsolute path then path else cwd ++ "/" ++ path in
  let p := normalizeString full false in
  "/" ++ p.

End NodePath.

Module URI.
Import JS.

Definition hexValue (c : ascii) : option nat :=
  if isDigit c then Some (code c - 48)
  else if (65 <=? code c)%nat && (code c <=? 70)%nat then Some (code c - 55)
  else if (97 <=? code c)%nat && (code c <=? 102)%nat then Some (code c - 87)
  else None.

(** First pass of [decodeURIComponent]: every [%] must be followed by two
    hexadecimal digits.  Each output byte is tagged with whether it came
    from an escape. *)
Fixpoint unescapeBytes (s : string) : Exc (list (bool * nat)) :=
  match s with
  | EmptyString => Ok []
  | String c r =>
      if Ascii.eqb c "%" then
        match r with
        | String h1 (String h2 r') =>
            match hexValue h1, hexValue h2 with
            | Some a, Some b =>
                match unescapeBytes r' with
                | Ok l => Ok ((true, 16 * a + b) :: l)
                | Throw e => Throw e
                end
            | _, _ => Throw "URI malformed"
            end
        | _ => Throw "URI malformed"
        end
      else
        match unescapeBytes r with
        | Ok l => Ok ((false, code c) :: l)
        | Throw e => Throw e
        end
  end.

(** Second pass: escaped bytes above 0x7F must spell well-formed UTF-8.
    [need] continuation bytes are still expected, the next one within
    [lo..hi]. *)
Fixpoint utf8Escapes (need lo hi : nat) (l : list (bool * nat)) : bool :=
  match l with
  | [] => (need =? 0)%nat
  | (escaped, b) :: rest =>
      match need with
      | O =>
          if escaped && (128 <=? b)%nat then
            if (194 <=? b)%nat && (b <=? 223)%nat then utf8Escapes 1 128 191 rest
            else if (b =? 224)%nat then utf8Escapes 2 160 191 rest
            else if (b =? 237)%nat then utf8Escapes 2 128 159 rest
            else if (225 <=? b)%nat && (b <=? 239)%nat then utf8Escapes 2 128 191 rest
            else if (b =? 240)%nat then utf8Escapes 3 144 191 rest
            else if (b =? 244)%nat then utf8Escapes 3 128 143 rest
            else if (241 <=? b)%nat && (b <=? 243)%nat then utf8Escapes 3 128 191 rest
            else false
          else utf8Escapes 0 128 191 rest
      | S n =>
          escaped && (lo <=? b)%nat && (b <=? hi)%nat && utf8Escapes n 128 191 rest
      end
  end.

Fixpoint bytesToString (l : list (bool * nat)) : string :=
  match l with
  | [] => EmptyString
  | (_, b) :: rest => String (ascii_of_nat b) (bytesToString rest)
  end.

(** [decodeURIComponent]: throws [URIError] on a malformed escape. *)
Definition decodeURIComponent (s : string) : Exc string :=
  match unescapeBytes s with
  | Throw e => Throw e
  | Ok l => if utf8Escapes 0 128 191 l then Ok (bytesToString l) else Throw "URI malformed"
  end.

Definition hexDigit (n : nat) : ascii :=
  if (n <? 10)%nat then ascii_of_nat (48 + n) else ascii_of_nat (55 + n).

Definition isUnreserved (c : ascii) : bool :=
  isUpper c || isLower c || isDigit c ||
  existsb (Ascii.eqb c) ["-"; "_"; "."; "!"; "~"; "*"; "'"; "("; ")"]%char.

(** [encodeURIComponent] *)
Fixpoint encodeURIComponent (s : string) : string :=
  match s with
  | EmptyString => EmptyString
  | String c r =>
      if isUnreserved c then String c (encodeURIComponent r)
      else String "%" (String (hexDigit (code c / 16))
                               (String (hexDigit (code c mod 16)) (encodeURIComponent r)))
  end.

End URI.

(** ** The local file system, as far as the sources use it *)
Module Fs.

Definition Buffer : Type := string.

(** Regular files by absolute, resolved path.  [writable] is cleared when
    the disk refuses writes; [cwd] is the working directory of the process. *)
Record FileSystem : Type := {
  files : list (string * Buffer);
  writable : bool;
  cwd : string
}.

Fixpoint lookupFile (l : list (string * Buffer)) (path : string) : option Buffer :=
  match l with
  | [] => None
  | (p, b) :: rest => if p =? path then Some b else lookupFile rest path
  end.

Definition existsSync (fs : FileSystem) (path : string) : bool :=
  match lookupFile (files fs) (NodePath.resolve (cwd fs) path) with
  | Some _ => true
  | None => false
  end.

Definition readFile (fs : FileSystem) (path : string) : Exc Buffer :=
  match lookupFile (files fs) (NodePath.resolve (cwd fs) path) with
  | Some b => Ok b
  | None => Throw "ENOENT: no such file or directory"
  end.

Definition writeFile (fs : FileSystem) (path : string) (data : Buffer) : Exc FileSystem :=
  if writable fs then
    Ok {| files := (NodePath.resolve (cwd fs) path, data) :: files fs;
          writable := writable fs;
          cwd := cwd fs |}
  else Throw "EACCES: permission denied".

End Fs.

(** ** app/lib/services/fileStorageService.ts *)
Module FileStorageService.
Import JS Fs.

Record StoredFile : Type := {
  fileKey : string;
  downloadUrl : string;
  size : nat
}.

Definition defaultStoragePath : string := "/var/www/letsprint/storage/invoices".

(** [/[^a-zA-Z0-9-_.]/] *)
Definition isSafeChar (c : ascii) : bool :=
  isLower c || isUpper c || isDigit c ||
  Ascii.eqb c "-" || Ascii.eqb c "_" || Ascii.eqb c ".".

Definition sanitizeChar (c : ascii) : ascii := if isSafeChar c then c else "-"%char.

Definition sanitizeShopName (shop : string) : string := mapChars sanitizeChar shop.
Definition sanitizeFilename (filename : string) : string := mapChars sanitizeChar filename.

(** [storeFile]: [now] is [Date.now()].  Directories are not modelled, so
    [ensureDirectoryExists] leaves no trace. *)
Definition storeFile (storagePath shop : string) (now : Z) (fs : FileSystem)
    (buffer : Buffer) (filename : string) : Exc (FileSystem * StoredFile) :=
  let timestamp := now in
  let sanitizedFilename := sanitizeFilename filename in
  let fileKey :=
    sanitizeShopName shop ++ "/" ++ intToString timestamp ++ "-" ++ sanitizedFilename in
  let filePath := NodePath.join2 storagePath fileKey in
  match writeFile fs filePath buffer with
  | Ok fs' =>
      Ok (fs', {| fileKey := fileKey;
                  downloadUrl := "/api/download/" ++ URI.encodeURIComponent fileKey;
                  size := String.length buffer |})
  | Throw e => Throw ("Failed to store file: " ++ e)
  end.

Definition getFile (storagePath : string) (fs : FileSystem) (fileKey : string) : Exc Buffer :=
  let filePath := NodePath.join2 storagePath fileKey in
  let resolvedPath := NodePath.resolve (cwd fs) filePath in
  let resolvedStoragePath := NodePath.resolve (cwd fs) storagePath in
  let attempt :=
    if negb (startsWith resolvedPath resolvedStoragePath) then Throw "Invalid file path"
    else if negb (existsSync fs filePath) then Throw "File not found"
    else readFile fs filePath in
  match attempt with
  | Ok b => Ok b
  | Throw e => Throw ("Failed to retrieve file: " ++ e)
  end.

End FileStorageService.

(** ** The Prisma tables the routes touch *)
Module Db.
Local Open Scope Q_scope.

Record Invoice : Type := {
  inv_shop : string;
  inv_orderId : string;
  inv_orderName : string;
  invoiceNumber : string;
  inv_fileKey : option string;
  inv_pdfUrl : option string;
  inv_total : option Q;
  inv_gstAmount : Q;
  inv_status : string
}.

Record PrintJob : Type := {
  job_id : nat;
  job_shop : string;
  job_orderIds : list string;
  jobType : string;
  job_status : string;
  job_progress : Z;
  job_downloadUrl : option string;
  job_fileKey : option string;
  job_error : option string;
  job_completedAt : option Z
}.

Record Settings : Type := {
  set_shop : string;
  invoicePrefix : string;
  invoiceStartNumber : Z
}.

Record Database : Type := {
  invoices : list Invoice;
  printJobs : list PrintJob;
  settings : list Settings
}.

(** [db.invoice.findFirst({ where: { fileKey, shop } })] *)
Definition invoiceFindFirst (db : Database) (key shop : string) : option Invoice :=
  find (fun i => match inv_fileKey i with
                 | Some k => (k =? key) && (inv_shop i =? shop)
                 | None => false
                 end) (invoices db).

(** [db.invoice.count({ where: { shop } })] *)
Definition invoiceCount (db : Database) (shop : string) : nat :=
  List.length (filter (fun i => inv_shop i =? shop) (invoices db)).

(** [db.settings.findUnique({ where: { shop } })] *)
Definition settingsFindUnique (db : Database) (shop : string) : option Settings :=
  find (fun s => set_shop s =? shop) (settings db).

(** [db.invoice.create]: the migration declares
    [CREATE UNIQUE INDEX "Invoice_invoiceNumber_key" ON "Invoice"("invoiceNumber")]. *)
Definition invoiceCreate (db : Database) (row : Invoice) : Exc Database :=
  if existsb (fun i => invoiceNumber i =? invoiceNumber row) (invoices db) then
    Throw "Unique constraint failed on the fields: (`invoiceNumber`)"
  else
    Ok {| invoices := invoices db ++ [row];
          printJobs := printJobs db;
          settings := settings db |}.

(** [db.printJob.create]: the new row gets a fresh id. *)
Definition printJobCreate (db : Database) (shop : string) (orderIds : list string)
    (type status : string) : Database * PrintJob :=
  let job := {| job_id := List.length (printJobs db);
                job_shop := shop;
                job_orderIds := orderIds;
                jobType := type;
                job_status := status;
                job_progress := 0%Z;
                job_downloadUrl := None;
                job_fileKey := None;
                job_error := None;
                job_completedAt := None |} in
  ({| invoices := invoices db;
      printJobs := printJobs db ++ [job];
      settings := settings db |}, job).

(** [db.printJob.update({ where: { id }, data })] *)
Definition printJobUpdate (db : Database) (id : nat) (data : PrintJob -> PrintJob) : Database :=
  {| invoices := invoices db;
     printJobs := map (fun j => if (job_id j =? id)%nat then data j else j) (printJobs db);
     settings := settings db |}.

Definition printJobFind (db : Database) (id : nat) : option PrintJob :=
  find (fun j => (job_id j =? id)%nat) (printJobs db).

End Db.

(** ** app/routes/api.download.$fileKey.tsx *)
Module Download.
Import JS Fs Db.

Inductive Body : Type :=
| Text (message : string)
| Pdf (data : Buffer) (contentDisposition : string).

Record Response : Type := {
  status : nat;
  body : Body
}.

(** The loader for an authenticated session of [shop]; [fileKey] is the
    route parameter. *)
Definition loader (db : Database) (fs : FileSystem) (shop : string)
    (fileKey : option string) : Response :=
  match fileKey with
  | None => {| status := 400; body := Text "File key is required" |}
  | Some fileKey =>
      if negb (truthy fileKey) then {| status := 400; body := Text "File key is required" |}
      else
        match URI.decodeURIComponent fileKey with
        | Throw _ => {| status := 500; body := Text "Failed to download file" |}
        | Ok decodedFileKey =>
            match invoiceFindFirst db decodedFileKey shop with
            | None => {| status := 404; body := Text "Invoice not found" |}
            | Some invoice =>
                match FileStorageService.getFile FileStorageService.defaultStoragePath
                        fs decodedFileKey with
                | Ok fileBuffer =>
                    {| status := 200;
                       body := Pdf fileBuffer
                                 ("attachment; filename=" ++ dquote ++ "invoice-"
                                  ++ invoiceNumber invoice ++ ".pdf" ++ dquote) |}
                | Throw _ => {| status := 404; body := Text "File not found in storage" |}
                end
            end
        end
  end.

End Download.

(** ** app/lib/services/bulkInvoiceService.ts *)
Module BulkInvoice.
Import JS.
Local Open Scope Q_scope.

Record BulkInvoiceJob : Type := {
  jobId : string;
  shop : string;
  orderIds : list string;
  userId : string
}.

(** The object handed to [job.progress(...)]. *)
Record Progress : Type := {
  percent : Q;
  total : nat;
  completed : nat;
  failed : nat;
  downloadUrl : option string
}.

(** What [archiver] was asked to pack and what it wrote: the destination,
    one pair of path and name per [archive.file(filePath, { name })] in call
    order, and the entries of the zip in the order written, each with its
    name and its bytes. *)
Record Archive : Type := {
  zipPath : string;
  appended : list (string * string);
  entries : list (string * Fs.Buffer)
}.

Record JobResult : Type := {
  res_success : bool;
  res_total : nat;
  res_completed : nat;
  res_failed : nat;
  res_downloadUrl : string
}.

(** [this.storagePath] of a service built without argument, [STORAGE_PATH]
    being unset. *)
Definition storagePath : string := "/var/www/letsprint/storage/invoices".

(** [path.join(this.storagePath, shop, name)] *)
Definition join3 (a b c : string) : string := NodePath.normalize (a ++ "/" ++ b ++ "/" ++ c).

(** The archiver package behind [archive.file] and [archive.finalize]:
    a path handed to [archive.file] waits for its [lstat], of which several
    run at a time; when the [lstat] of a path returns, its entry is queued
    for writing, and a path whose [lstat] fails is dropped with a warning
    event, to which [createZipFile] does not listen.  The zip therefore
    holds the files that are on the disk, in the order in which their
    [lstat] calls returned; [returned] lists the calls in that order. *)
Definition written (fs : Fs.FileSystem) (returned : list (string * string))
  : list (string * Fs.Buffer) :=
  flat_map (fun call =>
              match Fs.readFile fs (fst call) with
              | Ok data => [(snd call, data)]
              | Throw _ => []
              end) returned.

Section Archiver.

(** What the run does not fix: the order in which the [lstat] calls of
    the archiver return, and the bytes into which the archiver encodes
    the entries it writes. *)
Variable statOrder : list (string * string) -> list (string * string).
Variable zipBytes : list (string * Fs.Buffer) -> Fs.Buffer.

(** [createZipFile]: [now] is [Date.now()] and [fs] the disk at that time.
    The files are read from the disk and the zip is written to it; on a
    disk that refuses writes the promise is never resolved with a name.
    The disk is read as it is before the zip is opened: a file to pack
    that is the zip itself is outside the model. *)
Definition createZipFile (fs : Fs.FileSystem) (now : Z) (shop : string)
    (invoiceFiles : list string) : Exc (string * Archive * Fs.FileSystem) :=
  let timestamp := now in
  let zipFileName := "invoices-" ++ intToString timestamp ++ ".zip" in
  let zipPath := join3 storagePath shop zipFileName in
  let appended := map (fun fileName => (join3 storagePath shop fileName, fileName))
                      invoiceFiles in
  let entries := written fs (statOrder appended) in
  match Fs.writeFile fs zipPath (zipBytes entries) with
  | Throw e => Throw e
  | Ok fs' =>
      Ok (zipFileName,
          {| zipPath := zipPath; appended := appended; entries := entries |},
          fs')
  end.

End Archiver.

Definition getDownloadUrl (shop fileName : string) : string :=
  "/api/download/" ++ fileName ++ "?shop=" ++ shop.

(** The mutable locals of the processor together with the progress object
    last written to the job. *)
Record LoopState : Type := {
  st_completed : nat;
  st_failed : nat;
  generatedFiles : list string;
  persisted : option Progress
}.

Definition initialState : LoopState :=
  {| st_completed := 0; st_failed := 0; generatedFiles := []; persisted := None |}.

Section Processor.

(** The callback given to [initializeQueueProcessor], and what the run
    does not fix of the archiver. *)
Variable generateInvoiceFn : string -> string -> Exc string.
Variable statOrder : list (string * string) -> list (string * string).
Variable zipBytes : list (string * Fs.Buffer) -> Fs.Buffer.

(** One turn of the [for] loop, at index [i]. *)
Definition processItem (shop : string) (total : nat) (s : LoopState) (i : nat)
    (orderId : string) : LoopState :=
  match generateInvoiceFn orderId shop with
  | Ok fileName =>
      let generatedFiles := (generatedFiles s ++ [fileName])%list in
      let completed := S (st_completed s) in
      {| st_completed := completed;
         st_failed := st_failed s;
         generatedFiles := generatedFiles;
         persisted :=
           Some {| percent := Math_round (mulNum (divNum (inject_Z (Z.of_nat (i + 1)))
                                                         (inject_Z (Z.of_nat total)))
                                                 100);
                   total := total;
                   completed := completed;
                   failed := st_failed s;
                   downloadUrl := None |} |}
  | Throw _ =>
      {| st_completed := st_completed s;
         st_failed := S (st_failed s);
         generatedFiles := generatedFiles s;
         persisted := persisted s |}
  end.

(** The loop from index [i] over the remaining ids. *)
Fixpoint loopFrom (shop : string) (total : nat) (i : nat) (ids : list string)
    (s : LoopState) : LoopState :=
  match ids with
  | [] => s
  | orderId :: rest => loopFrom shop total (S i) rest (processItem shop total s i orderId)
  end.

(** The progress object stored on the job after each turn of the loop. *)
Fixpoint progressTrace (shop : string) (total : nat) (i : nat) (ids : list string)
    (s : LoopState) : list (option Progress) :=
  match ids with
  | [] => []
  | orderId :: rest =>
      let s' := processItem shop total s i orderId in
      persisted s' :: progressTrace shop total (S i) rest s'
  end.

Record Outcome : Type := {
  result : JobResult;
  finalProgress : Progress;
  archive : Archive;
  diskAfter : Fs.FileSystem
}.

(** The function registered with [invoiceQueue.process]; [fs] is the
    disk when the archive is made.  A failure of [createZipFile] is not
    caught: the job ends without result. *)
Definition processJob (now : Z) (fs : Fs.FileSystem) (job : BulkInvoiceJob) : Exc Outcome :=
  let total := List.length (orderIds job) in
  let s := loopFrom (shop job) total 0 (orderIds job) initialState in
  match createZipFile statOrder zipBytes fs now (shop job) (generatedFiles s) with
  | Throw e => Throw e
  | Ok (zipFileName, zip, fs') =>
      let downloadUrl := getDownloadUrl (shop job) zipFileName in
      Ok {| result := {| res_success := true;
                         res_total := total;
                         res_completed := st_completed s;
                         res_failed := st_failed s;
                         res_downloadUrl := downloadUrl |};
            finalProgress := {| percent := 100;
                                total := total;
                                completed := st_completed s;
                                failed := st_failed s;
                                downloadUrl := Some downloadUrl |};
            archive := zip;
            diskAfter := fs' |}
  end.

End Processor.

End BulkInvoice.

(** ** The print route (single-order generation and bulk queueing) *)
Module PrintApi.
Import JS Fs Db.
Local Open Scope Q_scope.

(** *** State and exceptions of a request handler

    A handler step reads and writes the database and the disk and may
    throw; what it wrote before throwing stays written. *)
Record World : Type := {
  db : Database;
  fs : FileSystem
}.

Definition M (A : Type) : Type := World -> World * Exc A.

Definition ret {A : Type} (a : A) : M A := fun w => (w, Ok a).
Definition throw {A : Type} (e : string) : M A := fun w => (w, Throw e).
Definition bind {A B : Type} (m : M A) (k : A -> M B) : M B :=
  fun w => match m w with
           | (w', Ok a) => k a w'
           | (w', Throw e) => (w', Throw e)
           end.
Definition tryCatch {A : Type} (m : M A) (handler : string -> M A) : M A :=
  fun w => match m w with
           | (w', Ok a) => (w', Ok a)
           | (w', Throw e) => handler e w'
           end.
Definition liftExc {A : Type} (x : Exc A) : M A := fun w => (w, x).
Definition getDb : M Database := fun w => (w, Ok (db w)).
Definition putDb (d : Database) : M unit := fun w => ({| db := d; fs := fs w |}, Ok tt).
Definition getFs : M FileSystem := fun w => (w, Ok (fs w)).
Definition putFs (f : FileSystem) : M unit := fun w => ({| db := db w; fs := f |}, Ok tt).

Declare Scope handler_scope.
Delimit Scope handler_scope with handler.
Notation "x <- m ;; k" := (bind m (fun x => k))
  (at level 61, m at next level, right associativity) : handler_scope.
Notation "m ;;; k" := (bind m (fun _ => k))
  (at level 61, right associativity) : handler_scope.
Local Open Scope handler_scope.

(** *** What the route sees of an order and of its collaborators *)
Record LineNode : Type := {
  node_title : string;
  node_quantity : Z;
  node_amount : option string
}.

Record LineItem : Type := {
  li_node : LineNode;
  li_price : option Q
}.

Record Order : Type := {
  order_name : option string;
  totalPriceAmount : option string;
  subtotalPriceAmount : option string;
  totalTaxAmount : option string;
  lineItemEdges : option (list LineNode);
  shippingProvinceCode : option string
}.

Record GstSplit : Type := {
  cgst : option Q;
  sgst : option Q;
  igst : option Q
}.

Record OrderWithGST : Type := {
  owg_order : Order;
  line_items : list LineItem;
  total_price : string;
  subtotal_price : string;
  total_tax : string;
  gstBreakdown : option GstSplit
}.

Record PdfResult : Type := {
  pdf_success : bool;
  pdf_buffer : option Buffer;
  pdf_error : option string;
  pdf_filename : option string
}.

(** The services the route imports whose code is not part of the
    repository sources at hand ([fetchOrder] goes to the Shopify Admin API,
    [calculateGSTBreakdown] and [generateOrderPDF] to the services under
    [~/lib/services]), with the clock. *)
Record Collaborators : Type := {
  fetchOrder : string -> Exc (option Order);
  calculateGSTBreakdown : list LineItem -> string -> Exc (option GstSplit);
  generateOrderPDF : OrderWithGST -> string -> Exc PdfResult;
  closeBrowser : Exc unit;
  now : Z
}.

Record Request : Type := {
  method : string;
  session_shop : string;
  body_orderIds : option (list string)
}.

Inductive ResponseBody : Type :=
| Failed (error : string)
| Generated (downloadUrl fileKey invoiceNumber : string) (jobId : nat)
            (pdf : Buffer) (filename : option string)
| Queued (jobId : nat) (message : string).

Record Response : Type := {
  status : nat;
  body : ResponseBody
}.

(** [a || b] on optional strings. *)
Definition orElse (a : option string) (b : string) : string :=
  match a with
  | Some s => if truthy s then s else b
  | None => b
  end.

(** Lines 172-183: the invoice number is the prefix, a dash, and the start
    number plus the count of the shop's invoices. *)
Definition nextInvoiceNumber (d : Database) (shop : string) : string :=
  let settings := settingsFindUnique d shop in
  let invoiceCount := invoiceCount d shop in
  let prefix := orElse (option_map invoicePrefix settings) "INV" in
  let start :=
    match settings with
    | Some s => if (invoiceStartNumber s =? 0)%Z then 1001%Z else invoiceStartNumber s
    | None => 1001%Z
    end in
  prefix ++ "-" ++ intToString (start + Z.of_nat invoiceCount).

Definition failWith (e : string) : Response := {| status := 500; body := Failed e |}.

(** The [data] of the two updates of the print job. *)
Definition jobCompleted (storedFile : FileStorageService.StoredFile) (completedAt : Z)
    (j : PrintJob) : PrintJob :=
  {| job_id := job_id j;
     job_shop := job_shop j;
     job_orderIds := job_orderIds j;
     jobType := jobType j;
     job_status := "completed";
     job_progress := 100%Z;
     job_downloadUrl := Some (FileStorageService.downloadUrl storedFile);
     job_fileKey := Some (FileStorageService.fileKey storedFile);
     job_error := job_error j;
     job_completedAt := Some completedAt |}.

Definition jobFailed (error : string) (j : PrintJob) : PrintJob :=
  {| job_id := job_id j;
     job_shop := job_shop j;
     job_orderIds := job_orderIds j;
     jobType := jobType j;
     job_status := "failed";
     job_progress := job_progress j;
     job_downloadUrl := job_downloadUrl j;
     job_fileKey := job_fileKey j;
     job_error := Some error;
     job_completedAt := job_completedAt j |}.

(** The line items with their unit price parsed. *)
Definition pricedLineItems (order : Order) : list LineItem :=
  match lineItemEdges order with
  | Some edges =>
      map (fun node => {| li_node := node;
                          li_price := parseFloat (orElse (node_amount node) "0") |})
          edges
  | None => []
  end.

Definition customerProvince (order : Order) : string :=
  orElse (shippingProvinceCode order) "MH".

Definition withGST (order : Order) (gstBreakdown : option GstSplit) : OrderWithGST :=
  {| owg_order := order;
     line_items := pricedLineItems order;
     total_price := orElse (totalPriceAmount order) "0";
     subtotal_price := orElse (subtotalPriceAmount order) "0";
     total_tax := orElse (totalTaxAmount order) "0";
     gstBreakdown := gstBreakdown |}.

(** [!pdfResult.success || !pdfResult.buffer] is false. *)
Definition usableBuffer (pdfResult : PdfResult) : option Buffer :=
  if pdf_success pdfResult then pdf_buffer pdfResult else None.

Section Handler.

Variable env : Collaborators.

(** The body of the inner [try] for a single order. *)
Definition generateSingle (shop orderId : string) (printJob : PrintJob) : M Response :=
  order <- liftExc (fetchOrder env orderId) ;;
  match order with
  | None => throw "Order not found"
  | Some order =>
      let lineItems := pricedLineItems order in
      gstBreakdown <- liftExc (calculateGSTBreakdown env lineItems (customerProvince order)) ;;
      let orderWithGST := withGST order gstBreakdown in
      d <- getDb ;;
      let invoiceNumber := nextInvoiceNumber d shop in
      pdfResult <- liftExc (generateOrderPDF env orderWithGST invoiceNumber) ;;
      match usableBuffer pdfResult with
      | Some buffer =>
          let total := parseFloat (orElse (Some (total_price orderWithGST)) "0") in
          let gstAmount :=
            match gstBreakdown with
            | Some g => addNum (addNum (orZero (cgst g)) (orZero (sgst g))) (orZero (igst g))
            | None => 0
            end in
          let filename := "invoice-" ++ invoiceNumber ++ ".pdf" in
          f <- getFs ;;
          stored <- liftExc (FileStorageService.storeFile
                               FileStorageService.defaultStoragePath shop (now env)
                               f buffer filename) ;;
          let '(f', storedFile) := stored in
          putFs f' ;;;
          d <- getDb ;;
          d' <- liftExc (invoiceCreate d
                   {| inv_shop := shop;
                      inv_orderId := orderId;
                      inv_orderName := orElse (order_name order) ("#" ++ orderId);
                      invoiceNumber := invoiceNumber;
                      inv_fileKey := Some (FileStorageService.fileKey storedFile);
                      inv_pdfUrl := Some (FileStorageService.downloadUrl storedFile);
                      inv_total := total;
                      inv_gstAmount := gstAmount;
                      inv_status := "generated" |}) ;;
          putDb (printJobUpdate d' (job_id printJob)
                   (jobCompleted storedFile (now env))) ;;;
          liftExc (closeBrowser env) ;;;
          ret {| status := 200;
                 body := Generated (FileStorageService.downloadUrl storedFile)
                                   (FileStorageService.fileKey storedFile)
                                   invoiceNumber (job_id printJob) buffer
                                   (pdf_filename pdfResult) |}
      | None => throw (orElse (pdf_error pdfResult) "Failed to generate PDF")
      end
  end.

(** The inner [catch]: the browser is closed (a failure to close is only
    logged), the print job is marked failed, and the error is thrown on. *)
Definition markFailed (printJob : PrintJob) (error : string) : M Response :=
  d <- getDb ;;
  putDb (printJobUpdate d (job_id printJob) (jobFailed error)) ;;;
  throw error.

Definition handle (request : Request) : M Response :=
  match body_orderIds request with
  | None | Some [] => ret {| status := 400; body := Failed "Order IDs are required" |}
  | Some [orderId] =>
      let shop := session_shop request in
      d <- getDb ;;
      let '(d', printJob) := printJobCreate d shop [orderId] "single" "processing" in
      putDb d' ;;;
      tryCatch (generateSingle shop orderId printJob) (markFailed printJob)
  | Some orderIds =>
      let shop := session_shop request in
      d <- getDb ;;
      let '(d', printJob) := printJobCreate d shop orderIds "bulk" "queued" in
      putDb d' ;;;
      ret {| status := 200;
             body := Queued (job_id printJob)
                       ("Bulk print job created for "
                        ++ intToString (Z.of_nat (List.length orderIds)) ++ " orders") |}
  end.

(** The route's [action]. *)
Definition action (request : Request) (w : World) : World * Response :=
  if negb (method request =? "POST") then
    (w, {| status := 405; body := Failed "Method not allowed" |})
  else
    match handle request w with
    | (w', Ok response) => (w', response)
    | (w', Throw message) =>
        (w', failWith (if truthy message then message else "Failed to process print request"))
    end.

End Handler.

(** *** The stages of a single-order generation and how they fail *)
Inductive StageFailure (env : Collaborators) (w : World) (shop orderId : string) : Prop :=
| FetchFailed :
    (forall order, fetchOrder env orderId <> Ok (Some order)) ->
    StageFailure env w shop orderId
| TaxFailed (order : Order) (e : string) :
    fetchOrder env orderId = Ok (Some order) ->
    calculateGSTBreakdown env (pricedLineItems order) (customerProvince order) = Throw e ->
    StageFailure env w shop orderId
| PdfFailed (order : Order) (gst : option GstSplit) :
    fetchOrder env orderId = Ok (Some order) ->
    calculateGSTBreakdown env (pricedLineItems order) (customerProvince order) = Ok gst ->
    (forall r, generateOrderPDF env (withGST order gst) (nextInvoiceNumber (db w) shop) = Ok r ->
               usableBuffer r = None) ->
    StageFailure env w shop orderId
| StorageFailed :
    writable (fs w) = false ->
    StageFailure env w shop orderId.

(** The document of a request was rendered and written to the disk. *)
Definition RenderedAndStored (env : Collaborators) (w w' : World) (shop orderId : string)
    (row : Invoice) : Prop :=
  exists order gst pdfResult buffer f' storedFile,
    fetchOrder env orderId = Ok (Some order) /\
    calculateGSTBreakdown env (pricedLineItems order) (customerProvince order) = Ok gst /\
    generateOrderPDF env (withGST order gst) (nextInvoiceNumber (db w) shop) = Ok pdfResult /\
    usableBuffer pdfResult = Some buffer /\
    FileStorageService.storeFile FileStorageService.defaultStoragePath shop (now env)
      (fs w) buffer ("invoice-" ++ nextInvoiceNumber (db w) shop ++ ".pdf")
    = Ok (f', storedFile) /\
    fs w' = f' /\
    inv_shop row = shop /\
    invoiceNumber row = nextInvoiceNumber (db w) shop /\
    inv_fileKey row = Some (FileStorageService.fileKey storedFile).

(** *** Two requests in flight

    Between reading the count and inserting the row a handler awaits the
    PDF engine and the disk, so another request of the same process can run
    in between.  A request is followed here through the two database
    operations that concern the invoice number. *)
Inductive Pc : Type :=
| AtCount
| AtCreate (allocated : string)
| Finished (allocated : string) (outcome : Exc unit).

Record Req : Type := {
  req_shop : string;
  req_orderId : string;
  pc : Pc
}.

Definition invoiceRow (shop orderId number : string) : Invoice :=
  {| inv_shop := shop;
     inv_orderId := orderId;
     inv_orderName := "#" ++ orderId;
     invoiceNumber := number;
     inv_fileKey := None;
     inv_pdfUrl := None;
     inv_total := None;
     inv_gstAmount := 0;
     inv_status := "generated" |}.

Definition stepReq (d : Database) (r : Req) : Database * Req :=
  match pc r with
  | AtCount =>
      (d, {| req_shop := req_shop r; req_orderId := req_orderId r;
             pc := AtCreate (nextInvoiceNumber d (req_shop r)) |})
  | AtCreate number =>
      match invoiceCreate d (invoiceRow (req_shop r) (req_orderId r) number) with
      | Ok d' => (d', {| req_shop := req_shop r; req_orderId := req_orderId r;
                         pc := Finished number (Ok tt) |})
      | Throw e => (d, {| req_shop := req_shop r; req_orderId := req_orderId r;
                          pc := Finished number (Throw e) |})
      end
  | Finished _ _ => (d, r)
  end.

(** A schedule says which of the two requests takes the next step
    ([true] for the first). *)
Fixpoint runSchedule (schedule : list bool) (d : Database) (a b : Req)
  : Database * Req * Req :=
  match schedule with
  | [] => (d, a, b)
  | true :: rest => let '(d', a') := stepReq d a in runSchedule rest d' a' b
  | false :: rest => let '(d', b') := stepReq d b in runSchedule rest d' a b'
  end.

End PrintApi.

(** ** app/lib/services/orderUtils.ts and gstService.ts *)
Module GstService.
Import JS GstCalculator.
Local Open Scope Q_scope.

Record Address : Type := {
  province_code : option string;
  province : option string
}.

Record Property : Type := {
  prop_name : string;
  prop_value : string
}.

Record LineItem : Type := {
  title : string;
  properties : list Property
}.

Record ShopifyOrder : Type := {
  id : string;
  total_price : string;
  subtotal_price : string;
  shipping_address : option Address;
  billing_address : option Address;
  line_items : list LineItem
}.

Record OrderWithGST : Type := {
  order : ShopifyOrder;
  gstBreakdown : GSTBreakdown
}.

Definition getOrderTotal (order : ShopifyOrder) : Q := orZero (parseFloat (total_price order)).
Definition getOrderSubtotal (order : ShopifyOrder) : Q := orZero (parseFloat (subtotal_price order)).

(** The [material] field of [extractTShirtDetails], the only one the
    service reads: the value of the last property whose lower-cased name
    mentions material or fabric and none of the words tried before them. *)
Definition extractMaterial (lineItem : LineItem) : option string :=
  fold_left
    (fun material prop =>
       let key := toLowerCase (prop_name prop) in
       if includes key "size" then material
       else if includes key "color" || includes key "colour" then material
       else if includes key "design" || includes key "print" then material
       else if includes key "material" || includes key "fabric" then Some (prop_value prop)
       else material)
    (properties lineItem) None.

Definition truthyOpt (o : option string) : option string :=
  match o with
  | Some s => if truthy s then Some s else None
  | None => None
  end.

Fixpoint determineProductType (lineItems : list LineItem) : string :=
  match lineItems with
  | [] => "textiles"
  | item :: rest =>
      match truthyOpt (extractMaterial item) with
      | Some material => material
      | None =>
          let title := toLowerCase (title item) in
          if includes title "cotton" then "cotton"
          else if includes title "polyester" then "polyester"
          else if includes title "blend" || includes title "mix" then "blend"
          else determineProductType rest
      end
  end.

Definition provinceCodes : list (string * string) :=
  [ ("maharashtra", "MH"); ("karnataka", "KA"); ("delhi", "DL"); ("tamil nadu", "TN");
    ("gujarat", "GJ"); ("rajasthan", "RJ"); ("uttar pradesh", "UP"); ("west bengal", "WB");
    ("andhra pradesh", "AP"); ("telangana", "TG"); ("kerala", "KL"); ("punjab", "PB");
    ("haryana", "HR"); ("bihar", "BR"); ("odisha", "OR"); ("jharkhand", "JH");
    ("assam", "AS"); ("chhattisgarh", "CG"); ("madhya pradesh", "MP");
    ("himachal pradesh", "HP"); ("uttarakhand", "UT"); ("goa", "GA") ].

(** The value of an own key of an object literal. *)
Fixpoint ownValue (tbl : list (string * string)) (key : string) : option string :=
  match tbl with
  | [] => None
  | (k, v) :: rest => if k =? key then Some v else ownValue rest key
  end.

(** The names every object literal inherits from [Object.prototype]; what
    is found under them is a function or an object, never a string, and it
    is truthy. *)
Definition objectPrototypeKeys : list string :=
  [ "constructor"; "__defineGetter__"; "__defineSetter__"; "hasOwnProperty";
    "__lookupGetter__"; "__lookupSetter__"; "isPrototypeOf"; "propertyIsEnumerable";
    "toString"; "valueOf"; "__proto__"; "toLocaleString" ].

(** What [extractCustomerState] hands on: declared a string, it can be the
    value found under an inherited key. *)
Inductive StateValue : Type :=
| StateCode (code : string)
| Inherited (key : string).

(** [mapping[key]]: the code of an own key, what is inherited under a key
    of [Object.prototype], and [undefined] ([None]) for any other key. *)
Definition lookupProvince (key : string) : option StateValue :=
  match ownValue provinceCodes key with
  | Some c => Some (StateCode c)
  | None =>
      if existsb (String.eqb key) objectPrototypeKeys then Some (Inherited key)
      else None
  end.

(** [mapping[normalized] || provinceName.substring(0, 2).toUpperCase()] *)
Definition mapProvinceNameToCode (provinceName : string) : StateValue :=
  let normalized := trim (toLowerCase provinceName) in
  match lookupProvince normalized with
  | Some v => v
  | None => StateCode (toUpperCase (String.substring 0 2 provinceName))
  end.

Definition extractCustomerState (order : ShopifyOrder) : Exc StateValue :=
  match truthyOpt (match shipping_address order with
                   | Some a => province_code a | None => None end) with
  | Some c => Ok (StateCode (toUpperCase c))
  | None =>
  match truthyOpt (match billing_address order with
                   | Some a => province_code a | None => None end) with
  | Some c => Ok (StateCode (toUpperCase c))
  | None =>
  match truthyOpt (match shipping_address order with
                   | Some a => province a | None => None end) with
  | Some p => Ok (mapProvinceNameToCode p)
  | None =>
  match truthyOpt (match billing_address order with
                   | Some a => province a | None => None end) with
  | Some p => Ok (mapProvinceNameToCode p)
  | None => Throw ("Unable to determine customer state for order " ++ id order)
  end end end end.

(** [calculateGST(context)] where [context.customerState] is what
    [extractCustomerState] returned.  An inherited value is truthy and has
    no [trim]: the call of [context.customerState.trim()] in
    [validateGSTContext] raises a [TypeError], which the [catch] of
    [calculateGST] turns into a CALCULATION_ERROR. *)
Definition calculateGSTFor (customerState : StateValue)
    (context : string -> GSTCalculationContext) : GSTCalculationResult :=
  match customerState with
  | StateCode code => calculateGST (context code)
  | Inherited _ =>
      Failure "context.customerState.trim is not a function" "CALCULATION_ERROR"
  end.

(** [customerState === this.storeState]: an inherited value is no string. *)
Definition sameAsStore (customerState : StateValue) (storeState : string) : bool :=
  match customerState with
  | StateCode code => (code =? storeState)%string
  | Inherited _ => false
  end.

Section Service.

(** [this.storeState] *)
Variable storeState : string.

Definition calculateOrderGST (order : ShopifyOrder) : Exc GSTBreakdown :=
  let attempt :=
    match extractCustomerState order with
    | Throw e => Throw e
    | Ok customerState =>
        let orderTotal := getOrderTotal order in
        let subtotal := getOrderSubtotal order in
        let productType := determineProductType (line_items order) in
        let context := fun customerState =>
          {| GstCalculator.orderTotal := orderTotal;
             GstCalculator.subtotal := subtotal;
             GstCalculator.customerState := customerState;
             GstCalculator.storeState := storeState;
             GstCalculator.productType := Some productType;
             GstCalculator.hsnCode := None;
             GstCalculator.orderId := Some (id order) |} in
        match calculateGSTFor customerState context with
        | Failure error _ => Throw ("GST calculation failed: " ++ error)
        | Success breakdown _ => Ok breakdown
        end
    end in
  match attempt with
  | Ok b => Ok b
  | Throw e => Throw ("Failed to calculate GST for order " ++ id order ++ ": " ++ e)
  end.

Definition addGSTToOrder (order : ShopifyOrder) : Exc OrderWithGST :=
  match calculateOrderGST order with
  | Ok gstBreakdown => Ok {| order := order; gstBreakdown := gstBreakdown |}
  | Throw e => Throw e
  end.

(** The breakdown pushed by the [catch] of [addGSTToOrders]. *)
Definition fallbackBreakdown : GSTBreakdown :=
  {| gstType := IGST;
     gstRate := 0;
     cgstAmount := None;
     sgstAmount := None;
     igstAmount := Some 0;
     totalGstAmount := 0;
     taxableAmount := 0;
     bd_hsnCode := None |}.

Fixpoint addGSTToOrdersFrom (orders : list ShopifyOrder) (ordersWithGST : list OrderWithGST)
  : list OrderWithGST :=
  match orders with
  | [] => ordersWithGST
  | order :: rest =>
      match addGSTToOrder order with
      | Ok orderWithGST => addGSTToOrdersFrom rest (ordersWithGST ++ [orderWithGST])
      | Throw _ =>
          addGSTToOrdersFrom rest
            (ordersWithGST ++ [{| order := order; gstBreakdown := fallbackBreakdown |}])
      end
  end.

Definition addGSTToOrders (orders : list ShopifyOrder) : list OrderWithGST :=
  addGSTToOrdersFrom orders [].

End Service.

End GstService.

(** ** Notions used to state the properties *)
Module Props.
Import JS GstCalculator.
Local Open Scope Q_scope.

Fixpoint allChars (p : ascii -> bool) (s : string) : bool :=
  match s with
  | EmptyString => true
  | String c r => p c && allChars p r
  end.

(** The breakdown of a successful calculation. *)
Definition breakdownOf (r : GSTCalculationResult) : option GSTBreakdown :=
  match r with
  | Success b _ => Some b
  | Failure _ _ => None
  end.

(** A state code is present and, whatever its letter case, one of the
    enumerated codes. *)
Definition knownState (s : string) : Prop :=
  trim s <> "" /\ isState (toUpperCase s) = true.

(** The constraints on the input of the tax engine. *)
Definition meetsConstraints (c : GSTCalculationContext) : Prop :=
  0 < subtotal c /\ 0 < orderTotal c /\
  knownState (customerState c) /\ knownState (storeState c).

Definition notSlash (c : ascii) : bool := negb (Ascii.eqb c "/").

Definition root : string := FileStorageService.defaultStoragePath.

Definition headNotDot (s : string) : bool :=
  match s with
  | String c _ => negb (Ascii.eqb c ".")
  | EmptyString => false
  end.

(** A path segment that names an entry: not empty, not [.] or [..], and
    free of slashes. *)
Definition plainSegment (seg : string) : Prop :=
  seg <> "" /\ seg <> "." /\ seg <> ".." /\ allChars notSlash seg = true.

(** The directory of a shop under the storage root, resolved. *)
Definition shopDirectory (fs : Fs.FileSystem) (shop : string) : string :=
  NodePath.resolve (Fs.cwd fs)
    (NodePath.join2 FileStorageService.defaultStoragePath
                    (FileStorageService.sanitizeShopName shop)).

(** A decoded key names a path strictly inside the shop's directory. *)
Definition insideShopDirectory (fs : Fs.FileSystem) (shop decodedKey : string) : bool :=
  startsWith
    (NodePath.resolve (Fs.cwd fs)
       (NodePath.join2 FileStorageService.defaultStoragePath decodedKey))
    (shopDirectory fs shop ++ "/").

(** The route parameter resolves to a file within the calling shop's
    namespace: it can be decoded, the path it names lies inside the shop's
    directory, and a file is there. *)
Definition resolvesWithinShop (fs : Fs.FileSystem) (shop key : string) : bool :=
  match URI.decodeURIComponent key with
  | Ok decoded =>
      insideShopDirectory fs shop decoded &&
      Fs.existsSync fs (NodePath.join2 FileStorageService.defaultStoragePath decoded)
  | Throw _ => false
  end.

(** Every invoice row carries a key of the shape [storeFile] issues for the
    row's shop: the sanitized shop name, a slash, and one plain segment. *)
Definition keysIssuedByStoreFile (db : Db.Database) : Prop :=
  forall i k, In i (Db.invoices db) -> Db.inv_fileKey i = Some k ->
    exists name, plainSegment name /\
      k = FileStorageService.sanitizeShopName (Db.inv_shop i) ++ "/" ++ name.

(** A small world: two shops, one stored invoice each, and an older
    directory beside the storage root. *)
Definition twoShopsDb : Db.Database :=
  {| Db.invoices :=
       [ {| Db.inv_shop := "acme.myshopify.com"; Db.inv_orderId := "1";
            Db.inv_orderName := "#1"; Db.invoiceNumber := "INV-1001";
            Db.inv_fileKey := Some "acme.myshopify.com/17-invoice-INV-1001.pdf";
            Db.inv_pdfUrl := None; Db.inv_total := Some 800%Q;
            Db.inv_gstAmount := 40%Q; Db.inv_status := "generated" |};
         {| Db.inv_shop := "other.myshopify.com"; Db.inv_orderId := "7";
            Db.inv_orderName := "#7"; Db.invoiceNumber := "OTH-1001";
            Db.inv_fileKey := Some "other.myshopify.com/18-invoice-OTH-1001.pdf";
            Db.inv_pdfUrl := None; Db.inv_total := Some 1500%Q;
            Db.inv_gstAmount := 180%Q; Db.inv_status := "generated" |} ];
     Db.printJobs := [];
     Db.settings := [] |}.

Definition twoShopsFs : Fs.FileSystem :=
  {| Fs.files :=
       [ ("/var/www/letsprint/storage/invoices/acme.myshopify.com/17-invoice-INV-1001.pdf",
          "%PDF acme");
         ("/var/www/letsprint/storage/invoices/other.myshopify.com/18-invoice-OTH-1001.pdf",
          "%PDF other");
         ("/var/www/letsprint/storage/invoices-2023/archive.pdf", "%PDF old") ];
     Fs.writable := true;
     Fs.cwd := "/srv/app" |}.

(** Collaborators of the print route for one order: it can be fetched
    and taxed, and the PDF engine answers [pdf]. *)
Definition sampleOrder : PrintApi.Order :=
  {| PrintApi.order_name := Some "#1001";
     PrintApi.totalPriceAmount := Some "840.00";
     PrintApi.subtotalPriceAmount := Some "800.00";
     PrintApi.totalTaxAmount := Some "40.00";
     PrintApi.lineItemEdges := Some [];
     PrintApi.shippingProvinceCode := Some "MH" |}.

Definition sampleEnv (pdf : Exc PrintApi.PdfResult) : PrintApi.Collaborators :=
  {| PrintApi.fetchOrder := fun _ => Ok (Some sampleOrder);
     PrintApi.calculateGSTBreakdown :=
       fun _ _ => Ok (Some {| PrintApi.cgst := Some 20%Q; PrintApi.sgst := Some 20%Q;
                              PrintApi.igst := None |});
     PrintApi.generateOrderPDF := fun _ _ => pdf;
     PrintApi.closeBrowser := Ok tt;
     PrintApi.now := 1730000000000%Z |}.

Definition samplePdf : PrintApi.PdfResult :=
  {| PrintApi.pdf_success := true; PrintApi.pdf_buffer := Some "%PDF-1.7";
     PrintApi.pdf_error := None; PrintApi.pdf_filename := Some "invoice.pdf" |}.

Definition singleRequest (shop orderId : string) : PrintApi.Request :=
  {| PrintApi.method := "POST"; PrintApi.session_shop := shop;
     PrintApi.body_orderIds := Some [orderId] |}.

Definition twoShopsWorld : PrintApi.World :=
  {| PrintApi.db := twoShopsDb; PrintApi.fs := twoShopsFs |}.

(** A shop with prefix INV, start number 1001 and three invoices, and two
    requests of that shop about to be handled. *)
Definition priorInvoice (number : string) : Db.Invoice :=
  PrintApi.invoiceRow "acme.myshopify.com" "0" number.

Definition threeInvoicesDb : Db.Database :=
  {| Db.invoices := [priorInvoice "INV-1001"; priorInvoice "INV-1002"; priorInvoice "INV-1003"];
     Db.printJobs := [];
     Db.settings := [ {| Db.set_shop := "acme.myshopify.com";
                         Db.invoicePrefix := "INV";
                         Db.invoiceStartNumber := 1001%Z |} ] |}.

Definition requestFor (orderId : string) : PrintApi.Req :=
  {| PrintApi.req_shop := "acme.myshopify.com";
     PrintApi.req_orderId := orderId;
     PrintApi.pc := PrintApi.AtCount |}.

(** The invoice numbers on record. *)
Definition numbersOf (d : Db.Database) : list string := map Db.invoiceNumber (Db.invoices d).

(** A request that has inserted its row holds a number that is on record. *)
Definition recorded (d : Db.Database) (r : PrintApi.Req) : Prop :=
  match PrintApi.pc r with
  | PrintApi.Finished n (Ok _) => In n (numbersOf d)
  | _ => True
  end.

Definition distinctWhenBothInserted (a b : PrintApi.Req) : Prop :=
  match PrintApi.pc a, PrintApi.pc b with
  | PrintApi.Finished n (Ok _), PrintApi.Finished m (Ok _) => n <> m
  | _, _ => True
  end.

(** The outcome of [generateInvoiceFn] on each id, successes kept. *)
Definition generatedBy (gen : string -> string -> Exc string) (shop : string)
    (ids : list string) : list string :=
  flat_map (fun id => match gen id shop with Ok f => [f] | Throw _ => [] end) ids.

Definition failures (gen : string -> string -> Exc string) (shop : string)
    (ids : list string) : nat :=
  List.length (filter (fun id => match gen id shop with Ok _ => false | Throw _ => true end) ids).

(** A generator that fails on one order id. *)
Definition failOn (bad : string) : string -> string -> Exc string :=
  fun orderId _ =>
    if (orderId =? bad)%string then Throw "PDF generation failed"
    else Ok ("invoice-" ++ orderId ++ ".pdf")%string.

(** The figures of a result, fractions reduced: type, rate, total tax,
    CGST, SGST, IGST. *)
Definition figures (b : GSTBreakdown)
  : GSTType * Q * Q * option Q * option Q * option Q :=
  (gstType b, Qred (gstRate b), Qred (totalGstAmount b),
   option_map Qred (cgstAmount b), option_map Qred (sgstAmount b),
   option_map Qred (igstAmount b)).

(** Three orders of one shop, a disk that holds the invoices of the first
    and the third, and a stand-in for the archiver's encoding: the names of
    the entries. *)
Definition sampleJob : BulkInvoice.BulkInvoiceJob :=
  {| BulkInvoice.jobId := "j1"; BulkInvoice.shop := "acme.myshopify.com";
     BulkInvoice.orderIds := ["o1"; "o2"; "o3"]; BulkInvoice.userId := "u" |}.

Definition sampleDisk : Fs.FileSystem :=
  {| Fs.files :=
       [("/var/www/letsprint/storage/invoices/acme.myshopify.com/invoice-o1.pdf", "%PDF-1");
        ("/var/www/letsprint/storage/invoices/acme.myshopify.com/invoice-o3.pdf", "%PDF-3")];
     Fs.writable := true;
     Fs.cwd := "/srv/app" |}.

Definition entryNames (entries : list (string * Fs.Buffer)) : Fs.Buffer :=
  join ";" (map fst entries).

(** A whole number of cents, as the program holds it: [n / 100]. *)
Definition cents (n : Z) : Q := divNum (inject_Z n) 100.

(** Sample inputs. *)
Definition sampleContext (total sub : Q) (customer store : string) : GSTCalculationContext :=
  {| orderTotal := total; subtotal := sub;
     customerState := customer; storeState := store;
     productType := None; hsnCode := None; orderId := None |}.

End Props.

(** ** More of the sources: definitions *)

(** *** gstCalculator.ts: the legacy entry point *)
Module GstCalculatorLegacy.
Import JS GstCalculator.
Local Open Scope Q_scope.

Definition calculateGSTLegacy (orderTotal : Q) (customerState storeState : string)
  : Exc GSTBreakdown :=
  let context :=
    {| GstCalculator.orderTotal := orderTotal;
       subtotal := orderTotal;
       GstCalculator.customerState := customerState;
       GstCalculator.storeState := storeState;
       productType := None;
       hsnCode := None;
       orderId := None |} in
  match calculateGST context with
  | Failure error _ => Throw error
  | Success breakdown _ => Ok breakdown
  end.

End GstCalculatorLegacy.

(** *** orderUtils.ts and gstService.ts: the remaining functions *)
Module GstServiceMore.
Import JS GstCalculator GstService.
Local Open Scope Q_scope.

(** [getHSNCode(lineItem)] of orderUtils.ts. *)
Definition getLineItemHSNCode (lineItem : LineItem) : string :=
  match find (fun prop => includes (toLowerCase (prop_name prop)) "hsn"
                          || includes (toLowerCase (prop_name prop)) "harmonized")
             (properties lineItem) with
  | Some hsnProperty => prop_value hsnProperty
  | None => "6109"
  end.

Definition determineLineItemProductType (lineItem : LineItem) (material : option string)
  : string :=
  match truthyOpt material with
  | Some m => m
  | None =>
      let title := toLowerCase (title lineItem) in
      if includes title "cotton" then "cotton"
      else if includes title "polyester" then "polyester"
      else if includes title "blend" || includes title "mix" then "blend"
      else "textiles"
  end.

Definition getGSTRateForOrder (order : ShopifyOrder) : Q :=
  let total := getOrderTotal order in
  if ltNum total 1000 then double (5 # 100) else double (12 # 100).

(** [parseFloat(s) <= 0]: false on [NaN]. *)
Definition parsesNonPositive (s : string) : bool :=
  match parseFloat s with
  | Some q => leNum q 0
  | None => false
  end.

Definition validateOrderForGST (order : ShopifyOrder) : Validation :=
  let errors := [] in
  let errors := pushIf (negb (truthy (id order))) "Order ID is required" errors in
  let errors :=
    pushIf (negb (truthy (total_price order)) || parsesNonPositive (total_price order))
           "Order total must be greater than 0" errors in
  let errors :=
    pushIf (negb (truthy (subtotal_price order)) || parsesNonPositive (subtotal_price order))
           "Order subtotal must be greater than 0" errors in
  let errors :=
    match extractCustomerState order with
    | Ok _ => errors
    | Throw e => (errors ++ [("Unable to determine customer state: " ++ e)%string])%list
    end in
  let errors :=
    pushIf (List.length (line_items order) =? 0)%nat
           "Order must have at least one line item" errors in
  {| isValid := (List.length errors =? 0)%nat; errors := errors |}.

(** A line item with the fields [calculateLineItemGST] reads besides those
    of [GstService.LineItem]. *)
Record PricedLineItem : Type := {
  pli_item : LineItem;
  pli_id : Z;
  pli_price : string;
  pli_quantity : Q
}.

(** [parseFloat(lineItem.price) * lineItem.quantity].  A price that does
    not parse gives [NaN], written [0] here: [validateGSTContext] rejects
    both with the same two messages and nothing else reads the number. *)
Definition lineItemTotal (p : PricedLineItem) : Q :=
  match parseFloat (pli_price p) with
  | Some x => mulNum x (pli_quantity p)
  | None => 0
  end.

Record LineEntry : Type := {
  le_lineItem : PricedLineItem;
  le_gstBreakdown : GSTBreakdown;
  le_material : option string
}.

(** The order-level breakdown; its rate is [NaN] ([None]) when nothing is
    taxable. *)
Record OrderTotalBreakdown : Type := {
  ot_gstType : GSTType;
  ot_gstRate : option Q;
  ot_taxableAmount : Q;
  ot_totalGstAmount : Q;
  ot_cgstAmount : option Q;
  ot_sgstAmount : option Q;
  ot_igstAmount : option Q
}.

Record LineItemGST : Type := {
  lineItems : list LineEntry;
  orderTotalBreakdown : OrderTotalBreakdown
}.

(** The accumulators of the loop. *)
Record LineAcc : Type := {
  lineItemResults : list LineEntry;
  totalTaxableAmount : Q;
  totalGSTAmount : Q;
  totalCGSTAmount : Q;
  totalSGSTAmount : Q;
  totalIGSTAmount : Q
}.

Definition lineContext (storeState customerState orderId : string) (p : PricedLineItem)
  : GSTCalculationContext :=
  let material := extractMaterial (pli_item p) in
  {| orderTotal := lineItemTotal p;
     subtotal := lineItemTotal p;
     GstCalculator.customerState := customerState;
     GstCalculator.storeState := storeState;
     productType := Some (determineLineItemProductType (pli_item p) material);
     hsnCode := Some (getLineItemHSNCode (pli_item p));
     GstCalculator.orderId := Some orderId |}.

Fixpoint lineLoop (storeState : string) (customerState : StateValue) (orderId : string)
    (items : list PricedLineItem) (acc : LineAcc) : Exc LineAcc :=
  match items with
  | [] => Ok acc
  | lineItem :: rest =>
      match calculateGSTFor customerState
              (fun code => lineContext storeState code orderId lineItem) with
      | Failure error _ =>
          Throw ("GST calculation failed for line item " ++ intToString (pli_id lineItem)
                 ++ ": " ++ error)
      | Success breakdown _ =>
          lineLoop storeState customerState orderId rest
            {| lineItemResults :=
                 (lineItemResults acc ++
                  [{| le_lineItem := lineItem;
                      le_gstBreakdown := breakdown;
                      le_material := extractMaterial (pli_item lineItem) |}])%list;
               totalTaxableAmount :=
                 addNum (totalTaxableAmount acc) (taxableAmount breakdown);
               totalGSTAmount := addNum (totalGSTAmount acc) (totalGstAmount breakdown);
               totalCGSTAmount :=
                 match gstType breakdown with
                 | CGST_SGST => addNum (totalCGSTAmount acc) (orZero (cgstAmount breakdown))
                 | IGST => totalCGSTAmount acc
                 end;
               totalSGSTAmount :=
                 match gstType breakdown with
                 | CGST_SGST => addNum (totalSGSTAmount acc) (orZero (sgstAmount breakdown))
                 | IGST => totalSGSTAmount acc
                 end;
               totalIGSTAmount :=
                 match gstType breakdown with
                 | CGST_SGST => totalIGSTAmount acc
                 | IGST => addNum (totalIGSTAmount acc) (orZero (igstAmount breakdown))
                 end |}
      end
  end.

Definition emptyLineAcc : LineAcc :=
  {| lineItemResults := [];
     totalTaxableAmount := 0; totalGSTAmount := 0;
     totalCGSTAmount := 0; totalSGSTAmount := 0; totalIGSTAmount := 0 |}.

(** [calculateLineItemGST]: [priced] are [order.line_items]. *)
Definition calculateLineItemGST (storeState : string) (order : ShopifyOrder)
    (priced : list PricedLineItem) : Exc LineItemGST :=
  match extractCustomerState order with
  | Throw e => Throw e
  | Ok customerState =>
      match lineLoop storeState customerState (id order) priced emptyLineAcc with
      | Throw e => Throw e
      | Ok acc =>
          let isSameState := sameAsStore customerState storeState in
          Ok {| lineItems := lineItemResults acc;
                orderTotalBreakdown :=
                  {| ot_gstType := if isSameState then CGST_SGST else IGST;
                     ot_gstRate :=
                       if Qeq_bool (totalTaxableAmount acc) 0 then None
                       else Some (divNum (totalGSTAmount acc) (totalTaxableAmount acc));
                     ot_taxableAmount := round2 (totalTaxableAmount acc);
                     ot_totalGstAmount := round2 (totalGSTAmount acc);
                     ot_cgstAmount :=
                       if isSameState then Some (round2 (totalCGSTAmount acc)) else None;
                     ot_sgstAmount :=
                       if isSameState then Some (round2 (totalSGSTAmount acc)) else None;
                     ot_igstAmount :=
                       if isSameState then None else Some (round2 (totalIGSTAmount acc)) |} |}
      end
  end.

(** One entry of [stateWiseBreakdown]. *)
Record StateEntry : Type := {
  orderCount : nat;
  se_taxableAmount : Q;
  se_gstAmount : Q;
  se_gstType : GSTType
}.

Record SummaryAcc : Type := {
  sum_taxable : Q;
  sum_gst : Q;
  sum_cgst : Q;
  sum_sgst : Q;
  sum_igst : Q;
  stateWise : list (string * StateEntry)
}.

(** [stateWiseBreakdown[state]] created on first use, then updated. *)
Fixpoint bumpState (states : list (string * StateEntry)) (state : string)
    (b : GSTBreakdown) : list (string * StateEntry) :=
  match states with
  | [] =>
      [(state, {| orderCount := 1;
                  se_taxableAmount := addNum 0 (taxableAmount b);
                  se_gstAmount := addNum 0 (totalGstAmount b);
                  se_gstType := gstType b |})]
  | (k, e) :: rest =>
      if (k =? state)%string then
        (k, {| orderCount := S (orderCount e);
               se_taxableAmount := addNum (se_taxableAmount e) (taxableAmount b);
               se_gstAmount := addNum (se_gstAmount e) (totalGstAmount b);
               se_gstType := se_gstType e |}) :: rest
      else (k, e) :: bumpState rest state b
  end.

Record GSTSummary : Type := {
  totalOrders : nat;
  sm_totalTaxableAmount : Q;
  sm_totalGSTAmount : Q;
  sm_totalCGSTAmount : Q;
  sm_totalSGSTAmount : Q;
  sm_totalIGSTAmount : Q;
  averageGSTRate : Q;
  stateWiseBreakdown : list (string * StateEntry)
}.

Section Summary.

Variable storeState : string.

(** One turn of the loop of [createGSTSummary]; an order that throws is
    logged and skipped. *)
Definition summaryStep (acc : SummaryAcc) (order : ShopifyOrder) : SummaryAcc :=
  match calculateOrderGST storeState order with
  | Throw _ => acc
  | Ok gstBreakdown =>
      match extractCustomerState order with
      | Throw _ => acc
      | Ok (Inherited _) => acc (* not reached: [calculateOrderGST] has thrown *)
      | Ok (StateCode customerState) =>
          {| sum_taxable := addNum (sum_taxable acc) (taxableAmount gstBreakdown);
             sum_gst := addNum (sum_gst acc) (totalGstAmount gstBreakdown);
             sum_cgst :=
               match gstType gstBreakdown with
               | CGST_SGST => addNum (sum_cgst acc) (orZero (cgstAmount gstBreakdown))
               | IGST => sum_cgst acc
               end;
             sum_sgst :=
               match gstType gstBreakdown with
               | CGST_SGST => addNum (sum_sgst acc) (orZero (sgstAmount gstBreakdown))
               | IGST => sum_sgst acc
               end;
             sum_igst :=
               match gstType gstBreakdown with
               | CGST_SGST => sum_igst acc
               | IGST => addNum (sum_igst acc) (orZero (igstAmount gstBreakdown))
               end;
             stateWise := bumpState (stateWise acc) customerState gstBreakdown |}
      end
  end.

Definition emptySummaryAcc : SummaryAcc :=
  {| sum_taxable := 0; sum_gst := 0; sum_cgst := 0; sum_sgst := 0; sum_igst := 0;
     stateWise := [] |}.

Definition createGSTSummary (orders : list ShopifyOrder) : GSTSummary :=
  let acc := fold_left summaryStep orders emptySummaryAcc in
  {| totalOrders := List.length orders;
     sm_totalTaxableAmount := round2 (sum_taxable acc);
     sm_totalGSTAmount := round2 (sum_gst acc);
     sm_totalCGSTAmount := round2 (sum_cgst acc);
     sm_totalSGSTAmount := round2 (sum_sgst acc);
     sm_totalIGSTAmount := round2 (sum_igst acc);
     averageGSTRate :=
       if ltNum 0 (sum_taxable acc)
       then divNum (Math_round (mulNum (divNum (sum_gst acc) (sum_taxable acc)) 10000)) 10000
       else 0;
     stateWiseBreakdown := stateWise acc |}.

End Summary.

End GstServiceMore.

(** *** fileStorageService.ts: the remaining functions on single files *)
Module FileStorageMore.
Import JS Fs FileStorageService.

(** [fs.unlink]: a later write to the same path had replaced the earlier
    one, so every entry of the path goes. *)
Definition unlink (fs : FileSystem) (path : string) : Exc FileSystem :=
  let resolved := NodePath.resolve (cwd fs) path in
  if negb (writable fs) then Throw "EACCES: permission denied"
  else
    match lookupFile (files fs) resolved with
    | None => Throw "ENOENT: no such file or directory"
    | Some _ =>
        Ok {| files := filter (fun e => negb (fst e =? resolved)) (files fs);
              writable := writable fs;
              cwd := cwd fs |}
    end.

Definition getFileUrl (storagePath : string) (fs : FileSystem) (fileKey : string)
  : option string :=
  let filePath := NodePath.join2 storagePath fileKey in
  if existsSync fs filePath then Some ("/api/download/" ++ URI.encodeURIComponent fileKey)
  else None.

(** [deleteFile]: the file system afterwards and the boolean returned;
    whatever is thrown is caught and answered with [false]. *)
Definition deleteFile (storagePath : string) (fs : FileSystem) (fileKey : string)
  : FileSystem * bool :=
  let filePath := NodePath.join2 storagePath fileKey in
  let resolvedPath := NodePath.resolve (cwd fs) filePath in
  let resolvedStoragePath := NodePath.resolve (cwd fs) storagePath in
  if negb (startsWith resolvedPath resolvedStoragePath) then (fs, false)
  else if existsSync fs filePath then
    match unlink fs filePath with
    | Ok fs' => (fs', true)
    | Throw _ => (fs, false)
    end
  else (fs, false).

End FileStorageMore.

(** *** app/routes/api.send-invoice.tsx *)
Module SendInvoice.
Import JS Fs Db.

(** [path.join(...segments)] *)
Definition pathJoin (segments : list string) : string :=
  match filter truthy segments with
  | [] => "."
  | parts => NodePath.normalize (join "/" parts)
  end.

Record Form : Type := {
  invoiceId : option string;
  customerEmail : option string
}.

Record Response : Type := {
  status : nat;
  success : bool;
  message : string
}.

Definition present (o : option string) : bool :=
  match o with
  | Some s => truthy s
  | None => false
  end.

(** The action up to the point where the PDF has been read, in a process
    where [STORAGE_PATH] is not set.  [invoice] is
    the row [db.invoice.findUnique({ where: { id } })] returns,
    [smtpPassword] and [smtpFromEmail] are the two fields read from the
    shop's settings, and [deliver] is the rest of the action: the customer
    lookup, the call of the mail service and the status update. *)
Definition action (fs : FileSystem) (shop : string) (form : Form) (invoice : option Invoice)
    (smtpPassword smtpFromEmail : option string)
    (deliver : Invoice -> Buffer -> Response) : Response :=
  if negb (present (invoiceId form)) || negb (present (customerEmail form)) then
    {| status := 400; success := false; message := "Missing required parameters" |}
  else
    match invoice with
    | None => {| status := 404; success := false; message := "Invoice not found" |}
    | Some invoice =>
        if negb (inv_shop invoice =? shop) then
          {| status := 404; success := false; message := "Invoice not found" |}
        else if negb (present smtpPassword) || negb (present smtpFromEmail) then
          {| status := 400; success := false;
             message := "Email not configured. Please add SendGrid API key in Settings → Email Settings" |}
        else if negb (present (inv_fileKey invoice)) then
          {| status := 404; success := false; message := "PDF file not found" |}
        else
          let storagePath := "/var/www/letsprint/storage/invoices" in
          let filePath :=
            pathJoin [storagePath; shop;
                      match inv_fileKey invoice with Some k => k | None => "" end] in
          match readFile fs filePath with
          | Ok pdfBuffer => deliver invoice pdfBuffer
          | Throw _ =>
              {| status := 500; success := false; message := "PDF file not accessible" |}
          end
    end.

End SendInvoice.

(** *** bulkInvoiceService.ts: the status of a job *)
Module BulkInvoiceMore.
Import JS BulkInvoice.
Local Open Scope Q_scope.

Record JobStatus : Type := {
  js_status : string;
  js_progress : Q;
  js_total : nat;
  js_completed : nat;
  js_failed : nat;
  js_downloadUrl : option string
}.

(** [getJobStatus]: [job] is what [invoiceQueue.getJob(jobId)] resolves
    to, given by the state Bull reports for it and the progress object last
    stored on it; before anything was stored [job.progress()] is the number
    0, whose fields are all undefined. *)
Definition getJobStatus (job : option (string * option Progress)) : Exc JobStatus :=
  match job with
  | None => Throw "Job not found"
  | Some (state, progress) =>
      Ok {| js_status := state;
            js_progress :=
              match progress with
              | Some p => if truthyNum (percent p) then percent p else 0
              | None => 0
              end;
            js_total := match progress with Some p => total p | None => 0%nat end;
            js_completed := match progress with Some p => completed p | None => 0%nat end;
            js_failed := match progress with Some p => failed p | None => 0%nat end;
            js_downloadUrl :=
              match progress with Some p => downloadUrl p | None => None end |}
  end.

End BulkInvoiceMore.

(** *** Notions used to state further properties *)
Module PropsMore.
Import JS GstCalculator GstService GstServiceMore.
Local Open Scope Q_scope.

(** A running sum, added up in list order from [init]. *)
Definition sumFrom (init : Q) (l : list Q) : Q := fold_left addNum l init.

(** An order for which [calculateOrderGST] returns a breakdown. *)
Definition gstSucceeds (storeState : string) (order : ShopifyOrder) : bool :=
  match calculateOrderGST storeState order with
  | Ok _ => true
  | Throw _ => false
  end.

(** The orders counted in a state-wise breakdown. *)
Definition countedOrders (states : list (string * StateEntry)) : nat :=
  list_sum (map (fun e => orderCount (snd e)) states).

(** No property of the line item names an HSN code. *)
Definition noHsnProperty (item : LineItem) : Prop :=
  forall prop, In prop (properties item) ->
    includes (toLowerCase (prop_name prop)) "hsn" = false /\
    includes (toLowerCase (prop_name prop)) "harmonized" = false.

(** A character of the ASCII range. *)
Definition isAscii (c : ascii) : bool := (code c <? 128)%nat.

(** Every file on the disk lies where [storeFile] puts files: under the
    storage root, in a directory, under a name. *)
Definition laidOutByStoreFile (fs : Fs.FileSystem) : Prop :=
  forall path, In path (map fst (Fs.files fs)) ->
    exists directory name,
      Props.plainSegment directory /\ Props.plainSegment name /\
      path = (Props.root ++ "/" ++ directory ++ "/" ++ name)%string.

(** A disk that holds one stored invoice, and the row recorded for it. *)
Definition acmeFs : Fs.FileSystem :=
  {| Fs.files :=
       [ ("/var/www/letsprint/storage/invoices/acme.myshopify.com/17-invoice-INV-1001.pdf",
          "%PDF acme") ];
     Fs.writable := true;
     Fs.cwd := "/srv/app" |}.

Definition acmeInvoice : Db.Invoice :=
  {| Db.inv_shop := "acme.myshopify.com"; Db.inv_orderId := "1";
     Db.inv_orderName := "#1"; Db.invoiceNumber := "INV-1001";
     Db.inv_fileKey := Some "acme.myshopify.com/17-invoice-INV-1001.pdf";
     Db.inv_pdfUrl := None; Db.inv_total := Some 800%Q;
     Db.inv_gstAmount := 40%Q; Db.inv_status := "generated" |}.

(** Sample orders and lines. *)
Definition plainItem (title : string) : LineItem :=
  {| title := title; properties := [] |}.

Definition shippedTo (code total sub : string) (items : list LineItem) : ShopifyOrder :=
  {| id := "5001"; total_price := total; subtotal_price := sub;
     shipping_address := Some {| province_code := Some code; province := None |};
     billing_address := None; line_items := items |}.

Definition pricedLine (title price : string) (quantity : Q) : PricedLineItem :=
  {| pli_item := plainItem title; pli_id := 7%Z; pli_price := price;
     pli_quantity := quantity |}.

Definition twoLineOrder (code : string) : ShopifyOrder :=
  shippedTo code "1100.00" "1100.00" [plainItem "Cotton tee"; plainItem "Polyester tee"].

Definition twoLines : list PricedLineItem :=
  [pricedLine "Cotton tee" "600.00" 1; pricedLine "Polyester tee" "250.00" 2].

End PropsMore.

(** * Properties *)

(** ** Strings *)
Section StringFacts.
Import JS Props.

Lemma prefix_app (p s : string) : String.prefix p (p ++ s) = true.
Proof.
  induction p as [|c p IH]; simpl.
  - now destruct s.
  - destruct (ascii_dec c c) as [_|n]; [exact IH | now elim n].
Qed.

Lemma includes_prefix (s sub : string) : String.prefix sub s = true -> includes s sub = true.
Proof. intros H. destruct s; cbn [includes]; rewrite H; reflexivity. Qed.

Lemma includes_app (a sub b : string) : includes (a ++ sub ++ b) sub = true.
Proof.
  induction a as [|c a IH].
  - change (includes (sub ++ b) sub = true). apply includes_prefix. apply prefix_app.
  - change (includes (String c (a ++ sub ++ b)) sub = true).
    cbn [includes]. rewrite IH. apply orb_true_r.
Qed.

Lemma includes_self_app (sub b : string) : includes (sub ++ b) sub = true.
Proof. exact (includes_app "" sub b). Qed.

Lemma append_empty_r (s : string) : s ++ "" = s.
Proof. induction s as [|c s IH]; simpl; [reflexivity | now rewrite IH]. Qed.

Lemma append_assoc (a b c : string) : (a ++ b) ++ c = a ++ (b ++ c).
Proof. induction a as [|x a IH]; simpl; [reflexivity | now rewrite IH]. Qed.

(** Every element of a joined list can be read in the result. *)
Lemma includes_join (sep : string) (l : list string) (e : string) :
  In e l -> includes (join sep l) e = true.
Proof.
  unfold join. induction l as [|x l IH]; simpl; [contradiction|].
  intros [->|H].
  - destruct l as [|y l].
    + rewrite <- (append_empty_r e) at 1. apply includes_self_app.
    + apply includes_self_app.
  - destruct l as [|y l]; [contradiction|].
    specialize (IH H).
    assert (G : forall a s, includes s e = true -> includes (a ++ s) e = true).
    { induction a as [|c a IHa]; intros s Hs; [exact Hs|].
      change (includes (String c (a ++ s)) e = true). cbn [includes].
      rewrite (IHa s Hs). apply orb_true_r. }
    apply G, G, IH.
Qed.

Lemma allChars_trimStart (s : string) :
  allChars (fun c => negb (isWhiteSpace c)) s = true -> trimStart s = s.
Proof.
  destruct s as [|c s]; simpl; [reflexivity|].
  intros H. apply andb_true_iff in H. destruct H as [H _].
  now destruct (isWhiteSpace c).
Qed.

Lemma allChars_trimEnd (s : string) :
  allChars (fun c => negb (isWhiteSpace c)) s = true -> trimEnd s = s.
Proof.
  induction s as [|c s IH]; simpl; [reflexivity|].
  intros H. apply andb_true_iff in H. destruct H as [Hc Hs].
  rewrite (IH Hs). destruct s; [|reflexivity].
  now destruct (isWhiteSpace c).
Qed.

Lemma allChars_trim (s : string) :
  allChars (fun c => negb (isWhiteSpace c)) s = true -> trim s = s.
Proof.
  intros H. unfold trim. rewrite (allChars_trimStart s H). now apply allChars_trimEnd.
Qed.

Lemma upper_not_space (c : ascii) :
  isUpper (upperChar c) = true -> negb (isWhiteSpace c) = true.
Proof.
  destruct c as [[] [] [] [] [] [] [] []]; vm_compute; intros H;
    first [reflexivity | discriminate H].
Qed.

Lemma allChars_upper_not_space (s : string) :
  allChars isUpper (toUpperCase s) = true ->
  allChars (fun c => negb (isWhiteSpace c)) s = true.
Proof.
  induction s as [|c s IH]; simpl; [reflexivity|].
  intros H. apply andb_true_iff in H. destruct H as [Hc Hs].
  rewrite (upper_not_space c Hc). exact (IH Hs).
Qed.

End StringFacts.

(** ** Numbers *)
Section NumberFacts.
Import JS GstCalculator Props.
Local Open Scope Q_scope.

Lemma roundHalfEven_near (y : Q) :
  y - (1 # 2) <= inject_Z (roundHalfEven y) /\ inject_Z (roundHalfEven y) <= y + (1 # 2).
Proof.
  unfold roundHalfEven.
  pose proof (Qfloor_le y) as L. pose proof (Qlt_floor y) as U.
  rewrite inject_Z_plus in U. change (inject_Z 1) with 1 in U.
  destruct (Qcompare_spec (y - inject_Z (Qfloor y)) (1 # 2)) as [E|E|E].
  - destruct (Z.even (Qfloor y)).
    + split; lra.
    + rewrite inject_Z_plus. change (inject_Z 1) with 1. split; lra.
  - split; lra.
  - rewrite inject_Z_plus. change (inject_Z 1) with 1. split; lra.
Qed.

Lemma two_power_pos (z : Z) : 0 < Qpower 2 z.
Proof. apply Qpower_0_lt. reflexivity. Qed.

Lemma binaryExponent_le (x : Q) : 0 < x -> Qpower 2 (binaryExponent x) <= x.
Proof.
  intros Hx. unfold binaryExponent.
  destruct (Qle_bool _ x) eqn:T; [now apply Qle_bool_iff|].
  destruct x as [p q]. cbn [Qnum Qden].
  assert (Hp : (0 < p)%Z) by (unfold Qlt in Hx; cbn in Hx; lia).
  pose proof (Z.log2_spec p Hp) as [A _].
  pose proof (Z.log2_spec (Zpos q) (Pos2Z.is_pos q)) as [_ B].
  pose proof (Z.log2_nonneg p) as Na. pose proof (Z.log2_nonneg (Zpos q)) as Nb.
  replace (Z.log2 p - Z.log2 (Zpos q) - 1)%Z
    with (Z.log2 p - Z.succ (Z.log2 (Zpos q)))%Z by lia.
  rewrite Qpower_minus by discriminate.
  rewrite <- (Zpower_Qpower 2 (Z.log2 p)) by exact Na.
  rewrite <- (Zpower_Qpower 2 (Z.succ (Z.log2 (Zpos q)))) by lia.
  set (a := (2 ^ Z.log2 p)%Z) in *. set (b := (2 ^ Z.succ (Z.log2 (Zpos q)))%Z) in *.
  assert (Hb : (0 < b)%Z) by lia.
  apply Qle_shift_div_r; [unfold Qlt; cbn; lia|].
  unfold Qle, Qmult, inject_Z. cbn. nia.
Qed.

Lemma doublePos_error (x : Q) :
  0 < x ->
  x - x * (1 # 9007199254740992) <= doublePos x /\
  doublePos x <= x + x * (1 # 9007199254740992).
Proof.
  intros Hx. unfold doublePos.
  pose proof (binaryExponent_le x Hx) as E. set (e := binaryExponent x) in *.
  pose proof (roundHalfEven_near (x * Qpower 2 (52 - e))) as [L U].
  set (m := inject_Z (roundHalfEven (x * Qpower 2 (52 - e)))) in *.
  pose proof (two_power_pos (e - 52)) as P.
  assert (I : Qpower 2 (52 - e) * Qpower 2 (e - 52) == 1).
  { rewrite <- Qpower_plus by discriminate. replace (52 - e + (e - 52))%Z with 0%Z by lia.
    reflexivity. }
  assert (S : Qpower 2 (e - 52) == Qpower 2 e * (1 # 4503599627370496)).
  { unfold Zminus. rewrite Qpower_plus by discriminate. reflexivity. }
  set (P1 := Qpower 2 (52 - e)) in *. set (P2 := Qpower 2 (e - 52)) in *.
  set (Pe := Qpower 2 e) in *.
  assert (X : x * P1 * P2 == x) by (rewrite <- Qmult_assoc, I; ring).
  assert (L' : (x * P1 - (1 # 2)) * P2 <= m * P2) by (apply Qmult_le_compat_r; lra).
  assert (U' : m * P2 <= (x * P1 + (1 # 2)) * P2) by (apply Qmult_le_compat_r; lra).
  assert (H2 : P2 * (1 # 2) <= x * (1 # 9007199254740992)).
  { rewrite S.
    assert (Z : Pe * (1 # 4503599627370496) * (1 # 2) == Pe * (1 # 9007199254740992)) by ring.
    rewrite Z. apply Qmult_le_compat_r; [exact E|discriminate]. }
  split.
  - assert (Q1 : (x * P1 - (1 # 2)) * P2 == x - P2 * (1 # 2)) by (rewrite <- X at 2; ring).
    lra.
  - assert (Q1 : (x * P1 + (1 # 2)) * P2 == x + P2 * (1 # 2)) by (rewrite <- X at 2; ring).
    lra.
Qed.

(** A double is within one part in 2^53 of the number it stands for. *)
Lemma double_error (x : Q) :
  0 <= x ->
  x - x * (1 # 9007199254740992) <= double x /\
  double x <= x + x * (1 # 9007199254740992).
Proof.
  intros Hx. unfold double. rewrite Qred_correct.
  pose proof (Qred_correct x) as R.
  destruct (Qcompare_spec (Qred x) 0) as [E|E|E].
  - split; lra.
  - lra.
  - destruct (doublePos_error (Qred x) E) as [L U]. split; lra.
Qed.

Lemma double_nonneg (x : Q) : 0 <= x -> 0 <= double x.
Proof. intros H. destruct (double_error x H) as [L _]. lra. Qed.


Lemma double_comp (x y : Q) : x == y -> double x = double y.
Proof. intros E. unfold double. now rewrite (Qred_complete x y E). Qed.

(** [Math.round] gives the whole number within a half, the upper one at a
    tie. *)
Lemma Math_round_spec (x : Q) :
  exists n : Z,
    Math_round x = inject_Z n /\ x - (1 # 2) < inject_Z n /\ inject_Z n <= x + (1 # 2).
Proof.
  exists (Qfloor (x + (1 # 2))). split; [reflexivity|].
  pose proof (Qfloor_le (x + (1 # 2))) as L. pose proof (Qlt_floor (x + (1 # 2))) as U.
  rewrite inject_Z_plus in U. change (inject_Z 1) with 1 in U. split; lra.
Qed.

(** Rounding an amount of at most 10^12 to cents gives a whole number of
    cents, within half a cent and the rounding error of one multiplication
    of the amount. *)
Lemma round2_cents (x : Q) :
  0 <= x -> x <= 1000000000000 ->
  exists n : Z,
    round2 x = cents n /\ (0 <= n <= 2 ^ 50)%Z /\
    x * 100 - x * 100 * (1 # 9007199254740992) - (1 # 2) < inject_Z n /\
    inject_Z n <= x * 100 + x * 100 * (1 # 9007199254740992) + (1 # 2).
Proof.
  intros X0 X1. unfold round2.
  destruct (Math_round_spec (mulNum x 100)) as (n & E & L & U).
  exists n. rewrite E. split; [reflexivity|].
  unfold mulNum in L, U.
  assert (Y0 : 0 <= x * 100) by lra.
  destruct (double_error _ Y0) as [L1 U1].
  set (y := double (x * 100)) in *.
  assert (A : inject_Z (-1) < inject_Z n) by (change (inject_Z (-1)) with (- (1)); lra).
  assert (B : inject_Z n < inject_Z (2 ^ 50)).
  { change (inject_Z (2 ^ 50)) with 1125899906842624. lra. }
  rewrite <- Zlt_Qlt in A, B. split; [lia|]. split; lra.
Qed.

Ltac flatten_div :=
  repeat match goal with
  | H : context [?a / 100] |- _ => change (a / 100) with (a * (1 # 100)) in H
  | H : context [?a / 2] |- _ => change (a / 2) with (a * (1 # 2)) in H
  | |- context [?a / 100] => change (a / 100) with (a * (1 # 100))
  | |- context [?a / 2] => change (a / 2) with (a * (1 # 2))
  end.

(** Half a whole number of cents, rounded to cents, is a whole number of
    cents, and twice that number is within one of the number halved. *)
Lemma halved_cents (n : Z) :
  (0 <= n <= 2 ^ 50)%Z ->
  exists m : Z, round2 (divNum (cents n) 2) = cents m /\ (n - 1 <= 2 * m <= n + 1)%Z.
Proof.
  intros [N0 N1].
  unfold round2.
  destruct (Math_round_spec (mulNum (divNum (cents n) 2) 100)) as (m & E & L & U).
  exists m. rewrite E. split; [reflexivity|].
  assert (Q0 : 0 <= inject_Z n) by (rewrite <- (Zle_Qle 0); exact N0).
  assert (Q1 : inject_Z n <= inject_Z (2 ^ 50)) by (rewrite <- Zle_Qle; exact N1).
  change (inject_Z (2 ^ 50)) with 1125899906842624 in Q1.
  unfold cents, mulNum, divNum in L, U.
  set (q := inject_Z n) in *. flatten_div.
  assert (X0 : 0 <= q * (1 # 100)) by lra.
  destruct (double_error _ X0) as [L1 U1].
  pose proof (double_nonneg _ X0) as P1.
  set (T := double (q * (1 # 100))) in *.
  assert (X1 : 0 <= T * (1 # 2)) by lra.
  destruct (double_error _ X1) as [L2 U2].
  pose proof (double_nonneg _ X1) as P2.
  set (h := double (T * (1 # 2))) in *.
  assert (X2 : 0 <= h * 100) by lra.
  destruct (double_error _ X2) as [L3 U3].
  set (y := double (h * 100)) in *.
  assert (A : inject_Z (n - 2) < inject_Z (2 * m)).
  { rewrite inject_Z_mult. unfold Zminus. rewrite inject_Z_plus. fold q.
    change (inject_Z 2) with 2. change (inject_Z (- (2))) with (- (2)). lra. }
  assert (B : inject_Z (2 * m) < inject_Z (n + 2)).
  { rewrite inject_Z_mult, inject_Z_plus. fold q. change (inject_Z 2) with 2. lra. }
  rewrite <- Zlt_Qlt in A, B. lia.
Qed.

End NumberFacts.

(** ** The tax engine *)
Section TaxEngine.
Import JS GstCalculator Props.
Local Open Scope Q_scope.

Lemma lookupState_in (tbl : list (string * StateInfo)) (k : string) (v : StateInfo) :
  lookupState tbl k = Some v -> In k (map fst tbl).
Proof.
  induction tbl as [|[k' v'] tbl IH]; simpl; [discriminate|].
  destruct (k' =? k)%string eqn:E.
  - intros _. left. now apply String.eqb_eq.
  - intros H. right. exact (IH H).
Qed.

(** The enumerated codes are made of capital letters. *)
Lemma isState_upper (k : string) : isState k = true -> allChars isUpper k = true.
Proof.
  unfold isState. destruct (lookupState INDIAN_STATES k) as [v|] eqn:E; [|discriminate].
  intros _. apply lookupState_in in E. simpl in E.
  repeat (destruct E as [<-|E]; [reflexivity|]). contradiction.
Qed.

Lemma isState_trim (s : string) : isState (toUpperCase s) = true -> trim s = s.
Proof.
  intros H. apply allChars_trim, allChars_upper_not_space, isState_upper, H.
Qed.

Lemma truthy_trim (s : string) : trim s <> "" -> truthy s = true.
Proof. destruct s; [intros H; now elim H | reflexivity]. Qed.

Lemma eqb_empty_false (s : string) : s <> "" -> (s =? "")%string = false.
Proof. intros H. apply String.eqb_neq, H. Qed.

(** A code that passes validation is normalized to its upper-case form. *)
Lemma knownState_normalizes (s : string) :
  knownState s -> normalizeStateCode s = Ok (toUpperCase s).
Proof.
  intros [Hne Hst]. unfold normalizeStateCode.
  rewrite (truthy_trim s Hne), (eqb_empty_false _ Hne). simpl.
  rewrite (isState_trim s Hst), Hst. reflexivity.
Qed.

Lemma leNum_false (x : Q) : leNum x 0 = false -> 0 < x.
Proof.
  unfold leNum. intros H. apply Qnot_le_lt. intros L.
  apply Qle_bool_iff in L. congruence.
Qed.

Lemma leNum_true (x : Q) : ~ 0 < x -> leNum x 0 = true.
Proof. intros H. apply Qle_bool_iff, Qnot_lt_le, H. Qed.

Ltac split_conditions :=
  unfold validateGSTContext; cbv zeta; unfold pushIf;
  repeat match goal with
         | |- context [if ?c then _ else _] => destruct c eqn:?
         end.

(** Validation succeeds exactly when none of its six tests fires. *)
Lemma valid_conditions (c : GSTCalculationContext) :
  isValid (validateGSTContext c) = true ->
  (negb (truthyNum (orderTotal c)) || leNum (orderTotal c) 0 = false) /\
  (negb (truthyNum (subtotal c)) || leNum (subtotal c) 0 = false) /\
  (negb (truthy (customerState c)) || (trim (customerState c) =? "")%string = false) /\
  (negb (truthy (storeState c)) || (trim (storeState c) =? "")%string = false) /\
  (truthy (customerState c) && negb (isState (toUpperCase (customerState c))) = false) /\
  (truthy (storeState c) && negb (isState (toUpperCase (storeState c))) = false).
Proof.
  split_conditions; simpl; intros H; try discriminate H; repeat split; reflexivity.
Qed.

Lemma present_known (s : string) :
  negb (truthy s) || (trim s =? "")%string = false ->
  truthy s && negb (isState (toUpperCase s)) = false ->
  knownState s.
Proof.
  intros H1 H2. apply orb_false_iff in H1. destruct H1 as [Ht He].
  apply negb_false_iff in Ht. rewrite Ht in H2. simpl in H2.
  apply negb_false_iff in H2. split; [|exact H2].
  now apply String.eqb_neq.
Qed.

Lemma valid_meetsConstraints (c : GSTCalculationContext) :
  isValid (validateGSTContext c) = true -> meetsConstraints c.
Proof.
  intros H. destruct (valid_conditions c H) as (H1 & H2 & H3 & H4 & H5 & H6).
  apply orb_false_iff in H1, H2. destruct H1 as [_ H1], H2 as [_ H2].
  repeat split.
  - now apply leNum_false.
  - now apply leNum_false.
  - exact (proj1 (present_known _ H3 H5)).
  - exact (proj2 (present_known _ H3 H5)).
  - exact (proj1 (present_known _ H4 H6)).
  - exact (proj2 (present_known _ H4 H6)).
Qed.

(** What a calculation on validated input returns. *)
Lemma calculateGST_valid (c : GSTCalculationContext) :
  isValid (validateGSTContext c) = true ->
  exists b a,
    calculateGST c = Success b a /\
    gstRate b = determineGSTRate (orderTotal c) DEFAULT_GST_CONFIG /\
    taxableAmount b = subtotal c /\
    totalGstAmount b = round2 (mulNum (subtotal c) (gstRate b)) /\
    if (toUpperCase (customerState c) =? toUpperCase (storeState c))%string
    then gstType b = CGST_SGST /\
         cgstAmount b = Some (round2 (divNum (totalGstAmount b) 2)) /\
         sgstAmount b = Some (round2 (divNum (totalGstAmount b) 2)) /\
         igstAmount b = None
    else gstType b = IGST /\
         igstAmount b = Some (totalGstAmount b) /\
         cgstAmount b = None /\ sgstAmount b = None.
Proof.
  intros H. destruct (valid_meetsConstraints c H) as (_ & _ & Hc & Hs).
  unfold calculateGST. rewrite H. cbn [negb].
  rewrite (knownState_normalizes _ Hc), (knownState_normalizes _ Hs). cbv zeta.
  destruct (toUpperCase (customerState c) =? toUpperCase (storeState c))%string;
    eexists; eexists; (split; [reflexivity|]);
    cbn [gstRate taxableAmount totalGstAmount gstType cgstAmount sgstAmount igstAmount];
    repeat split; reflexivity.
Qed.

Lemma rates_differ : lowRate DEFAULT_GST_CONFIG <> highRate DEFAULT_GST_CONFIG.
Proof. vm_compute. discriminate. Qed.

(** Both rates lie between nothing and an eighth. *)
Lemma rate_bounds (total : Q) :
  0 < determineGSTRate total DEFAULT_GST_CONFIG /\
  determineGSTRate total DEFAULT_GST_CONFIG <= 1 # 8.
Proof.
  unfold determineGSTRate.
  destruct (ltNum total (threshold DEFAULT_GST_CONFIG));
    vm_compute; split; (reflexivity || discriminate).
Qed.

(** The tax on a subtotal of at most 10^12 is a whole number of cents,
    within 0.51 cent of subtotal times rate. *)
Lemma total_cents (s r : Q) :
  0 < s -> s <= 1000000000000 -> 0 < r -> r <= 1 # 8 ->
  exists n : Z,
    round2 (mulNum s r) = cents n /\ (0 <= n <= 2 ^ 50)%Z /\
    s * r * 100 - (51 # 100) < inject_Z n /\
    inject_Z n <= s * r * 100 + (51 # 100).
Proof.
  intros S0 S1 R0 R1.
  assert (P0 : 0 <= s * r) by (apply Qmult_le_0_compat; lra).
  assert (P1 : s * r <= s * (1 # 8)) by (apply Qmult_le_l; assumption).
  destruct (double_error _ P0) as [L U]. unfold mulNum.
  set (p := s * r) in *. set (x := double p) in *.
  assert (X0 : 0 <= x) by lra.
  assert (X1 : x <= 1000000000000) by lra.
  destruct (round2_cents x X0 X1) as (n & E & B & Ln & Un).
  exists n. split; [exact E|]. split; [exact B|]. split; lra.
Qed.

Lemma ltNum_iff (x y : Q) : ltNum x y = true <-> x < y.
Proof.
  unfold ltNum. rewrite negb_true_iff. split.
  - intros H. apply Qnot_le_lt. intros L. apply Qle_bool_iff in L. congruence.
  - intros H. destruct (Qle_bool y x) eqn:E; [|reflexivity].
    apply Qle_bool_iff in E. exfalso. exact (Qlt_not_le _ _ H E).
Qed.

(** C2, as the code has it: on validated input the rate is the low rate
    exactly when the ORDER TOTAL is below the threshold, and the high rate
    otherwise; the taxable subtotal plays no part in the choice. *)
Theorem calculateGST_rate_follows_order_total (c : GSTCalculationContext) :
  isValid (validateGSTContext c) = true ->
  exists b a,
    calculateGST c = Success b a /\
    (gstRate b = lowRate DEFAULT_GST_CONFIG <-> orderTotal c < threshold DEFAULT_GST_CONFIG) /\
    (gstRate b = highRate DEFAULT_GST_CONFIG <-> ~ orderTotal c < threshold DEFAULT_GST_CONFIG).
Proof.
  intros H. destruct (calculateGST_valid c H) as (b & a & E & R & _).
  exists b, a. split; [exact E|]. rewrite R. unfold determineGSTRate.
  destruct (ltNum (orderTotal c) (threshold DEFAULT_GST_CONFIG)) eqn:L.
  - apply ltNum_iff in L. split; split; intros; try reflexivity; try assumption.
    + now elim rates_differ.
    + contradiction.
  - assert (N : ~ orderTotal c < threshold DEFAULT_GST_CONFIG).
    { intros L'. apply ltNum_iff in L'. congruence. }
    split; split; intros; try reflexivity; try assumption.
    + now elim rates_differ.
    + contradiction.
Qed.

Lemma rate_follows_order_total_witness :
  isValid (validateGSTContext (sampleContext 800 800 "MH" "MH")) = true /\
  exists b a,
    calculateGST (sampleContext 800 800 "MH" "MH") = Success b a /\
    (gstRate b = lowRate DEFAULT_GST_CONFIG <-> 800 < threshold DEFAULT_GST_CONFIG) /\
    (gstRate b = highRate DEFAULT_GST_CONFIG <-> ~ 800 < threshold DEFAULT_GST_CONFIG).
Proof.
  split; [reflexivity|].
  exact (calculateGST_rate_follows_order_total (sampleContext 800 800 "MH" "MH") eq_refl).
Defined.

(** C2 as stated fails: an order of 1200 with a taxable subtotal of 900
    passes validation, its subtotal is below the threshold, and the rate
    used is the high one. *)
Lemma rate_ignores_subtotal :
  isValid (validateGSTContext (sampleContext 1200 900 "MH" "KA")) = true /\
  subtotal (sampleContext 1200 900 "MH" "KA") < threshold DEFAULT_GST_CONFIG /\
  option_map gstRate (breakdownOf (calculateGST (sampleContext 1200 900 "MH" "KA")))
    = Some (highRate DEFAULT_GST_CONFIG) /\
  highRate DEFAULT_GST_CONFIG <> lowRate DEFAULT_GST_CONFIG.
Proof.
  split; [reflexivity|]. split; [reflexivity|]. split; [vm_compute; reflexivity|].
  vm_compute. discriminate.
Qed.

(** C3, as the code has it: with equal normalized state codes, and a
    subtotal of at most 10^12, the total tax is a whole number of cents
    and is split into CGST and SGST, each the total halved and rounded to
    cents on its own, with no interstate component.  The two components
    are equal; their sum is the total, or one cent more, or one cent less.
    Nothing is reconciled. *)
Theorem calculateGST_same_state_split (c : GSTCalculationContext) :
  isValid (validateGSTContext c) = true ->
  toUpperCase (trim (customerState c)) = toUpperCase (trim (storeState c)) ->
  subtotal c <= 1000000000000 ->
  exists b a n m,
    calculateGST c = Success b a /\
    gstType b = CGST_SGST /\
    totalGstAmount b = cents n /\
    cgstAmount b = Some (cents m) /\
    sgstAmount b = Some (cents m) /\
    igstAmount b = None /\
    cents m = round2 (divNum (totalGstAmount b) 2) /\
    (0 <= n)%Z /\
    (2 * m = n - 1 \/ 2 * m = n \/ 2 * m = n + 1)%Z.
Proof.
  intros H Same Bound.
  destruct (valid_meetsConstraints c H) as (Sub & _ & [_ Hc] & [_ Hs]).
  rewrite (isState_trim _ Hc), (isState_trim _ Hs) in Same.
  destruct (calculateGST_valid c H) as (b & a & E & R & _ & T & S).
  rewrite Same, String.eqb_refl in S. destruct S as (S1 & S2 & S3 & S4).
  destruct (rate_bounds (orderTotal c)) as [R0 R1]. rewrite <- R in R0, R1.
  destruct (total_cents (subtotal c) (gstRate b) Sub Bound R0 R1) as (n & N & B & _).
  destruct (halved_cents n B) as (m & M & D).
  rewrite N in T. rewrite T in S2, S3. rewrite M in S2, S3.
  exists b, a, n, m.
  repeat (split; [assumption|]).
  split; [rewrite T; symmetry; exact M|]. lia.
Qed.

Lemma same_state_split_witness :
  isValid (validateGSTContext (sampleContext 800 800 "mh" "MH")) = true /\
  toUpperCase (trim "mh") = toUpperCase (trim "MH") /\
  800 <= 1000000000000 /\
  exists b a n m,
    calculateGST (sampleContext 800 800 "mh" "MH") = Success b a /\
    gstType b = CGST_SGST /\
    totalGstAmount b = cents n /\
    cgstAmount b = Some (cents m) /\
    sgstAmount b = Some (cents m) /\
    igstAmount b = None /\
    cents m = round2 (divNum (totalGstAmount b) 2) /\
    (0 <= n)%Z /\
    (2 * m = n - 1 \/ 2 * m = n \/ 2 * m = n + 1)%Z.
Proof.
  split; [reflexivity|]. split; [reflexivity|]. split; [discriminate|].
  apply (calculateGST_same_state_split (sampleContext 800 800 "mh" "MH"));
    [reflexivity | reflexivity | discriminate].
Defined.

(** C3 as stated fails: for a subtotal of 1 within Maharashtra the total
    tax is 0.05, both components are 0.03, and their sum 0.06 is not the
    total. *)
Lemma split_exceeds_total :
  isValid (validateGSTContext (sampleContext 1 1 "MH" "MH")) = true /\
  option_map totalGstAmount (breakdownOf (calculateGST (sampleContext 1 1 "MH" "MH")))
    = Some (cents 5) /\
  option_map cgstAmount (breakdownOf (calculateGST (sampleContext 1 1 "MH" "MH")))
    = Some (Some (cents 3)) /\
  option_map sgstAmount (breakdownOf (calculateGST (sampleContext 1 1 "MH" "MH")))
    = Some (Some (cents 3)) /\
  addNum (cents 3) (cents 3) = cents 6 /\
  ~ (cents 6 == cents 5).
Proof.
  split; [reflexivity|].
  split; [vm_compute; reflexivity|]. split; [vm_compute; reflexivity|].
  split; [vm_compute; reflexivity|]. split; [vm_compute; reflexivity|].
  vm_compute. discriminate.
Qed.

(** The sum of the components can also fall short: for a subtotal of
    160.50 within Maharashtra the total tax is 8.03 and both components
    are 4.01. *)
Example split_falls_short :
  let c := sampleContext (321 # 2) (321 # 2) "MH" "MH" in
  option_map totalGstAmount (breakdownOf (calculateGST c)) = Some (cents 803) /\
  option_map cgstAmount (breakdownOf (calculateGST c)) = Some (Some (cents 401)) /\
  option_map sgstAmount (breakdownOf (calculateGST c)) = Some (Some (cents 401)) /\
  addNum (cents 401) (cents 401) = cents 802.
Proof. vm_compute. repeat split; reflexivity. Qed.

(** The messages of the validator, test by test. *)
Lemma errors_complete (c : GSTCalculationContext) :
  let errs := errors (validateGSTContext c) in
  (negb (truthyNum (orderTotal c)) || leNum (orderTotal c) 0 = true ->
   In "Order total must be greater than 0" errs) /\
  (negb (truthyNum (subtotal c)) || leNum (subtotal c) 0 = true ->
   In "Subtotal must be greater than 0" errs) /\
  (negb (truthy (customerState c)) || (trim (customerState c) =? "")%string = true ->
   In "Customer state is required" errs) /\
  (negb (truthy (storeState c)) || (trim (storeState c) =? "")%string = true ->
   In "Store state is required" errs) /\
  (truthy (customerState c) && negb (isState (toUpperCase (customerState c))) = true ->
   In ("Invalid customer state code: " ++ customerState c) errs) /\
  (truthy (storeState c) && negb (isState (toUpperCase (storeState c))) = true ->
   In ("Invalid store state code: " ++ storeState c) errs).
Proof.
  cbv zeta. split_conditions; cbn [errors app]; repeat split; intros X;
    try discriminate X; cbn [In]; tauto.
Qed.

Lemma unknown_state_reported (s required invalid : string) (errs : list string) :
  (negb (truthy s) || (trim s =? "")%string = true -> In required errs) ->
  (truthy s && negb (isState (toUpperCase s)) = true -> In invalid errs) ->
  ~ knownState s -> In required errs \/ In invalid errs.
Proof.
  intros R I N. destruct (trim s =? "")%string eqn:E.
  - left. apply R. apply orb_true_r.
  - apply String.eqb_neq in E.
    destruct (isState (toUpperCase s)) eqn:S.
    + elim N. now split.
    + right. apply I. now rewrite (truthy_trim s E).
Qed.

(** C6: an input that violates a constraint gets no calculation but one
    VALIDATION_ERROR failure, whose message is the comma-separated list
    of the validator's findings and names every violated constraint. *)
Theorem calculateGST_reports_every_violation (c : GSTCalculationContext) :
  ~ meetsConstraints c ->
  let errs := errors (validateGSTContext c) in
  calculateGST c = Failure (join ", " errs) "VALIDATION_ERROR" /\
  breakdownOf (calculateGST c) = None /\
  (~ 0 < orderTotal c -> In "Order total must be greater than 0" errs) /\
  (~ 0 < subtotal c -> In "Subtotal must be greater than 0" errs) /\
  (~ knownState (customerState c) ->
   In "Customer state is required" errs \/
   In ("Invalid customer state code: " ++ customerState c) errs) /\
  (~ knownState (storeState c) ->
   In "Store state is required" errs \/
   In ("Invalid store state code: " ++ storeState c) errs) /\
  (forall e, In e errs -> includes (join ", " errs) e = true).
Proof.
  intros V errs.
  assert (F : calculateGST c = Failure (join ", " errs) "VALIDATION_ERROR").
  { unfold calculateGST. destruct (isValid (validateGSTContext c)) eqn:E.
    - elim V. now apply valid_meetsConstraints.
    - reflexivity. }
  destruct (errors_complete c) as (E1 & E2 & E3 & E4 & E5 & E6).
  split; [exact F|]. split; [rewrite F; reflexivity|].
  split; [intros N; apply E1; rewrite (leNum_true _ N); apply orb_true_r|].
  split; [intros N; apply E2; rewrite (leNum_true _ N); apply orb_true_r|].
  split; [exact (unknown_state_reported _ _ _ _ E3 E5)|].
  split; [exact (unknown_state_reported _ _ _ _ E4 E6)|].
  intros e. apply includes_join.
Qed.

Lemma reports_every_violation_witness :
  ~ meetsConstraints (sampleContext (-100) 0 "INVALID" "  ") /\
  calculateGST (sampleContext (-100) 0 "INVALID" "  ")
  = Failure ("Order total must be greater than 0, Subtotal must be greater than 0, "
             ++ "Store state is required, Invalid customer state code: INVALID, "
             ++ "Invalid store state code:   ")
            "VALIDATION_ERROR".
Proof.
  assert (V : ~ meetsConstraints (sampleContext (-100) 0 "INVALID" "  ")).
  { intros (H & _). discriminate H. }
  split; [exact V|].
  exact (proj1 (calculateGST_reports_every_violation _ V)).
Defined.

(** The expectations of the repository's own test suite, and the two
    scenarios of the specification. *)
Example repository_test_values :
  option_map figures (breakdownOf (calculateGST (sampleContext 800 800 "MH" "MH")))
  = Some (CGST_SGST, lowRate DEFAULT_GST_CONFIG, 40, Some 20, Some 20, None) /\
  option_map figures (breakdownOf (calculateGST (sampleContext 1500 1500 "KA" "KA")))
  = Some (CGST_SGST, highRate DEFAULT_GST_CONFIG, 180, Some 90, Some 90, None) /\
  option_map figures (breakdownOf (calculateGST (sampleContext 750 750 "MH" "KA")))
  = Some (IGST, lowRate DEFAULT_GST_CONFIG, 75 # 2, None, None, Some (75 # 2)) /\
  option_map figures (breakdownOf (calculateGST (sampleContext 1500 1500 "DL" "KA")))
  = Some (IGST, highRate DEFAULT_GST_CONFIG, 180, None, None, Some 180) /\
  option_map figures (breakdownOf (calculateGST (sampleContext 1000 1000 "MH" "MH")))
  = Some (CGST_SGST, highRate DEFAULT_GST_CONFIG, 120, Some 60, Some 60, None) /\
  option_map figures
    (breakdownOf (calculateGST (sampleContext (double (99999 # 100)) (double (99999 # 100)) "MH" "KA")))
  = Some (IGST, lowRate DEFAULT_GST_CONFIG, 50, None, None, Some 50) /\
  option_map figures (breakdownOf (calculateGST (sampleContext 1500 1500 "mh" "ka")))
  = Some (IGST, highRate DEFAULT_GST_CONFIG, 180, None, None, Some 180) /\
  normalizeStateCode "  ka  " = Ok "KA" /\
  normalizeStateCode "   " = Throw "State code cannot be empty" /\
  normalizeStateCode "INVALID" = Throw "Invalid state code: INVALID".
Proof. vm_compute. repeat split; reflexivity. Qed.

End TaxEngine.

(** ** The HSN resolver *)
Section HsnResolver.
Import JS GstCalculator Props.

(** C9, as the code has it: an explicit code that is not blank is returned
    TRIMMED; without one, the lower-cased product-type hint decides, blend
    or mix before cotton before polyester; without a matching hint the
    default code is returned.  Being a function of its two arguments, the
    resolver is deterministic and has no effect. *)
Theorem getHSNCode_resolution (productType hsnCode : option string) :
  (forall h, hsnCode = Some h -> trim h <> "" -> getHSNCode productType hsnCode = trim h) /\
  ((hsnCode = None \/ exists h, hsnCode = Some h /\ trim h = "") ->
   (forall p, productType = Some p ->
      includes (toLowerCase p) "blend" = true \/ includes (toLowerCase p) "mix" = true ->
      getHSNCode productType hsnCode = hsn_blend TEXTILE_HSN_CODES) /\
   (forall p, productType = Some p ->
      includes (toLowerCase p) "blend" = false -> includes (toLowerCase p) "mix" = false ->
      includes (toLowerCase p) "cotton" = true ->
      getHSNCode productType hsnCode = hsn_cotton TEXTILE_HSN_CODES) /\
   (forall p, productType = Some p ->
      includes (toLowerCase p) "blend" = false -> includes (toLowerCase p) "mix" = false ->
      includes (toLowerCase p) "cotton" = false ->
      includes (toLowerCase p) "polyester" = true ->
      getHSNCode productType hsnCode = hsn_polyester TEXTILE_HSN_CODES) /\
   (productType = None \/
    (exists p, productType = Some p /\
       includes (toLowerCase p) "blend" = false /\ includes (toLowerCase p) "mix" = false /\
       includes (toLowerCase p) "cotton" = false /\
       includes (toLowerCase p) "polyester" = false) ->
    getHSNCode productType hsnCode = hsn_default TEXTILE_HSN_CODES)).
Proof.
  split.
  - intros h -> Hne. unfold getHSNCode.
    now rewrite (truthy_trim h Hne), (eqb_empty_false _ Hne).
  - intros Hno.
    assert (E : match hsnCode with
                | Some h => if truthy h && negb (trim h =? "") then Some (trim h) else None
                | None => None
                end = None).
    { destruct Hno as [->|(h & -> & Hb)]; [reflexivity|].
      rewrite Hb. cbn. now rewrite andb_false_r. }
    unfold getHSNCode. rewrite E. clear E Hno.
    repeat split.
    + intros p -> [H|H]; destruct (truthy p) eqn:T.
      * now rewrite H.
      * destruct p; [discriminate H | discriminate T].
      * rewrite H. now rewrite orb_true_r.
      * destruct p; [discriminate H | discriminate T].
    + intros p -> H1 H2 H3. destruct (truthy p) eqn:T.
      * now rewrite H1, H2, H3.
      * destruct p; [discriminate H3 | discriminate T].
    + intros p -> H1 H2 H3 H4. destruct (truthy p) eqn:T.
      * now rewrite H1, H2, H3, H4.
      * destruct p; [discriminate H4 | discriminate T].
    + intros [->|(p & -> & H1 & H2 & H3 & H4)]; [reflexivity|].
      rewrite H1, H2, H3, H4. now destruct (truthy p).
Qed.

(** C9 as stated fails: a code supplied with blanks around it is not used
    verbatim. *)
Lemma explicit_code_is_trimmed :
  trim " 6205 " <> "" /\
  getHSNCode None (Some " 6205 ") = "6205" /\
  getHSNCode None (Some " 6205 ") <> " 6205 ".
Proof. repeat split; discriminate || reflexivity. Qed.

Example hsn_examples :
  getHSNCode (Some "cotton") (Some "1234") = "1234" /\
  getHSNCode (Some "100% Cotton") None = "6109.10" /\
  getHSNCode (Some "cotton-polyester blend") None = "6109.90" /\
  getHSNCode (Some "mixed fabric") None = "6109.90" /\
  getHSNCode (Some "polyester shirt") (Some "   ") = "6109.90" /\
  getHSNCode (Some "unknown fabric") None = "6109" /\
  getHSNCode None None = "6109".
Proof. repeat split; reflexivity. Qed.

End HsnResolver.

(** ** Adding GST to a list of orders *)
Section OrderGst.
Import JS GstCalculator GstService Props.
Local Open Scope Q_scope.

Variable storeState : string.

Lemma addGSTToOrdersFrom_map (orders : list ShopifyOrder) (acc : list OrderWithGST) :
  addGSTToOrdersFrom storeState orders acc =
  (acc ++ map (fun o => {| order := o;
                           gstBreakdown := match calculateOrderGST storeState o with
                                           | Ok b => b
                                           | Throw _ => fallbackBreakdown
                                           end |}) orders)%list.
Proof.
  revert acc. induction orders as [|o orders IH]; intros acc; simpl.
  - now rewrite app_nil_r.
  - unfold addGSTToOrder. destruct (calculateOrderGST storeState o);
      rewrite IH, <- app_assoc; reflexivity.
Qed.

(** C10: one result per order, in order; an order whose calculation throws
    is kept, with the fallback breakdown (IGST, rate 0, amounts 0); the
    others carry the calculated breakdown.  No failure leaves the function. *)
Theorem addGSTToOrders_never_fails (orders : list ShopifyOrder) :
  List.length (addGSTToOrders storeState orders) = List.length orders /\
  Forall2 (fun o r =>
             order r = o /\
             match calculateOrderGST storeState o with
             | Ok b => gstBreakdown r = b
             | Throw _ =>
                 gstBreakdown r = fallbackBreakdown /\
                 gstType (gstBreakdown r) = IGST /\
                 gstRate (gstBreakdown r) = 0 /\
                 taxableAmount (gstBreakdown r) = 0 /\
                 totalGstAmount (gstBreakdown r) = 0 /\
                 igstAmount (gstBreakdown r) = Some 0 /\
                 cgstAmount (gstBreakdown r) = None /\
                 sgstAmount (gstBreakdown r) = None
             end)
          orders (addGSTToOrders storeState orders).
Proof.
  unfold addGSTToOrders. rewrite addGSTToOrdersFrom_map. simpl. split.
  - apply length_map.
  - induction orders as [|o orders IH]; simpl; constructor; [|exact IH].
    split; [reflexivity|]. simpl.
    destruct (calculateOrderGST storeState o); [reflexivity|].
    repeat split; reflexivity.
Qed.

End OrderGst.

(** Three orders for a store in Maharashtra: one in order, one without a
    total, one without an address.  The last two come back with the
    fallback breakdown. *)
Example addGSTToOrders_fallbacks :
  let address := Some {| GstService.province_code := Some "mh";
                         GstService.province := None |} in
  let item := {| GstService.title := "Cotton Tee"; GstService.properties := [] |} in
  let good := {| GstService.id := "1"; GstService.total_price := "840.00";
                 GstService.subtotal_price := "800.00";
                 GstService.shipping_address := address;
                 GstService.billing_address := None;
                 GstService.line_items := [item] |} in
  let free := {| GstService.id := "2"; GstService.total_price := "0.00";
                 GstService.subtotal_price := "0.00";
                 GstService.shipping_address := address;
                 GstService.billing_address := None;
                 GstService.line_items := [item] |} in
  let lost := {| GstService.id := "3"; GstService.total_price := "500";
                 GstService.subtotal_price := "500";
                 GstService.shipping_address := None;
                 GstService.billing_address := None;
                 GstService.line_items := [item] |} in
  map (fun r => (GstService.id (GstService.order r),
                 Props.figures (GstService.gstBreakdown r),
                 GstCalculator.bd_hsnCode (GstService.gstBreakdown r)))
      (GstService.addGSTToOrders "MH" [good; free; lost])
  = [ ("1", (GstCalculator.CGST_SGST, GstCalculator.lowRate GstCalculator.DEFAULT_GST_CONFIG,
             40%Q, Some 20%Q, Some 20%Q, None),
       Some "6109.10");
      ("2", (GstCalculator.IGST, 0%Q, 0%Q, None, None, Some 0%Q), None);
      ("3", (GstCalculator.IGST, 0%Q, 0%Q, None, None, Some 0%Q), None) ] /\
  GstService.calculateOrderGST "MH" lost
  = Throw "Failed to calculate GST for order 3: Unable to determine customer state for order 3".
Proof. vm_compute. split; reflexivity. Qed.

(** ** The bulk queue processor *)
Section BulkProcessor.
Import JS BulkInvoice Props.
Local Open Scope Q_scope.

Variable gen : string -> string -> Exc string.
Variable statOrder : list (string * string) -> list (string * string).
Variable zipBytes : list (string * Fs.Buffer) -> Fs.Buffer.

Lemma loopFrom_counts (shop : string) (total : nat) (ids : list string) :
  forall (i : nat) (s : LoopState),
    let s' := loopFrom gen shop total i ids s in
    st_completed s' = (st_completed s + (List.length ids - failures gen shop ids))%nat /\
    st_failed s' = (st_failed s + failures gen shop ids)%nat /\
    generatedFiles s' = (generatedFiles s ++ generatedBy gen shop ids)%list /\
    (failures gen shop ids <= List.length ids)%nat.
Proof.
  unfold failures, generatedBy.
  induction ids as [|id ids IH]; intros i s; cbn [loopFrom].
  - cbn. rewrite app_nil_r. repeat split; lia.
  - specialize (IH (S i) (processItem gen shop total s i id)).
    cbv zeta in IH. destruct IH as (C & F & G & L).
    cbv zeta. rewrite C, F, G. unfold processItem. cbn [flat_map filter].
    destruct (gen id shop) as [f|e]; cbn [st_completed st_failed generatedFiles List.length];
      rewrite <- ?app_assoc; repeat split; try reflexivity; cbn [List.length] in *; lia.
Qed.

Lemma generatedBy_length (shop : string) (ids : list string) :
  (List.length (generatedBy gen shop ids) + failures gen shop ids = List.length ids)%nat.
Proof.
  unfold generatedBy, failures. induction ids as [|id ids IH]; [reflexivity|].
  cbn [flat_map filter]. destruct (gen id shop); cbn [List.length app] in *; lia.
Qed.

Lemma written_length (fs : Fs.FileSystem) (calls : list (string * string)) :
  (List.length (written fs calls) <= List.length calls)%nat.
Proof.
  unfold written. induction calls as [|call calls IH]; [reflexivity|].
  cbn [flat_map]. rewrite length_app. destruct (Fs.readFile fs (fst call));
    cbn [List.length] in *; lia.
Qed.

Lemma written_all (fs : Fs.FileSystem) (calls : list (string * string)) :
  (forall call, In call calls -> Fs.existsSync fs (fst call) = true) ->
  List.length (written fs calls) = List.length calls.
Proof.
  unfold written. induction calls as [|call calls IH]; intros A; [reflexivity|].
  cbn [flat_map]. rewrite length_app, IH by (intros c Hc; apply A; now right).
  pose proof (A call (or_introl eq_refl)) as E.
  unfold Fs.existsSync in E. unfold Fs.readFile.
  destruct (Fs.lookupFile _ _); [reflexivity|discriminate E].
Qed.

Lemma writeFile_readFile (fs fs' : Fs.FileSystem) (path : string) (data : Fs.Buffer) :
  Fs.writeFile fs path data = Ok fs' -> Fs.readFile fs' path = Ok data.
Proof.
  unfold Fs.writeFile, Fs.readFile. destruct (Fs.writable fs); [|discriminate].
  intros [= <-]. cbn [Fs.files Fs.cwd Fs.lookupFile]. now rewrite String.eqb_refl.
Qed.

(** C4, as the code has it: on a disk that takes the archive, whatever
    fails among the orders, the job runs to its end.  The counters add up
    to the number of ids, the last progress written is 100 with the
    download URL of the archive, and [archive.file] is called for the
    files generated, in the order of the ids.  The archive is written to
    the disk under the shop's directory; its entries are the generated
    files found on the disk with their bytes, in the order in which the
    archiver's [lstat] calls returned, which need not be the order of the
    ids; a file that is not on the disk is left out silently. *)
Theorem processJob_partial_failure (now : Z) (fs : Fs.FileSystem) (job : BulkInvoiceJob) :
  let n := List.length (orderIds job) in
  let k := failures gen (shop job) (orderIds job) in
  let generated := generatedBy gen (shop job) (orderIds job) in
  let zipName := ("invoices-" ++ intToString now ++ ".zip")%string in
  let url := ("/api/download/" ++ zipName ++ "?shop=" ++ shop job)%string in
  (forall calls, Permutation calls (statOrder calls)) ->
  Fs.writable fs = true ->
  (forall f, In f generated ->
     join3 storagePath (shop job) f <> join3 storagePath (shop job) zipName) ->
  exists out,
    processJob gen statOrder zipBytes now fs job = Ok out /\
    result out = {| res_success := true; res_total := n;
                    res_completed := (n - k)%nat; res_failed := k;
                    res_downloadUrl := url |} /\
    finalProgress out = {| percent := 100; total := n;
                           completed := (n - k)%nat; failed := k;
                           downloadUrl := Some url |} /\
    zipPath (archive out) = join3 storagePath (shop job) zipName /\
    appended (archive out)
    = map (fun f => (join3 storagePath (shop job) f, f)) generated /\
    List.length (appended (archive out)) = (n - k)%nat /\
    Permutation (entries (archive out)) (written fs (appended (archive out))) /\
    (List.length (entries (archive out)) <= n - k)%nat /\
    ((forall f, In f generated ->
        Fs.existsSync fs (join3 storagePath (shop job) f) = true) ->
     List.length (entries (archive out)) = (n - k)%nat) /\
    Fs.readFile (diskAfter out) (zipPath (archive out))
    = Ok (zipBytes (entries (archive out))).
Proof.
  cbv zeta. intros P W _.
  destruct (loopFrom_counts (shop job) (List.length (orderIds job)) (orderIds job)
              0%nat initialState) as (C & F & G & L).
  cbv zeta in C, F, G. cbn in C, F, G.
  pose proof (generatedBy_length (shop job) (orderIds job)) as N.
  unfold processJob, createZipFile. cbv zeta. rewrite C, F, G.
  set (generated := generatedBy gen (shop job) (orderIds job)) in *.
  set (calls := map (fun f => (join3 storagePath (shop job) f, f)) generated).
  set (zip := join3 storagePath (shop job) ("invoices-" ++ intToString now ++ ".zip")).
  destruct (Fs.writeFile fs zip (zipBytes (written fs (statOrder calls)))) as [fs'|e] eqn:E.
  2:{ unfold Fs.writeFile in E. rewrite W in E. discriminate E. }
  eexists. split; [reflexivity|].
  cbn [result finalProgress archive diskAfter zipPath appended entries].
  assert (Len : List.length calls = (List.length (orderIds job)
                                     - failures gen (shop job) (orderIds job))%nat).
  { unfold calls. rewrite length_map. lia. }
  assert (Perm : Permutation (written fs (statOrder calls)) (written fs calls)).
  { unfold written. apply Permutation_flat_map, Permutation_sym, P. }
  split; [reflexivity|]. split; [reflexivity|]. split; [reflexivity|].
  split; [reflexivity|]. split; [exact Len|]. split; [exact Perm|].
  split; [|split].
  - rewrite (Permutation_length Perm), <- Len. apply written_length.
  - intros A. rewrite (Permutation_length Perm), <- Len. apply written_all.
    intros call Hc. unfold calls in Hc. apply in_map_iff in Hc.
    destruct Hc as (f & <- & Hf). cbn [fst]. now apply A.
  - exact (writeFile_readFile _ _ _ _ E).
Qed.

(** An item that succeeds writes the share of items handled so far. *)
Lemma generated_item_persists_share (shop : string) (total i : nat) (s : LoopState)
    (orderId fileName : string) :
  gen orderId shop = Ok fileName ->
  option_map percent (persisted (processItem gen shop total s i orderId))
  = Some (Math_round (mulNum (divNum (inject_Z (Z.of_nat (i + 1)))
                                     (inject_Z (Z.of_nat total))) 100)).
Proof. intros H. unfold processItem. now rewrite H. Qed.

(** An item that fails writes nothing to the job. *)
Lemma failed_item_persists_nothing (shop : string) (total i : nat) (s : LoopState)
    (orderId e : string) :
  gen orderId shop = Throw e ->
  persisted (processItem gen shop total s i orderId) = persisted s.
Proof. intros H. unfold processItem. now rewrite H. Qed.

End BulkProcessor.

Section BulkProcessorExamples.
Import JS BulkInvoice Props.
Local Open Scope Q_scope.

Lemma sample_files_apart (f : string) :
  In f (generatedBy (failOn "o2") (shop sampleJob) (orderIds sampleJob)) ->
  join3 storagePath (shop sampleJob) f
  <> join3 storagePath (shop sampleJob) ("invoices-" ++ intToString 1730000000000 ++ ".zip").
Proof.
  intros H. vm_compute in H. destruct H as [<-|[<-|[]]]; vm_compute; discriminate.
Qed.

Lemma processJob_partial_failure_witness :
  exists out,
    processJob (failOn "o2") (fun calls => calls) entryNames 1730000000000
               sampleDisk sampleJob = Ok out /\
    result out
    = {| res_success := true; res_total := 3; res_completed := 2; res_failed := 1;
         res_downloadUrl :=
           "/api/download/invoices-1730000000000.zip?shop=acme.myshopify.com" |} /\
    zipPath (archive out)
    = "/var/www/letsprint/storage/invoices/acme.myshopify.com/invoices-1730000000000.zip" /\
    map snd (appended (archive out)) = ["invoice-o1.pdf"; "invoice-o3.pdf"] /\
    List.length (entries (archive out)) = 2%nat.
Proof.
  destruct (processJob_partial_failure (failOn "o2") (fun calls => calls) entryNames
              1730000000000 sampleDisk sampleJob
              (fun calls => Permutation_refl calls) eq_refl sample_files_apart)
    as (out & E & R & _ & Z & A & _ & _ & _ & All & _).
  exists out. split; [exact E|]. split; [exact R|]. split; [exact Z|].
  split; [rewrite A; reflexivity|].
  apply All. intros f H. vm_compute in H. destruct H as [<-|[<-|[]]]; reflexivity.
Defined.

(** C4 as stated fails.  Three orders, the second fails; the invoices of
    the other two are on the disk; the [lstat] of the second file returns
    before that of the first.  The job finishes with two completed and one
    failed, and the archive holds the invoice of the third order before
    that of the first. *)
Lemma archive_out_of_input_order :
  (forall calls : list (string * string), Permutation calls (rev calls)) /\
  generatedBy (failOn "o2") (shop sampleJob) (orderIds sampleJob)
  = ["invoice-o1.pdf"; "invoice-o3.pdf"] /\
  option_map (fun out => (res_completed (result out), res_failed (result out),
                          percent (finalProgress out), map fst (entries (archive out))))
             (match processJob (failOn "o2") (@rev (string * string)) entryNames
                      1730000000000 sampleDisk sampleJob with
              | Ok out => Some out
              | Throw _ => None
              end)
  = Some (2%nat, 1%nat, 100, ["invoice-o3.pdf"; "invoice-o1.pdf"]) /\
  ["invoice-o3.pdf"; "invoice-o1.pdf"] <> ["invoice-o1.pdf"; "invoice-o3.pdf"].
Proof.
  split; [intros calls; apply Permutation_rev|].
  split; [vm_compute; reflexivity|]. split; [vm_compute; reflexivity|]. discriminate.
Qed.

(** A generated file that is gone from the disk when the archive is made
    is left out: the job reports two invoices and the archive holds one. *)
Example archive_skips_missing_file :
  let disk := {| Fs.files := [hd ("", "") (Fs.files sampleDisk)];
                 Fs.writable := true; Fs.cwd := "/srv/app" |} in
  option_map (fun out => (res_completed (result out), res_success (result out),
                          map snd (appended (archive out)), entries (archive out)))
             (match processJob (failOn "o2") (fun calls => calls) entryNames
                      1730000000000 disk sampleJob with
              | Ok out => Some out
              | Throw _ => None
              end)
  = Some (2%nat, true, ["invoice-o1.pdf"; "invoice-o3.pdf"],
          [("invoice-o1.pdf", "%PDF-1")]).
Proof. vm_compute. reflexivity. Qed.

(** On a disk that refuses writes the job has no result. *)
Example no_archive_no_result :
  let disk := {| Fs.files := Fs.files sampleDisk; Fs.writable := false;
                 Fs.cwd := "/srv/app" |} in
  processJob (failOn "o2") (fun calls => calls) entryNames 1730000000000 disk sampleJob
  = Throw "EACCES: permission denied".
Proof. vm_compute. reflexivity. Qed.

(** Example of the contract: five orders, the third fails. *)
Example five_orders_one_failure :
  option_map (fun out => (res_completed (result out), res_failed (result out),
                          percent (finalProgress out), downloadUrl (finalProgress out),
                          map snd (appended (archive out))))
             (match processJob (failOn "o3") (fun calls => calls) entryNames
                      1730000000000 sampleDisk
                      {| jobId := "j1"; shop := "acme.myshopify.com";
                         orderIds := ["o1"; "o2"; "o3"; "o4"; "o5"]; userId := "u" |} with
              | Ok out => Some out
              | Throw _ => None
              end)
  = Some (4%nat, 1%nat, 100,
          Some "/api/download/invoices-1730000000000.zip?shop=acme.myshopify.com",
          ["invoice-o1.pdf"; "invoice-o2.pdf"; "invoice-o4.pdf"; "invoice-o5.pdf"]).
Proof. vm_compute. reflexivity. Qed.

End BulkProcessorExamples.

(** C8 on the code: with three orders of which the second fails, the
    progress stored after the second item is still the 33 written after the
    first, not round(100 * 2 / 3) = 67; the counters stored with it are
    those of the first item as well. *)
Theorem progress_stale_after_failed_item :
  let trace := BulkInvoice.progressTrace (Props.failOn "o2") "acme.myshopify.com" 3 0
                 ["o1"; "o2"; "o3"] BulkInvoice.initialState in
  map (option_map BulkInvoice.percent) trace = [Some 33%Q; Some 33%Q; Some 100%Q] /\
  map (option_map BulkInvoice.failed) trace = [Some 0%nat; Some 0%nat; Some 1%nat] /\
  JS.Math_round (100 * 2 / 3)%Q = 67%Q.
Proof. vm_compute. repeat split; reflexivity. Qed.

(** ** Paths *)
Section PathFacts.
Import JS NodePath Props.

Lemma split_plain (s : string) : allChars notSlash s = true -> split "/" s = [s].
Proof.
  induction s as [|c s IH]; [reflexivity|].
  cbn [allChars split]. intros H. apply andb_true_iff in H. destruct H as [Hc Hs].
  unfold notSlash in Hc. apply negb_true_iff in Hc. rewrite Hc, (IH Hs). reflexivity.
Qed.

Lemma split_app (s r : string) :
  allChars notSlash s = true -> split "/" (s ++ "/" ++ r) = s :: split "/" r.
Proof.
  induction s as [|c s IH]; [reflexivity|].
  cbn [allChars]. intros H. apply andb_true_iff in H. destruct H as [Hc Hs].
  change (String c s ++ "/" ++ r) with (String c (s ++ "/" ++ r)).
  cbn [split]. unfold notSlash in Hc. apply negb_true_iff in Hc.
  rewrite Hc, (IH Hs). reflexivity.
Qed.

Lemma pushSegment_plain (allow : bool) (stack : list string) (seg : string) :
  plainSegment seg -> pushSegment allow stack seg = seg :: stack.
Proof.
  intros (H1 & H2 & H3 & _). unfold pushSegment.
  apply String.eqb_neq in H1, H2, H3. now rewrite H1, H2, H3.
Qed.

Lemma endsWithSlash_app (a b : string) :
  b <> "" -> endsWithSlash (a ++ b) = endsWithSlash b.
Proof.
  intros Hb. induction a as [|c a IH]; [reflexivity|].
  change (String c a ++ b) with (String c (a ++ b)). cbn [endsWithSlash].
  destruct (a ++ b) eqn:E; [|exact IH].
  destruct a; [now elim Hb | discriminate E].
Qed.

Lemma endsWithSlash_plain (s : string) : allChars notSlash s = true -> endsWithSlash s = false.
Proof.
  induction s as [|c s IH]; [reflexivity|].
  cbn [allChars endsWithSlash]. intros H. apply andb_true_iff in H. destruct H as [Hc Hs].
  destruct s; [|exact (IH Hs)].
  unfold notSlash in Hc. now apply negb_true_iff in Hc.
Qed.

Ltac plain_side :=
  first [ assumption | reflexivity
        | split; [|split; [|split]]; first [assumption | discriminate | reflexivity] ].

(** Normalizing a path of one plain segment under the storage root. *)
Lemma normalizeString_one (a : string) :
  plainSegment a ->
  normalizeString (root ++ "/" ++ a) false = "var/www/letsprint/storage/invoices/" ++ a.
Proof.
  intros Ha. pose proof Ha as (Ha1 & Ha2 & Ha3 & Ha4).
  unfold normalizeString, root, FileStorageService.defaultStoragePath.
  change ("/var/www/letsprint/storage/invoices" ++ "/" ++ a)
    with ("" ++ "/" ++ ("var" ++ "/" ++ ("www" ++ "/" ++ ("letsprint" ++ "/" ++
          ("storage" ++ "/" ++ ("invoices" ++ "/" ++ a)))))).
  rewrite !split_app by plain_side. rewrite (split_plain a Ha4).
  cbn [fold_left]. change (pushSegment false [] "") with (@nil string).
  repeat (rewrite pushSegment_plain by plain_side). reflexivity.
Qed.

(** The same for two plain segments. *)
Lemma normalizeString_two (a b : string) :
  plainSegment a -> plainSegment b ->
  normalizeString (root ++ "/" ++ a ++ "/" ++ b) false
  = "var/www/letsprint/storage/invoices/" ++ a ++ "/" ++ b.
Proof.
  intros Ha Hb. pose proof Ha as (Ha1 & Ha2 & Ha3 & Ha4).
  pose proof Hb as (Hb1 & Hb2 & Hb3 & Hb4).
  unfold normalizeString, root, FileStorageService.defaultStoragePath.
  change ("/var/www/letsprint/storage/invoices" ++ "/" ++ a ++ "/" ++ b)
    with ("" ++ "/" ++ ("var" ++ "/" ++ ("www" ++ "/" ++ ("letsprint" ++ "/" ++
          ("storage" ++ "/" ++ ("invoices" ++ "/" ++ (a ++ "/" ++ b))))))).
  rewrite !split_app by plain_side. rewrite (split_plain b Hb4).
  cbn [fold_left]. change (pushSegment false [] "") with (@nil string).
  repeat (rewrite pushSegment_plain by plain_side). reflexivity.
Qed.

Lemma endsWithSlash_under_root (x seg : string) :
  plainSegment seg -> endsWithSlash (x ++ seg) = false.
Proof.
  intros (H1 & _ & _ & H4). rewrite (endsWithSlash_app x seg H1).
  now apply endsWithSlash_plain.
Qed.

Lemma join2_one_segment (a : string) :
  plainSegment a -> join2 root a = root ++ "/" ++ a.
Proof.
  intros Ha. pose proof Ha as (Ha1 & _).
  unfold join2. change (root =? "")%string with false. cbv iota.
  rewrite (eqb_empty_false a Ha1). unfold normalize.
  change (root ++ "/" ++ a =? "")%string with false.
  change (isAbsolute (root ++ "/" ++ a)) with true. cbv iota. cbn [negb].
  rewrite (normalizeString_one a Ha).
  change (root ++ "/" ++ a) with ("/var/www/letsprint/storage/invoices/" ++ a).
  rewrite (endsWithSlash_under_root _ a Ha). reflexivity.
Qed.

(** Where a key made of two plain segments lands. *)
Lemma join2_two_segments (a b : string) :
  plainSegment a -> plainSegment b ->
  join2 root (a ++ "/" ++ b) = root ++ "/" ++ a ++ "/" ++ b.
Proof.
  intros Ha Hb. pose proof Ha as (Ha1 & _).
  assert (K : (a ++ "/" ++ b =? "")%string = false).
  { apply String.eqb_neq. destruct a; [now elim Ha1 | discriminate]. }
  unfold join2. change (root =? "")%string with false. cbv iota.
  rewrite K. unfold normalize.
  change (root ++ "/" ++ a ++ "/" ++ b =? "")%string with false.
  change (isAbsolute (root ++ "/" ++ a ++ "/" ++ b)) with true. cbv iota. cbn [negb].
  rewrite (normalizeString_two a b Ha Hb).
  assert (E : root ++ "/" ++ a ++ "/" ++ b
              = ("/var/www/letsprint/storage/invoices/" ++ a ++ "/") ++ b).
  { unfold root, FileStorageService.defaultStoragePath. cbn [append].
    now rewrite append_assoc. }
  rewrite E at 1. rewrite (endsWithSlash_under_root _ b Hb).
  rewrite E. cbn [append]. now rewrite append_assoc.
Qed.

Lemma resolve_one_segment (cwd a : string) :
  plainSegment a -> resolve cwd (root ++ "/" ++ a) = root ++ "/" ++ a.
Proof.
  intros Ha. unfold resolve.
  change (isAbsolute (root ++ "/" ++ a)) with true. cbv iota.
  now rewrite (normalizeString_one a Ha).
Qed.

Lemma resolve_two_segments (cwd a b : string) :
  plainSegment a -> plainSegment b ->
  resolve cwd (root ++ "/" ++ a ++ "/" ++ b) = root ++ "/" ++ a ++ "/" ++ b.
Proof.
  intros Ha Hb. unfold resolve.
  change (isAbsolute (root ++ "/" ++ a ++ "/" ++ b)) with true. cbv iota.
  now rewrite (normalizeString_two a b Ha Hb).
Qed.

(** A key issued for a shop lies inside the shop's directory. *)
Lemma issued_key_inside (fs : Fs.FileSystem) (shop name : string) :
  plainSegment (FileStorageService.sanitizeShopName shop) -> plainSegment name ->
  insideShopDirectory fs shop (FileStorageService.sanitizeShopName shop ++ "/" ++ name) = true.
Proof.
  intros Hs Hn. unfold insideShopDirectory, shopDirectory. fold root.
  rewrite (join2_one_segment _ Hs), (resolve_one_segment _ _ Hs).
  rewrite (join2_two_segments _ _ Hs Hn), (resolve_two_segments _ _ _ Hs Hn).
  unfold startsWith.
  replace (root ++ "/" ++ FileStorageService.sanitizeShopName shop ++ "/" ++ name)
    with ((root ++ "/" ++ FileStorageService.sanitizeShopName shop) ++ "/" ++ name).
  - rewrite <- (append_assoc _ "/" name). apply prefix_app.
  - now rewrite !append_assoc.
Qed.

End PathFacts.

(** ** Download *)
Section DownloadFacts.
Import JS Fs Db Download Props.

Lemma invoiceFindFirst_some (d : Database) (key shop : string) (i : Invoice) :
  invoiceFindFirst d key shop = Some i ->
  In i (invoices d) /\ inv_fileKey i = Some key /\ inv_shop i = shop.
Proof.
  unfold invoiceFindFirst. intros H. apply find_some in H. destruct H as [Hin Hp].
  split; [exact Hin|]. destruct (inv_fileKey i) as [k|]; [|discriminate Hp].
  apply andb_true_iff in Hp. destruct Hp as [Hk Hs].
  apply String.eqb_eq in Hk, Hs. now subst.
Qed.

Lemma getFile_ok_exists (fs : FileSystem) (key : string) (data : Buffer) :
  FileStorageService.getFile FileStorageService.defaultStoragePath fs key = Ok data ->
  existsSync fs (NodePath.join2 FileStorageService.defaultStoragePath key) = true.
Proof.
  unfold FileStorageService.getFile.
  destruct (startsWith _ _); cbn [negb]; [|discriminate].
  destruct (existsSync fs _); [reflexivity | discriminate].
Qed.

(** File data leaves the loader only for a decodable key that an invoice
    row of the calling shop carries, and it is what [getFile] read. *)
Lemma loader_serves_recorded_keys (d : Database) (fs : FileSystem) (shop : string)
    (key : option string) (data : Buffer) (disposition : string) :
  body (loader d fs shop key) = Pdf data disposition ->
  exists k decoded i,
    key = Some k /\ URI.decodeURIComponent k = Ok decoded /\
    In i (invoices d) /\ inv_shop i = shop /\ inv_fileKey i = Some decoded /\
    FileStorageService.getFile FileStorageService.defaultStoragePath fs decoded = Ok data /\
    status (loader d fs shop key) = 200.
Proof.
  unfold loader. destruct key as [k|]; [|discriminate].
  destruct (truthy k); cbn [negb]; [|discriminate].
  destruct (URI.decodeURIComponent k) as [decoded|e] eqn:D; [|discriminate].
  destruct (invoiceFindFirst d decoded shop) as [i|] eqn:F; [|discriminate].
  destruct (FileStorageService.getFile _ fs decoded) as [buf|e] eqn:G; [|discriminate].
  cbn [body status]. intros H. injection H as -> _.
  destruct (invoiceFindFirst_some _ _ _ _ F) as (Hin & Hk & Hs).
  exists k, decoded, i. repeat split; assumption || reflexivity.
Qed.

(** C5, as the code has it.  The loader looks the key up among the calling
    shop's invoice rows before it touches the disk.  When every row carries
    a key issued by [storeFile] for its shop, a key that does not resolve
    to a file within the calling shop's directory never yields file data:
    the answer is 404, or 500 when the key cannot be URI-decoded, or 400
    when it is empty. *)
Theorem download_confined_to_shop (d : Database) (fs : FileSystem) (shop key : string) :
  keysIssuedByStoreFile d ->
  plainSegment (FileStorageService.sanitizeShopName shop) ->
  resolvesWithinShop fs shop key = false ->
  let r := loader d fs shop (Some key) in
  (exists message, body r = Text message) /\
  (status r = 404 \/
   (status r = 500 /\ exists e, URI.decodeURIComponent key = Throw e) \/
   (status r = 400 /\ key = "")).
Proof.
  intros Inv Hshop Out r.
  destruct (body r) as [m|data disp] eqn:B.
  - split; [now exists m|]. subst r. revert B. unfold loader.
    destruct (truthy key) eqn:T; cbn [negb].
    + destruct (URI.decodeURIComponent key) as [decoded|e] eqn:D.
      * destruct (invoiceFindFirst d decoded shop); [|left; reflexivity].
        destruct (FileStorageService.getFile _ fs decoded); [discriminate|].
        left; reflexivity.
      * intros _. right. left. split; [reflexivity | now exists e].
    + intros _. right. right. split; [reflexivity|].
      destruct key; [reflexivity | discriminate T].
  - exfalso. subst r.
    destruct (loader_serves_recorded_keys _ _ _ _ _ _ B)
      as (k & decoded & i & Hk & D & Hin & Hs & Hf & G & _).
    injection Hk as <-.
    unfold resolvesWithinShop in Out. rewrite D in Out.
    rewrite (getFile_ok_exists _ _ _ G), andb_true_r in Out.
    destruct (Inv i decoded Hin Hf) as (name & Hn & ->). rewrite Hs in Out.
    rewrite (issued_key_inside fs shop name Hshop Hn) in Out. discriminate Out.
Qed.

Lemma twoShops_issued : keysIssuedByStoreFile twoShopsDb.
Proof.
  intros i k [<-|[<-|[]]] H; injection H as <-.
  - exists "17-invoice-INV-1001.pdf". repeat split; discriminate || reflexivity.
  - exists "18-invoice-OTH-1001.pdf". repeat split; discriminate || reflexivity.
Qed.

Lemma acme_plain : plainSegment (FileStorageService.sanitizeShopName "acme.myshopify.com").
Proof. repeat split; discriminate || reflexivity. Qed.

Lemma download_confined_witness :
  keysIssuedByStoreFile twoShopsDb /\
  resolvesWithinShop twoShopsFs "acme.myshopify.com"
    "other.myshopify.com%2F18-invoice-OTH-1001.pdf" = false /\
  loader twoShopsDb twoShopsFs "acme.myshopify.com"
    (Some "other.myshopify.com%2F18-invoice-OTH-1001.pdf")
  = {| status := 404; body := Text "Invoice not found" |} /\
  (exists message,
     body (loader twoShopsDb twoShopsFs "acme.myshopify.com"
             (Some "other.myshopify.com%2F18-invoice-OTH-1001.pdf")) = Text message).
Proof.
  split; [exact twoShops_issued|]. split; [reflexivity|]. split; [reflexivity|].
  exact (proj1 (download_confined_to_shop twoShopsDb twoShopsFs "acme.myshopify.com"
                  "other.myshopify.com%2F18-invoice-OTH-1001.pdf"
                  twoShops_issued acme_plain eq_refl)).
Defined.

(** C5 as stated fails: a key that cannot be URI-decoded resolves to
    nothing, and the loader answers 500, not 404. *)
Lemma undecodable_key_is_500 :
  resolvesWithinShop twoShopsFs "acme.myshopify.com" "%" = false /\
  loader twoShopsDb twoShopsFs "acme.myshopify.com" (Some "%")
  = {| status := 500; body := Text "Failed to download file" |}.
Proof. split; reflexivity. Qed.

(** A key of the calling shop's own directory under which nothing is
    stored. *)
Example missing_file_is_404 :
  resolvesWithinShop twoShopsFs "acme.myshopify.com" "acme.myshopify.com%2F99-none.pdf"
  = false /\
  loader twoShopsDb twoShopsFs "acme.myshopify.com" (Some "acme.myshopify.com%2F99-none.pdf")
  = {| status := 404; body := Text "Invoice not found" |}.
Proof. split; reflexivity. Qed.

(** [getFile] itself is not scoped to a shop: it accepts any path that has
    the storage root as a prefix of its text, which lets through another
    shop's file and a directory whose name merely begins like the root. *)
Example getFile_checks_root_prefix_only :
  FileStorageService.getFile FileStorageService.defaultStoragePath twoShopsFs
    "other.myshopify.com/18-invoice-OTH-1001.pdf" = Ok "%PDF other" /\
  FileStorageService.getFile FileStorageService.defaultStoragePath twoShopsFs
    "../invoices-2023/archive.pdf" = Ok "%PDF old" /\
  FileStorageService.getFile FileStorageService.defaultStoragePath twoShopsFs
    "../../../../etc/passwd" = Throw "Failed to retrieve file: Invalid file path" /\
  loader twoShopsDb twoShopsFs "acme.myshopify.com" (Some "..%2Finvoices-2023%2Farchive.pdf")
  = {| status := 404; body := Text "Invoice not found" |} /\
  body (loader twoShopsDb twoShopsFs "acme.myshopify.com"
          (Some "acme.myshopify.com%2F17-invoice-INV-1001.pdf"))
  = Pdf "%PDF acme" ("attachment; filename=" ++ dquote ++ "invoice-INV-1001.pdf" ++ dquote).
Proof. repeat split; reflexivity. Qed.

End DownloadFacts.

(** ** Single-order generation *)
Section SingleOrder.
Import JS Fs Db PrintApi Props.

Variable env : Collaborators.

Lemma nextInvoiceNumber_ext (d d' : Database) (shop : string) :
  invoices d' = invoices d -> settings d' = settings d ->
  nextInvoiceNumber d' shop = nextInvoiceNumber d shop.
Proof.
  intros I S. unfold nextInvoiceNumber, settingsFindUnique, invoiceCount.
  now rewrite I, S.
Qed.

Lemma StageFailure_ext (w w1 : World) (shop orderId : string) :
  invoices (db w1) = invoices (db w) -> settings (db w1) = settings (db w) ->
  fs w1 = fs w ->
  StageFailure env w shop orderId -> StageFailure env w1 shop orderId.
Proof.
  intros I S F [H|o e H1 H2|o g H1 H2 H3|H].
  - now apply FetchFailed.
  - now apply (TaxFailed _ _ _ _ o e).
  - apply (PdfFailed _ _ _ _ o g); try assumption.
    now rewrite (nextInvoiceNumber_ext _ _ shop I S).
  - apply StorageFailed. now rewrite F.
Qed.

Lemma RenderedAndStored_ext (w w1 w' : World) (shop orderId : string) (row : Invoice) :
  invoices (db w1) = invoices (db w) -> settings (db w1) = settings (db w) ->
  fs w1 = fs w ->
  RenderedAndStored env w1 w' shop orderId row -> RenderedAndStored env w w' shop orderId row.
Proof.
  intros I S F (o & g & r & b & f' & sf & H).
  rewrite (nextInvoiceNumber_ext _ _ shop I S), F in H.
  now exists o, g, r, b, f', sf.
Qed.

Ltac run_handler :=
  unfold generateSingle, bind, liftExc, throw, ret, getDb, getFs, putDb, putFs; cbn [db fs].

(** A failing stage stops the handler before it has written anything. *)
Lemma generateSingle_stage_failure (shop orderId : string) (job : PrintJob) (w : World) :
  StageFailure env w shop orderId ->
  exists e, generateSingle env shop orderId job w = (w, Throw e).
Proof.
  intros [H|o e H1 H2|o g H1 H2 H3|H]; run_handler.
  - destruct (fetchOrder env orderId) as [[o|]|e]; [now elim (H o) | |]; eexists; reflexivity.
  - rewrite H1, H2. eexists; reflexivity.
  - rewrite H1, H2.
    destruct (generateOrderPDF env (withGST o g) (nextInvoiceNumber (db w) shop))
      as [r|e] eqn:P; [|eexists; reflexivity].
    rewrite (H3 r eq_refl). eexists; reflexivity.
  - destruct (fetchOrder env orderId) as [[o|]|e]; try (eexists; reflexivity).
    destruct (calculateGSTBreakdown env _ _) as [g|e]; [|eexists; reflexivity].
    destruct (generateOrderPDF env _ _) as [r|e]; [|eexists; reflexivity].
    destruct (usableBuffer r) as [b|]; [|eexists; reflexivity].
    unfold FileStorageService.storeFile, writeFile. rewrite H. eexists; reflexivity.
Qed.

(** The handler adds at most one invoice row, and only for a document it
    has rendered and stored. *)
Lemma generateSingle_record (shop orderId : string) (job : PrintJob) (w : World) :
  let w' := fst (generateSingle env shop orderId job w) in
  invoices (db w') = invoices (db w) \/
  exists row,
    invoices (db w') = (invoices (db w) ++ [row])%list /\
    RenderedAndStored env w w' shop orderId row.
Proof.
  cbv zeta. run_handler.
  destruct (fetchOrder env orderId) as [[o|]|e] eqn:F; try (left; reflexivity).
  destruct (calculateGSTBreakdown env _ _) as [g|e] eqn:G; [|left; reflexivity].
  destruct (generateOrderPDF env _ _) as [r|e] eqn:P; [|left; reflexivity].
  destruct (usableBuffer r) as [b|] eqn:U; [|left; reflexivity].
  destruct (FileStorageService.storeFile _ shop (now env) (fs w) b _)
    as [[f' sf]|e] eqn:S; [|left; reflexivity].
  cbn [db fs].
  destruct (invoiceCreate (db w) _) as [d'|e] eqn:C; [|left; reflexivity].
  right. unfold invoiceCreate in C.
  destruct (existsb _ (invoices (db w))); [discriminate C|]. injection C as <-.
  eexists. split.
  - destruct (closeBrowser env); reflexivity.
  - exists o, g, r, b, f', sf. repeat split; try assumption; try reflexivity.
    destruct (closeBrowser env); reflexivity.
Qed.

(** [storeFile] throws exactly when the disk refuses the write. *)
Lemma storeFile_fails_iff (storagePath shop : string) (now : Z) (f : FileSystem)
    (buffer : Buffer) (filename : string) :
  (exists e, FileStorageService.storeFile storagePath shop now f buffer filename = Throw e)
  <-> writable f = false.
Proof.
  unfold FileStorageService.storeFile, writeFile. destruct (writable f); split.
  - intros [e H]. discriminate H.
  - discriminate.
  - reflexivity.
  - intros _. eexists. reflexivity.
Qed.

Lemma printJobUpdate_invoices (d : Database) (id : nat) (f : PrintJob -> PrintJob) :
  invoices (printJobUpdate d id f) = invoices d.
Proof. reflexivity. Qed.

(** After an update that keeps the id, the job found under that id is an
    updated one. *)
Lemma printJobFind_update (d : Database) (id : nat) (f : PrintJob -> PrintJob) (j : PrintJob) :
  (forall x, job_id (f x) = job_id x) ->
  In j (printJobs d) -> job_id j = id ->
  exists x, printJobFind (printJobUpdate d id f) id = Some (f x).
Proof.
  intros Hf. unfold printJobFind, printJobUpdate. cbn [printJobs].
  induction (printJobs d) as [|y l IH]; intros Hin Hid; [contradiction|].
  cbn [map find]. destruct (job_id y =? id)%nat eqn:E.
  - rewrite Hf, E. now exists y.
  - rewrite E. destruct Hin as [->|Hin]; [|now apply IH].
    rewrite Hid, Nat.eqb_refl in E. discriminate E.
Qed.

(** The route on a POST for one order, step by step. *)
Lemma action_single (request : Request) (w : World) (orderId : string) :
  method request = "POST" ->
  body_orderIds request = Some [orderId] ->
  let shop := session_shop request in
  let created := printJobCreate (db w) shop [orderId] "single" "processing" in
  let w1 := {| db := fst created; fs := fs w |} in
  action env request w =
  match generateSingle env shop orderId (snd created) w1 with
  | (w2, Ok response) => (w2, response)
  | (w2, Throw e) =>
      let w3 := {| db := printJobUpdate (db w2) (job_id (snd created)) (jobFailed e);
                   fs := fs w2 |} in
      (w3, failWith (if truthy e then e else "Failed to process print request"))
  end.
Proof.
  intros Hm Hb. cbv zeta. unfold action. rewrite Hm.
  change (negb ("POST" =? "POST")%string) with false. cbv iota.
  unfold handle. rewrite Hb.
  unfold bind at 1. unfold getDb at 1. cbn [printJobCreate db fs fst snd].
  unfold bind at 1. unfold putDb at 1. cbn [db fs].
  unfold tryCatch.
  destruct (generateSingle env (session_shop request) orderId _ _) as [w2 [resp|e]];
    reflexivity.
Qed.

(** C7: for a single-order request, a failure of the order fetch, of the
    tax computation, of the PDF generation or of the storage surfaces as an
    error response, marks the print job failed and leaves the invoice table
    as it was; and whenever the request does add an invoice row, the
    document had been rendered and written to the disk before. *)
Theorem single_order_failure_leaves_no_record (request : Request) (w : World)
    (orderId : string) :
  method request = "POST" ->
  body_orderIds request = Some [orderId] ->
  let shop := session_shop request in
  let w' := fst (action env request w) in
  let response := snd (action env request w) in
  (StageFailure env w shop orderId ->
   status response = 500 /\
   (exists e, body response = Failed e) /\
   invoices (db w') = invoices (db w) /\
   option_map job_status (printJobFind (db w') (List.length (printJobs (db w))))
   = Some "failed") /\
  (invoices (db w') = invoices (db w) \/
   exists row,
     invoices (db w') = (invoices (db w) ++ [row])%list /\
     RenderedAndStored env w w' shop orderId row).
Proof.
  intros Hm Hb. cbv zeta. rewrite (action_single request w orderId Hm Hb). cbv zeta.
  set (created := printJobCreate (db w) (session_shop request) [orderId] "single" "processing").
  set (w1 := {| db := fst created; fs := fs w |}).
  assert (I1 : invoices (db w1) = invoices (db w)) by reflexivity.
  assert (S1 : settings (db w1) = settings (db w)) by reflexivity.
  assert (F1 : fs w1 = fs w) by reflexivity.
  split.
  - intros SF. apply (StageFailure_ext w w1 _ _ I1 S1 F1) in SF.
    destruct (generateSingle_stage_failure (session_shop request) orderId (snd created) w1 SF)
      as [e E].
    rewrite E. cbn [fst snd db fs status body failWith].
    split; [reflexivity|]. split; [eexists; reflexivity|]. split; [reflexivity|].
    destruct (printJobFind_update (db w1) (job_id (snd created)) (jobFailed e) (snd created))
      as [x X]; [reflexivity | | reflexivity |].
    + unfold w1, created. cbn [db printJobs printJobCreate fst snd].
      apply in_or_app. right. now left.
    + change (option_map job_status
                (printJobFind (printJobUpdate (db w1) (job_id (snd created)) (jobFailed e))
                   (job_id (snd created))) = Some "failed").
      rewrite X. reflexivity.
  - pose proof (generateSingle_record (session_shop request) orderId (snd created) w1) as R.
    cbv zeta in R.
    destruct (generateSingle env (session_shop request) orderId (snd created) w1)
      as [w2 [resp|e]]; cbn [fst snd db fs] in R |- *.
    + destruct R as [R|(row & R & RS)]; [left; now rewrite R|].
      right. exists row. split; [now rewrite R|].
      now apply (RenderedAndStored_ext w w1 w2 _ _ row I1 S1 F1).
    + rewrite printJobUpdate_invoices.
      destruct R as [R|(row & R & RS)]; [left; now rewrite R|].
      right. exists row. split; [now rewrite R|].
      apply (RenderedAndStored_ext w w1 _ _ _ row I1 S1 F1).
      destruct RS as (o & g & r & b & f' & sf & H).
      now exists o, g, r, b, f', sf.
Qed.

End SingleOrder.

Section SingleOrderExamples.
Import JS Fs Db PrintApi Props.

Lemma pdf_engine_down :
  StageFailure (sampleEnv (Throw "Browser has crashed")) twoShopsWorld
    "acme.myshopify.com" "1001".
Proof.
  apply (PdfFailed _ _ _ _ sampleOrder
           (Some {| cgst := Some 20%Q; sgst := Some 20%Q;
                    igst := None |})); [reflexivity | reflexivity |].
  intros r H. discriminate H.
Qed.

Lemma single_order_failure_witness :
  StageFailure (sampleEnv (Throw "Browser has crashed")) twoShopsWorld
    "acme.myshopify.com" "1001" /\
  snd (action (sampleEnv (Throw "Browser has crashed"))
         (singleRequest "acme.myshopify.com" "1001") twoShopsWorld)
  = {| status := 500; body := Failed "Browser has crashed" |} /\
  invoices (db (fst (action (sampleEnv (Throw "Browser has crashed"))
                                   (singleRequest "acme.myshopify.com" "1001") twoShopsWorld)))
  = invoices twoShopsDb.
Proof.
  split; [exact pdf_engine_down|]. split; [reflexivity|].
  exact (proj1 (proj2 (proj2 (proj1
           (single_order_failure_leaves_no_record
              (sampleEnv (Throw "Browser has crashed"))
              (singleRequest "acme.myshopify.com" "1001") twoShopsWorld "1001"
              eq_refl eq_refl)
           pdf_engine_down)))).
Defined.

(** A request that goes through: the invoice INV-1002 of the shop's second
    order, stored under the shop's directory. *)
Example single_order_success :
  let out := action (sampleEnv (Ok samplePdf))
               (singleRequest "acme.myshopify.com" "1001") twoShopsWorld in
  snd out
  = {| status := 200;
       body :=
         Generated
           "/api/download/acme.myshopify.com%2F1730000000000-invoice-INV-1002.pdf"
           "acme.myshopify.com/1730000000000-invoice-INV-1002.pdf"
           "INV-1002" 0 "%PDF-1.7" (Some "invoice.pdf") |} /\
  map invoiceNumber (invoices (db (fst out)))
  = ["INV-1001"; "OTH-1001"; "INV-1002"] /\
  option_map job_status (printJobFind (db (fst out)) 0) = Some "completed".
Proof. vm_compute. repeat split; reflexivity. Qed.

(** A full disk: the document is rendered, the write is refused, and the
    request ends with the error of [storeFile], a failed job and the invoice
    table untouched. *)
Example disk_full :
  let w := {| db := twoShopsDb;
              fs := {| files := files twoShopsFs; writable := false; cwd := cwd twoShopsFs |} |} in
  let out := action (sampleEnv (Ok samplePdf)) (singleRequest "acme.myshopify.com" "1001") w in
  snd out = {| status := 500;
               body := Failed "Failed to store file: EACCES: permission denied" |} /\
  invoices (db (fst out)) = invoices twoShopsDb /\
  option_map job_status (printJobFind (db (fst out)) 0) = Some "failed".
Proof. vm_compute. repeat split; reflexivity. Qed.

(** Outside the four stages: when closing the browser throws after the row
    was inserted, the request fails and the job is marked failed, but the
    row stays. *)
Example browser_close_failure_keeps_record :
  let env := {| fetchOrder := fetchOrder (sampleEnv (Ok samplePdf));
                calculateGSTBreakdown := calculateGSTBreakdown (sampleEnv (Ok samplePdf));
                generateOrderPDF := generateOrderPDF (sampleEnv (Ok samplePdf));
                closeBrowser := Throw "Target closed";
                now := now (sampleEnv (Ok samplePdf)) |} in
  let out := action env (singleRequest "acme.myshopify.com" "1001") twoShopsWorld in
  snd out = {| status := 500; body := Failed "Target closed" |} /\
  map invoiceNumber (invoices (db (fst out))) = ["INV-1001"; "OTH-1001"; "INV-1002"] /\
  option_map job_status (printJobFind (db (fst out)) 0) = Some "failed".
Proof. vm_compute. repeat split; reflexivity. Qed.

End SingleOrderExamples.

(** ** Invoice numbers under concurrent requests *)
Section InvoiceNumbers.
Import JS Db PrintApi Props.

(** The spec's example: three prior invoices, the next number is INV-1004. *)
Example next_number_after_three :
  nextInvoiceNumber threeInvoicesDb "acme.myshopify.com" = "INV-1004".
Proof. reflexivity. Qed.

(** A request running alone is given the number the route computes, and
    inserts it unless it is taken. *)
Lemma request_alone (d : Database) (shop orderId : string) (other : Req) :
  let r := {| req_shop := shop; req_orderId := orderId; pc := AtCount |} in
  let number := nextInvoiceNumber d shop in
  ~ In number (numbersOf d) ->
  runSchedule [true; true] d r other
  = ({| invoices := (invoices d ++ [invoiceRow shop orderId number])%list;
        printJobs := printJobs d;
        settings := settings d |},
     {| req_shop := shop; req_orderId := orderId; pc := Finished number (Ok tt) |},
     other).
Proof.
  cbv zeta. intros Hfresh. cbn [runSchedule stepReq pc req_shop req_orderId].
  unfold invoiceCreate.
  destruct (existsb _ (invoices d)) eqn:E; [|reflexivity].
  exfalso. apply Hfresh. apply existsb_exists in E. destruct E as (i & Hin & Hi).
  apply String.eqb_eq in Hi. cbn [invoiceNumber invoiceRow] in Hi. rewrite <- Hi.
  unfold numbersOf. now apply in_map.
Qed.

(** One after the other, two requests get consecutive numbers. *)
Example sequential_requests :
  let '(d, a, b) := runSchedule [true; true; false; false] threeInvoicesDb
                      (requestFor "A") (requestFor "B") in
  pc a = Finished "INV-1004" (Ok tt) /\ pc b = Finished "INV-1005" (Ok tt) /\
  numbersOf d = ["INV-1001"; "INV-1002"; "INV-1003"; "INV-1004"; "INV-1005"].
Proof. vm_compute. repeat split; reflexivity. Qed.

(** C1 on the code: when both requests read the count before either
    inserts its row, both are allocated INV-1004.  The first insert goes
    through; the second is refused by the unique index, so that request
    fails instead of receiving INV-1005. *)
Theorem concurrent_requests_allocate_same_number :
  let '(d, a, b) := runSchedule [true; false; true; false] threeInvoicesDb
                      (requestFor "A") (requestFor "B") in
  pc a = Finished "INV-1004" (Ok tt) /\
  pc b = Finished "INV-1004"
           (Throw "Unique constraint failed on the fields: (`invoiceNumber`)") /\
  numbersOf d = ["INV-1001"; "INV-1002"; "INV-1003"; "INV-1004"].
Proof. vm_compute. repeat split; reflexivity. Qed.

Lemma stepReq_grows (d : Database) (r : Req) (n : string) :
  In n (numbersOf d) -> In n (numbersOf (fst (stepReq d r))).
Proof.
  unfold stepReq. destruct (pc r) as [|m|m o]; try (intros H; exact H).
  unfold invoiceCreate. destruct (existsb _ (invoices d)); [intros H; exact H|].
  unfold numbersOf. cbn [fst invoices]. rewrite map_app. intros H.
  apply in_or_app. now left.
Qed.

Lemma stepReq_recorded (d : Database) (r : Req) :
  recorded d r -> recorded (fst (stepReq d r)) (snd (stepReq d r)).
Proof.
  unfold recorded, stepReq. destruct (pc r) as [|m|m o] eqn:P; cbn [fst snd pc].
  - easy.
  - unfold invoiceCreate. destruct (existsb _ (invoices d)); cbn [fst snd pc]; [easy|].
    intros _. unfold numbersOf. cbn [invoices]. rewrite map_app.
    apply in_or_app. right. now left.
  - now rewrite P.
Qed.

Lemma recorded_grows (d : Database) (r other : Req) :
  recorded d other -> recorded (fst (stepReq d r)) other.
Proof.
  unfold recorded. destruct (pc other) as [|m|m [u|e]]; try easy.
  apply stepReq_grows.
Qed.

(** A number that passes the unique index is not on record yet. *)
Lemma stepReq_fresh (d : Database) (r : Req) (n : string) (u : unit) :
  pc (snd (stepReq d r)) = Finished n (Ok u) ->
  pc r = Finished n (Ok u) \/ ~ In n (numbersOf d).
Proof.
  unfold stepReq. destruct (pc r) as [|m|m o] eqn:P; cbn [snd pc].
  - discriminate.
  - unfold invoiceCreate.
    destruct (existsb _ (invoices d)) eqn:E; cbn [snd pc]; [discriminate|].
    change (existsb (fun i => invoiceNumber i =? m)%string (invoices d) = false) in E.
    intros H. injection H as <- _. right. intros Hin.
    unfold numbersOf in Hin. apply in_map_iff in Hin. destruct Hin as (i & Hi & Hin).
    assert (X : existsb (fun i => invoiceNumber i =? m)%string (invoices d) = true).
    { apply existsb_exists. exists i. split; [exact Hin|]. now apply String.eqb_eq. }
    congruence.
  - rewrite P. now left.
Qed.

Lemma step_keeps_distinct (d : Database) (r other : Req) :
  recorded d other -> distinctWhenBothInserted r other ->
  distinctWhenBothInserted (snd (stepReq d r)) other.
Proof.
  intros Ro D. unfold distinctWhenBothInserted in *.
  destruct (pc (snd (stepReq d r))) as [|n|n [u|e]] eqn:P; try easy.
  destruct (pc other) as [|m|m [v|e]] eqn:Q; try easy.
  destruct (stepReq_fresh d r n u P) as [Old|Fresh].
  - now rewrite Old in D.
  - unfold recorded in Ro. rewrite Q in Ro. intros ->. contradiction.
Qed.

Lemma distinct_sym (a b : Req) :
  distinctWhenBothInserted a b -> distinctWhenBothInserted b a.
Proof.
  unfold distinctWhenBothInserted.
  destruct (pc a) as [|n|n [u|e]], (pc b) as [|m|m [v|e']]; easy.
Qed.

Lemma runSchedule_first (rest : list bool) (d : Database) (a b : Req) :
  runSchedule (true :: rest) d a b
  = runSchedule rest (fst (stepReq d a)) (snd (stepReq d a)) b.
Proof. cbn [runSchedule]. now destruct (stepReq d a). Qed.

Lemma runSchedule_second (rest : list bool) (d : Database) (a b : Req) :
  runSchedule (false :: rest) d a b
  = runSchedule rest (fst (stepReq d b)) a (snd (stepReq d b)).
Proof. cbn [runSchedule]. now destruct (stepReq d b). Qed.

(** What the unique index does guarantee: whatever the interleaving, two
    requests that both insert their row hold different numbers. *)
Lemma inserted_numbers_distinct (schedule : list bool) :
  forall (d : Database) (a b : Req),
    recorded d a -> recorded d b -> distinctWhenBothInserted a b ->
    let '(d', a', b') := runSchedule schedule d a b in
    recorded d' a' /\ recorded d' b' /\ distinctWhenBothInserted a' b'.
Proof.
  induction schedule as [|[|] rest IH]; intros d a b Ra Rb D.
  - now repeat split.
  - rewrite runSchedule_first. apply IH.
    + now apply stepReq_recorded.
    + now apply recorded_grows.
    + now apply step_keeps_distinct.
  - rewrite runSchedule_second. apply IH.
    + now apply recorded_grows.
    + now apply stepReq_recorded.
    + apply distinct_sym. apply step_keeps_distinct; [assumption | now apply distinct_sym].
Qed.

End InvoiceNumbers.

(** ** The keys the application records *)
Section StoredKeys.
Import JS Fs Db PrintApi Props.

Lemma allChars_app (p : ascii -> bool) (a b : string) :
  allChars p (a ++ b) = allChars p a && allChars p b.
Proof.
  induction a as [|c a IH]; [reflexivity|].
  change (String c a ++ b) with (String c (a ++ b)). cbn [allChars].
  now rewrite IH, andb_assoc.
Qed.

Lemma sanitizeChar_notSlash (c : ascii) : notSlash (FileStorageService.sanitizeChar c) = true.
Proof. destruct c as [[] [] [] [] [] [] [] []]; reflexivity. Qed.

Lemma sanitized_notSlash (s : string) :
  allChars notSlash (mapChars FileStorageService.sanitizeChar s) = true.
Proof.
  induction s as [|c s IH]; [reflexivity|].
  cbn [mapChars allChars]. now rewrite sanitizeChar_notSlash, IH.
Qed.

Lemma uint_notSlash (u : Decimal.uint) :
  allChars notSlash (NilEmpty.string_of_uint u) = true.
Proof. induction u; cbn [NilEmpty.string_of_uint allChars]; try rewrite IHu; reflexivity. Qed.

Lemma intToString_plain (z : Z) :
  allChars notSlash (intToString z) = true /\ headNotDot (intToString z) = true.
Proof.
  unfold intToString, NilZero.string_of_int.
  destruct (Z.to_int z) as [u|u]; unfold NilZero.string_of_uint;
    destruct u; cbn [NilEmpty.string_of_uint allChars headNotDot];
    rewrite ?uint_notSlash; split; reflexivity.
Qed.

Lemma headNotDot_plain (s : string) :
  headNotDot s = true -> allChars notSlash s = true -> plainSegment s.
Proof.
  intros H A. destruct s as [|c r]; [discriminate H|].
  cbn [headNotDot] in H. apply negb_true_iff in H. apply Ascii.eqb_neq in H.
  repeat split; try exact A; intros E; try discriminate E; injection E as E _; now elim H.
Qed.

(** The key [storeFile] hands out: the sanitized shop name, a slash and
    one plain segment. *)
Lemma storeFile_issues_plain_key (storagePath shop : string) (now : Z) (f f' : FileSystem)
    (buffer : Buffer) (filename : string) (stored : FileStorageService.StoredFile) :
  FileStorageService.storeFile storagePath shop now f buffer filename = Ok (f', stored) ->
  exists name, plainSegment name /\
    FileStorageService.fileKey stored
    = FileStorageService.sanitizeShopName shop ++ "/" ++ name.
Proof.
  unfold FileStorageService.storeFile.
  destruct (writeFile f _ buffer) as [f1|e]; [|discriminate].
  intros H. injection H as _ <-. cbn [FileStorageService.fileKey].
  exists (intToString now ++ "-" ++ FileStorageService.sanitizeFilename filename).
  split; [|reflexivity].
  destruct (intToString_plain now) as [A Hd].
  apply headNotDot_plain.
  - destruct (intToString now); [discriminate Hd | exact Hd].
  - rewrite allChars_app, A. cbn [andb].
    change ("-" ++ ?x) with (String "-" x). cbn [allChars].
    apply sanitized_notSlash.
Qed.

Variable env : Collaborators.

(** The route keeps the invoice table within the keys [storeFile] issues,
    which is what the download route relies on. *)
Lemma action_keeps_issued_keys (request : Request) (w : World) :
  keysIssuedByStoreFile (db w) ->
  keysIssuedByStoreFile (db (fst (action env request w))).
Proof.
  intros Inv.
  destruct (method request =? "POST")%string eqn:Hm.
  - apply String.eqb_eq in Hm.
    destruct (body_orderIds request) as [[|orderId [|o2 rest]]|] eqn:Hb.
    + unfold action, handle. rewrite Hm, Hb. exact Inv.
    + rewrite (action_single env request w orderId Hm Hb). cbv zeta.
      set (created := printJobCreate _ _ _ _ _).
      pose proof (generateSingle_record env (session_shop request) orderId (snd created)
                    {| db := fst created; fs := fs w |}) as R.
      cbv zeta in R.
      assert (K : keysIssuedByStoreFile
                    (db (fst (generateSingle env (session_shop request) orderId
                                (snd created) {| db := fst created; fs := fs w |})))).
      { destruct R as [R|(row & R & RS)]; intros i k Hin Hk.
        - rewrite R in Hin. exact (Inv i k Hin Hk).
        - rewrite R in Hin. apply in_app_or in Hin. destruct Hin as [Hin|[<-|[]]].
          + exact (Inv i k Hin Hk).
          + destruct RS as (o & g & r & b & f' & sf & _ & _ & _ & _ & S & _ & Hs & _ & Hf).
            rewrite Hf in Hk. injection Hk as <-. rewrite Hs.
            exact (storeFile_issues_plain_key _ _ _ _ _ _ _ _ S). }
      destruct (generateSingle env _ _ _ _) as [w2 [resp|e]]; exact K.
    + unfold action, handle. rewrite Hm, Hb. exact Inv.
    + unfold action, handle. rewrite Hm, Hb. exact Inv.
  - unfold action. rewrite Hm. exact Inv.
Qed.

End StoredKeys.

(** ** More on the tax engine *)
Section TaxEngineMore.
Import JS GstCalculator GstCalculatorLegacy Props.
Local Open Scope Q_scope.

Lemma upperChar_fixed (c : ascii) : isUpper c = true -> upperChar c = c.
Proof.
  destruct c as [[] [] [] [] [] [] [] []]; vm_compute; intros H;
    first [reflexivity | discriminate H].
Qed.

Lemma toUpperCase_fixed (s : string) : allChars isUpper s = true -> toUpperCase s = s.
Proof.
  induction s as [|c s IH]; [reflexivity|].
  cbn [allChars]. intros H. apply andb_true_iff in H. destruct H as [Hc Hs].
  unfold toUpperCase in *. cbn [mapChars]. now rewrite (upperChar_fixed c Hc), (IH Hs).
Qed.

Lemma isState_nonempty (k : string) : isState k = true -> k <> "".
Proof. intros H ->. discriminate H. Qed.

(** A state code is known as soon as it is one of the enumerated codes. *)
Lemma isState_known (k : string) : isState k = true -> knownState k /\ toUpperCase k = k.
Proof.
  intros H. pose proof (toUpperCase_fixed k (isState_upper k H)) as U.
  split; [|exact U]. split.
  - rewrite (isState_trim k); [now apply isState_nonempty | now rewrite U].
  - now rewrite U.
Qed.

(** X1: normalizing a state code gives one of the enumerated codes, and
    normalizing that code again changes nothing. *)
Theorem normalizeStateCode_idempotent (s k : string) :
  normalizeStateCode s = Ok k ->
  isState k = true /\ normalizeStateCode k = Ok k.
Proof.
  unfold normalizeStateCode at 1.
  destruct (negb (truthy s) || (trim s =? "")%string); [discriminate|].
  destruct (isState (toUpperCase (trim s))) eqn:E; cbn [negb]; [|discriminate].
  intros H. injection H as <-. split; [exact E|].
  destruct (isState_known _ E) as [K U].
  rewrite (knownState_normalizes _ K). now rewrite U.
Qed.

Lemma normalizeStateCode_idempotent_witness :
  normalizeStateCode "  ka  " = Ok "KA" /\
  isState "KA" = true /\ normalizeStateCode "KA" = Ok "KA".
Proof.
  split; [reflexivity|].
  exact (normalizeStateCode_idempotent "  ka  " "KA" eq_refl).
Defined.

(** X2: with different normalized state codes the whole tax is one IGST
    component and there is no CGST or SGST. *)
Theorem calculateGST_interstate (c : GSTCalculationContext) :
  isValid (validateGSTContext c) = true ->
  toUpperCase (trim (customerState c)) <> toUpperCase (trim (storeState c)) ->
  exists b a,
    calculateGST c = Success b a /\
    gstType b = IGST /\
    igstAmount b = Some (totalGstAmount b) /\
    cgstAmount b = None /\ sgstAmount b = None.
Proof.
  intros H Diff.
  destruct (valid_meetsConstraints c H) as (_ & _ & [_ Hc] & [_ Hs]).
  rewrite (isState_trim _ Hc), (isState_trim _ Hs) in Diff.
  destruct (calculateGST_valid c H) as (b & a & E & _ & _ & _ & S).
  apply String.eqb_neq in Diff. rewrite Diff in S.
  exists b, a. split; [exact E|]. exact S.
Qed.

Lemma calculateGST_interstate_witness :
  isValid (validateGSTContext (sampleContext 1500 1500 "DL" "KA")) = true /\
  toUpperCase (trim "DL") <> toUpperCase (trim "KA") /\
  exists b a,
    calculateGST (sampleContext 1500 1500 "DL" "KA") = Success b a /\
    gstType b = IGST /\
    igstAmount b = Some (totalGstAmount b) /\
    cgstAmount b = None /\ sgstAmount b = None.
Proof.
  assert (D : toUpperCase (trim "DL") <> toUpperCase (trim "KA")) by discriminate.
  split; [reflexivity|]. split; [exact D|].
  exact (calculateGST_interstate (sampleContext 1500 1500 "DL" "KA") eq_refl D).
Defined.

(** X3: the calculation fails exactly when validation does, and then with
    VALIDATION_ERROR: an input that passes validation is never answered
    with CALCULATION_ERROR. *)
Theorem calculateGST_fails_only_in_validation (c : GSTCalculationContext) :
  match calculateGST c with
  | Failure e code =>
      isValid (validateGSTContext c) = false /\
      code = "VALIDATION_ERROR" /\ e = join ", " (errors (validateGSTContext c))
  | Success b _ => isValid (validateGSTContext c) = true
  end.
Proof.
  destruct (isValid (validateGSTContext c)) eqn:V.
  - destruct (calculateGST_valid c V) as (b & a & E & _). now rewrite E.
  - unfold calculateGST. rewrite V. cbn [negb]. now repeat split.
Qed.

Lemma positive_passes (x : Q) : 0 < x -> negb (truthyNum x) || leNum x 0 = false.
Proof.
  intros H. unfold truthyNum, leNum.
  destruct (Qeq_bool x 0) eqn:E.
  - apply Qeq_bool_iff in E. rewrite E in H. now apply Qlt_irrefl in H.
  - cbn [negb orb]. destruct (Qle_bool x 0) eqn:L; [|reflexivity].
    apply Qle_bool_iff in L. exfalso. exact (Qlt_not_le _ _ H L).
Qed.

Lemma known_passes (s : string) :
  knownState s ->
  negb (truthy s) || (trim s =? "")%string = false /\
  truthy s && negb (isState (toUpperCase s)) = false.
Proof.
  intros [Hne Hst]. rewrite (truthy_trim s Hne), (eqb_empty_false _ Hne), Hst.
  now split.
Qed.

Lemma valid_meetsConstraints_conv (c : GSTCalculationContext) :
  meetsConstraints c -> isValid (validateGSTContext c) = true.
Proof.
  intros (Hs & Ht & Hc & Hst).
  destruct (known_passes _ Hc) as [C1 C2], (known_passes _ Hst) as [S1 S2].
  unfold validateGSTContext. cbv zeta.
  rewrite (positive_passes _ Ht), (positive_passes _ Hs), C1, C2, S1, S2.
  reflexivity.
Qed.

(** X4: the validator accepts exactly the inputs that meet the constraints. *)
Theorem validateGSTContext_accepts_iff (c : GSTCalculationContext) :
  isValid (validateGSTContext c) = true <-> meetsConstraints c.
Proof.
  split; [apply valid_meetsConstraints | apply valid_meetsConstraints_conv].
Qed.

(** X5: on validated input with a subtotal of at most 10^12 the taxable
    amount is the subtotal, and the total tax is a whole number of cents,
    never negative and within 0.51 cent of subtotal times rate. *)
Theorem calculateGST_total_near_exact (c : GSTCalculationContext) :
  isValid (validateGSTContext c) = true ->
  subtotal c <= 1000000000000 ->
  exists b a n,
    calculateGST c = Success b a /\
    taxableAmount b = subtotal c /\
    totalGstAmount b = cents n /\
    (0 <= n)%Z /\
    subtotal c * gstRate b * 100 - (51 # 100) < inject_Z n /\
    inject_Z n <= subtotal c * gstRate b * 100 + (51 # 100).
Proof.
  intros H Bound. destruct (valid_meetsConstraints c H) as (Hs & _).
  destruct (calculateGST_valid c H) as (b & a & E & R & T & G & _).
  destruct (rate_bounds (orderTotal c)) as [R0 R1]. rewrite <- R in R0, R1.
  destruct (total_cents (subtotal c) (gstRate b) Hs Bound R0 R1) as (n & N & B & L & U).
  exists b, a, n. split; [exact E|]. split; [exact T|].
  split; [now rewrite G|]. split; [lia|]. split; assumption.
Qed.

Lemma calculateGST_total_near_exact_witness :
  isValid (validateGSTContext (sampleContext (7 # 10) (7 # 10) "MH" "KA")) = true /\
  (7 # 10) <= 1000000000000 /\
  exists b a n,
    calculateGST (sampleContext (7 # 10) (7 # 10) "MH" "KA") = Success b a /\
    taxableAmount b = 7 # 10 /\
    totalGstAmount b = cents n /\
    (0 <= n)%Z /\
    (7 # 10) * gstRate b * 100 - (51 # 100) < inject_Z n /\
    inject_Z n <= (7 # 10) * gstRate b * 100 + (51 # 100).
Proof.
  split; [reflexivity|]. split; [discriminate|].
  apply (calculateGST_total_near_exact (sampleContext (7 # 10) (7 # 10) "MH" "KA"));
    [reflexivity | discriminate].
Defined.

(** A subtotal of 0.70 at the low rate: the tax is 0.03, though 0.70 times
    0.05 is 0.035. *)
Example seventy_paise :
  let s := double (7 # 10) in
  option_map totalGstAmount (breakdownOf (calculateGST (sampleContext s s "MH" "KA")))
  = Some (cents 3).
Proof. vm_compute. reflexivity. Qed.

(** X6: the legacy entry point taxes the order total itself, so there the rate
    is the low one exactly when the taxable amount is below the threshold;
    invalid input makes it throw the validator's message. *)
Theorem calculateGSTLegacy_rate_by_taxable_amount (total : Q) (customer store : string) :
  match calculateGSTLegacy total customer store with
  | Ok b =>
      taxableAmount b = total /\
      (gstRate b = lowRate DEFAULT_GST_CONFIG
       <-> taxableAmount b < threshold DEFAULT_GST_CONFIG) /\
      (gstRate b = highRate DEFAULT_GST_CONFIG
       <-> ~ taxableAmount b < threshold DEFAULT_GST_CONFIG)
  | Throw e =>
      ~ meetsConstraints (sampleContext total total customer store) /\
      e = join ", " (errors (validateGSTContext (sampleContext total total customer store)))
  end.
Proof.
  unfold calculateGSTLegacy.
  change {| orderTotal := total; subtotal := total; customerState := customer;
            storeState := store; productType := None; hsnCode := None; orderId := None |}
    with (sampleContext total total customer store).
  set (c := sampleContext total total customer store).
  destruct (isValid (validateGSTContext c)) eqn:V.
  - destruct (calculateGST_valid c V) as (b & a & E & R & T & _).
    rewrite E. split; [exact T|]. rewrite T, R. unfold determineGSTRate.
    change (orderTotal c) with total. change (subtotal c) with total.
    destruct (ltNum total (threshold DEFAULT_GST_CONFIG)) eqn:L.
    + apply ltNum_iff in L. split; split; intros; try reflexivity; try assumption.
      * now elim rates_differ.
      * contradiction.
    + assert (N : ~ total < threshold DEFAULT_GST_CONFIG).
      { intros L'. apply ltNum_iff in L'. congruence. }
      split; split; intros; try reflexivity; try assumption.
      * now elim rates_differ.
      * contradiction.
  - unfold calculateGST. rewrite V. cbn [negb]. split; [|reflexivity].
    intros M. apply valid_meetsConstraints_conv in M. congruence.
Qed.

End TaxEngineMore.

(** ** More on the HSN resolver *)
Section HsnMore.
Import JS GstCalculator Props.

Lemma trimEnd_cons (c : ascii) (r : string) :
  trimEnd (String c r)
  = match trimEnd r with
    | EmptyString => if isWhiteSpace c then EmptyString else String c EmptyString
    | String d t => String c (String d t)
    end.
Proof. reflexivity. Qed.

Lemma trimEnd_idempotent (s : string) : trimEnd (trimEnd s) = trimEnd s.
Proof.
  induction s as [|c s IH]; [reflexivity|].
  rewrite (trimEnd_cons c s). destruct (trimEnd s) as [|d t] eqn:E.
  - destruct (isWhiteSpace c) eqn:W; [reflexivity|].
    rewrite trimEnd_cons. cbn [trimEnd]. now rewrite W.
  - rewrite trimEnd_cons, IH. reflexivity.
Qed.

Lemma trimEnd_keeps_head (c : ascii) (r : string) :
  isWhiteSpace c = false -> exists r', trimEnd (String c r) = String c r'.
Proof.
  intros W. rewrite trimEnd_cons. destruct (trimEnd r); [rewrite W|]; eexists; reflexivity.
Qed.

Lemma trimStart_head (s : string) :
  trimStart s = "" \/ exists c r, trimStart s = String c r /\ isWhiteSpace c = false.
Proof.
  induction s as [|c s IH]; [now left|].
  cbn [trimStart]. destruct (isWhiteSpace c) eqn:W; [exact IH|].
  right. now exists c, s.
Qed.

(** Trimming twice is trimming once. *)
Lemma trim_idempotent (s : string) : trim (trim s) = trim s.
Proof.
  unfold trim. destruct (trimStart_head s) as [E|(c & r & E & W)]; rewrite E.
  - reflexivity.
  - destruct (trimEnd_keeps_head c r W) as [r' T]. rewrite T.
    cbn [trimStart]. rewrite W. rewrite <- T. apply trimEnd_idempotent.
Qed.

(** X7: the resolver never returns a blank code, and what it returns carries
    no white space at either end. *)
Theorem getHSNCode_never_blank (productType hsnCode : option string) :
  getHSNCode productType hsnCode <> "" /\
  trim (getHSNCode productType hsnCode) = getHSNCode productType hsnCode.
Proof.
  unfold getHSNCode.
  destruct hsnCode as [h|].
  - destruct (truthy h && negb (trim h =? "")) eqn:E.
    + apply andb_true_iff in E. destruct E as [_ E]. apply negb_true_iff in E.
      apply String.eqb_neq in E. split; [exact E | apply trim_idempotent].
    + destruct productType as [p|]; [|split; [discriminate | reflexivity]].
      destruct (truthy p); [|split; [discriminate | reflexivity]].
      destruct (includes (toLowerCase p) "blend" || includes (toLowerCase p) "mix");
        [split; [discriminate | reflexivity]|].
      destruct (includes (toLowerCase p) "cotton"); [split; [discriminate | reflexivity]|].
      destruct (includes (toLowerCase p) "polyester"); split; discriminate || reflexivity.
  - destruct productType as [p|]; [|split; [discriminate | reflexivity]].
    destruct (truthy p); [|split; [discriminate | reflexivity]].
    destruct (includes (toLowerCase p) "blend" || includes (toLowerCase p) "mix");
      [split; [discriminate | reflexivity]|].
    destruct (includes (toLowerCase p) "cotton"); [split; [discriminate | reflexivity]|].
    destruct (includes (toLowerCase p) "polyester"); split; discriminate || reflexivity.
Qed.

End HsnMore.

(** ** More on the GST service *)
Section GstServiceFacts.
Import JS GstCalculator GstService GstServiceMore Props PropsMore.
Local Open Scope Q_scope.

(** What a successful calculation says about its input. *)
Lemma calculateGST_success (c : GSTCalculationContext) (b : GSTBreakdown) (a : GSTAuditTrail) :
  calculateGST c = Success b a ->
  meetsConstraints c /\
  gstRate b = determineGSTRate (orderTotal c) DEFAULT_GST_CONFIG /\
  taxableAmount b = subtotal c /\
  totalGstAmount b = round2 (mulNum (subtotal c) (gstRate b)) /\
  bd_hsnCode b = Some (getHSNCode (productType c) (hsnCode c)) /\
  gstType b =
    (if (toUpperCase (customerState c) =? toUpperCase (storeState c))%string
     then CGST_SGST else IGST).
Proof.
  intros H. destruct (isValid (validateGSTContext c)) eqn:V.
  - pose proof (valid_meetsConstraints c V) as M. split; [exact M|].
    destruct M as (_ & _ & Hc & Hs). revert H. unfold calculateGST. rewrite V. cbn [negb].
    rewrite (knownState_normalizes _ Hc), (knownState_normalizes _ Hs). cbv zeta.
    destruct (toUpperCase (customerState c) =? toUpperCase (storeState c))%string;
      intros H; injection H as <- _;
      cbn [gstRate taxableAmount totalGstAmount bd_hsnCode gstType];
      repeat split; reflexivity.
  - revert H. unfold calculateGST. rewrite V. discriminate.
Qed.

Lemma calculateOrderGST_inv (storeState : string) (order : ShopifyOrder) (b : GSTBreakdown) :
  calculateOrderGST storeState order = Ok b ->
  exists customerState a,
    extractCustomerState order = Ok (StateCode customerState) /\
    calculateGST
      {| orderTotal := getOrderTotal order;
         subtotal := getOrderSubtotal order;
         customerState := customerState;
         GstCalculator.storeState := storeState;
         productType := Some (determineProductType (line_items order));
         hsnCode := None;
         orderId := Some (id order) |} = Success b a.
Proof.
  unfold calculateOrderGST.
  destruct (extractCustomerState order) as [[cs|k]|e]; [|discriminate|discriminate].
  cbn [calculateGSTFor].
  destruct (calculateGST _) as [b' a|e c] eqn:E; [|discriminate].
  intros H. injection H as <-. now exists cs, a.
Qed.

(** X8: the rate of an order's breakdown is the one [getGSTRateForOrder]
    announces, and the amount taxed is the order's subtotal. *)
Theorem calculateOrderGST_rate_agrees (storeState : string) (order : ShopifyOrder)
    (b : GSTBreakdown) :
  calculateOrderGST storeState order = Ok b ->
  gstRate b = getGSTRateForOrder order /\
  taxableAmount b = getOrderSubtotal order /\
  0 < getOrderTotal order /\ 0 < getOrderSubtotal order.
Proof.
  intros H. destruct (calculateOrderGST_inv _ _ _ H) as (cs & a & _ & E).
  destruct (calculateGST_success _ _ _ E) as ((Hs & Ht & _) & R & T & _).
  repeat split; assumption.
Qed.

Lemma calculateOrderGST_rate_agrees_witness :
  exists b,
    calculateOrderGST "KA" (twoLineOrder "MH") = Ok b /\
    gstRate b = getGSTRateForOrder (twoLineOrder "MH") /\
    taxableAmount b = getOrderSubtotal (twoLineOrder "MH") /\
    0 < getOrderTotal (twoLineOrder "MH") /\ 0 < getOrderSubtotal (twoLineOrder "MH").
Proof.
  destruct (calculateOrderGST "KA" (twoLineOrder "MH")) as [b|e] eqn:E;
    [|vm_compute in E; discriminate E].
  exists b. split; [reflexivity|].
  exact (calculateOrderGST_rate_agrees "KA" (twoLineOrder "MH") b E).
Defined.

Lemma upperChar_idempotent (c : ascii) : upperChar (upperChar c) = upperChar c.
Proof. destruct c as [[] [] [] [] [] [] [] []]; reflexivity. Qed.

Lemma toUpperCase_idempotent (s : string) : toUpperCase (toUpperCase s) = toUpperCase s.
Proof.
  unfold toUpperCase. induction s as [|c s IH]; [reflexivity|].
  cbn [mapChars]. now rewrite upperChar_idempotent, IH.
Qed.

Lemma ownValue_in (tbl : list (string * string)) (k v : string) :
  ownValue tbl k = Some v -> In v (map snd tbl).
Proof.
  induction tbl as [|[k' v'] tbl IH]; cbn [ownValue map snd]; [discriminate|].
  destruct (k' =? k)%string.
  - intros H. injection H as <-. now left.
  - intros H. right. exact (IH H).
Qed.

Lemma allChars_kept_trimStart (p : ascii -> bool) (s : string) :
  allChars p s = true -> allChars p (trimStart s) = true.
Proof.
  induction s as [|c s IH]; cbn [trimStart]; [reflexivity|].
  intros H. destruct (isWhiteSpace c); [|exact H].
  apply IH. cbn [allChars] in H. now apply andb_true_iff in H.
Qed.

Lemma allChars_kept_trimEnd (p : ascii -> bool) (s : string) :
  allChars p s = true -> allChars p (trimEnd s) = true.
Proof.
  induction s as [|c s IH]; cbn [trimEnd]; [reflexivity|].
  intros H. cbn [allChars] in H. apply andb_true_iff in H. destruct H as [Hc Hs].
  specialize (IH Hs). destruct (trimEnd s) as [|d t].
  - destruct (isWhiteSpace c); cbn [allChars]; [reflexivity|]. now rewrite Hc.
  - cbn [allChars] in *. now rewrite Hc, IH.
Qed.

Lemma toLowerCase_no_capital (s : string) :
  allChars (fun c => negb (isUpper c)) (toLowerCase s) = true.
Proof.
  unfold toLowerCase. induction s as [|c s IH]; [reflexivity|].
  cbn [mapChars allChars]. rewrite IH, andb_true_r.
  destruct c as [[] [] [] [] [] [] [] []]; reflexivity.
Qed.

(** A key looked up by [mapProvinceNameToCode] has no capital letter. *)
Lemma normalized_no_capital (name : string) :
  allChars (fun c => negb (isUpper c)) (trim (toLowerCase name)) = true.
Proof.
  unfold trim. apply allChars_kept_trimEnd, allChars_kept_trimStart, toLowerCase_no_capital.
Qed.

(** What [mapProvinceNameToCode] returns: a string without lower-case
    letter, or what is inherited under [constructor] or [__proto__], the
    two inherited names without capital letter. *)
Lemma mapProvinceNameToCode_cases (name : string) :
  match mapProvinceNameToCode name with
  | StateCode state => toUpperCase state = state
  | Inherited key =>
      key = trim (toLowerCase name) /\ (key = "constructor" \/ key = "__proto__")
  end.
Proof.
  unfold mapProvinceNameToCode, lookupProvince.
  pose proof (normalized_no_capital name) as N.
  set (key := trim (toLowerCase name)) in *.
  destruct (ownValue provinceCodes key) as [c|] eqn:E.
  - apply ownValue_in in E. cbn in E.
    repeat (destruct E as [<-|E]; [reflexivity|]). contradiction.
  - destruct (existsb (String.eqb key) objectPrototypeKeys) eqn:X.
    + split; [reflexivity|].
      apply existsb_exists in X. destruct X as (k & In_k & Eq).
      apply String.eqb_eq in Eq. subst k. cbn in In_k.
      repeat (destruct In_k as [K|In_k];
              [first [ left; symmetry; exact K
                     | right; symmetry; exact K
                     | rewrite <- K in N; discriminate N ] |]).
      contradiction.
    + apply toUpperCase_idempotent.
Qed.

(** X9: whatever the addresses hold, the customer state that is extracted
    is a string with no lower-case letter left, or, for a province named
    constructor or __proto__ in any letter case, no string but what every
    object inherits under that name; [calculateOrderGST] then throws. *)
Theorem extractCustomerState_upper (order : ShopifyOrder) (value : StateValue) :
  extractCustomerState order = Ok value ->
  match value with
  | StateCode state => toUpperCase state = state
  | Inherited key =>
      (key = "constructor" \/ key = "__proto__") /\
      forall storeState,
        calculateOrderGST storeState order
        = Throw ("Failed to calculate GST for order " ++ id order
                 ++ ": GST calculation failed: "
                 ++ "context.customerState.trim is not a function")
  end.
Proof.
  intros H.
  assert (C : match value with
              | StateCode state => toUpperCase state = state
              | Inherited key => key = "constructor" \/ key = "__proto__"
              end).
  { revert H. unfold extractCustomerState.
    destruct (truthyOpt _) as [c|];
      [intros H; injection H as <-; apply toUpperCase_idempotent|].
    destruct (truthyOpt _) as [c|];
      [intros H; injection H as <-; apply toUpperCase_idempotent|].
    destruct (truthyOpt _) as [p|].
    { intros H; injection H as <-. pose proof (mapProvinceNameToCode_cases p) as M.
      destruct (mapProvinceNameToCode p); [exact M | exact (proj2 M)]. }
    destruct (truthyOpt _) as [p|]; [|discriminate].
    intros H; injection H as <-. pose proof (mapProvinceNameToCode_cases p) as M.
    destruct (mapProvinceNameToCode p); [exact M | exact (proj2 M)]. }
  destruct value as [state|key]; [exact C|]. split; [exact C|].
  intros storeState. unfold calculateOrderGST. rewrite H. reflexivity.
Qed.

Lemma extractCustomerState_upper_witness :
  extractCustomerState
    {| id := "5002"; total_price := "10"; subtotal_price := "10";
       shipping_address := None;
       billing_address := Some {| province_code := None; province := Some "Constructor" |};
       line_items := [] |} = Ok (Inherited "constructor") /\
  ("constructor" = "constructor" \/ "constructor" = "__proto__") /\
  forall storeState,
    calculateOrderGST storeState
      {| id := "5002"; total_price := "10"; subtotal_price := "10";
         shipping_address := None;
         billing_address :=
           Some {| province_code := None; province := Some "Constructor" |};
         line_items := [] |}
    = Throw ("Failed to calculate GST for order 5002: GST calculation failed: "
             ++ "context.customerState.trim is not a function").
Proof.
  assert (E : extractCustomerState
                {| id := "5002"; total_price := "10"; subtotal_price := "10";
                   shipping_address := None;
                   billing_address :=
                     Some {| province_code := None; province := Some "Constructor" |};
                   line_items := [] |} = Ok (Inherited "constructor")) by reflexivity.
  split; [exact E|].
  exact (extractCustomerState_upper _ (Inherited "constructor") E).
Defined.

(** A province that is no own key of the table and no inherited name is cut
    to two letters. *)
Example extractCustomerState_examples :
  let order province :=
    {| id := "5002"; total_price := "10"; subtotal_price := "10";
       shipping_address := None;
       billing_address := Some {| province_code := None; province := Some province |};
       line_items := [] |} in
  extractCustomerState (order "puducherry") = Ok (StateCode "PU") /\
  extractCustomerState (order " Tamil Nadu ") = Ok (StateCode "TN") /\
  extractCustomerState (order "__PROTO__") = Ok (Inherited "__proto__") /\
  extractCustomerState (order "toString") = Ok (StateCode "TO").
Proof. repeat split; reflexivity. Qed.

End GstServiceFacts.

(** ** GST line by line *)
Section LineItemFacts.
Import JS GstCalculator GstService GstServiceMore Props PropsMore.
Local Open Scope Q_scope.

Lemma lineLoop_inv (s : string) (v : StateValue) (o : string) (items : list PricedLineItem) :
  forall acc acc', lineLoop s v o items acc = Ok acc' ->
  exists entries,
    lineItemResults acc' = (lineItemResults acc ++ entries)%list /\
    map le_lineItem entries = items /\
    Forall (fun e => exists c a,
              v = StateCode c /\
              calculateGST (lineContext s c o (le_lineItem e))
              = Success (le_gstBreakdown e) a) entries /\
    totalTaxableAmount acc' = sumFrom (totalTaxableAmount acc) (map lineItemTotal items) /\
    totalGSTAmount acc'
    = sumFrom (totalGSTAmount acc) (map (fun e => totalGstAmount (le_gstBreakdown e)) entries) /\
    (Forall (fun e => gstType (le_gstBreakdown e) = CGST_SGST) entries ->
     totalIGSTAmount acc' = totalIGSTAmount acc).
Proof.
  induction items as [|p rest IH]; intros acc acc' H.
  - cbn in H. injection H as <-. exists []. rewrite app_nil_r.
    repeat split; auto.
  - cbn [lineLoop] in H. destruct v as [c|k]; cbn [calculateGSTFor] in H; [|discriminate].
    destruct (calculateGST (lineContext s c o p)) as [b a|e code] eqn:E; [|discriminate].
    destruct (IH _ _ H) as (entries & R & M & F & T & G & I). clear IH H.
    cbn [lineItemResults totalTaxableAmount totalGSTAmount totalIGSTAmount] in R, T, G, I.
    exists ({| le_lineItem := p; le_gstBreakdown := b;
               le_material := extractMaterial (pli_item p) |} :: entries).
    destruct (calculateGST_success _ _ _ E) as (_ & _ & Tx & _).
    cbn [lineContext subtotal] in Tx.
    repeat split.
    + rewrite R, <- app_assoc. reflexivity.
    + cbn [map le_lineItem]. now rewrite M.
    + constructor; [now exists c, a|exact F].
    + rewrite T, Tx. reflexivity.
    + rewrite G. reflexivity.
    + intros A. inversion A as [|x l A1 A2]; subst. cbn [le_gstBreakdown] in A1.
      rewrite (I A2), A1. reflexivity.
Qed.

(** What a successful [calculateLineItemGST] went through. *)
Lemma calculateLineItemGST_inv (s : string) (order : ShopifyOrder)
    (priced : list PricedLineItem) (r : LineItemGST) :
  calculateLineItemGST s order priced = Ok r ->
  exists v acc,
    extractCustomerState order = Ok v /\
    lineLoop s v (id order) priced emptyLineAcc = Ok acc /\
    lineItems r = lineItemResults acc /\
    map le_lineItem (lineItems r) = priced /\
    Forall (fun e => exists c a,
              v = StateCode c /\
              calculateGST (lineContext s c (id order) (le_lineItem e))
              = Success (le_gstBreakdown e) a) (lineItems r) /\
    totalTaxableAmount acc = sumFrom 0 (map lineItemTotal priced) /\
    totalGSTAmount acc
    = sumFrom 0 (map (fun e => totalGstAmount (le_gstBreakdown e)) (lineItems r)) /\
    (Forall (fun e => gstType (le_gstBreakdown e) = CGST_SGST) (lineItems r) ->
     totalIGSTAmount acc = 0) /\
    orderTotalBreakdown r
    = {| ot_gstType := if sameAsStore v s then CGST_SGST else IGST;
         ot_gstRate :=
           if Qeq_bool (totalTaxableAmount acc) 0 then None
           else Some (divNum (totalGSTAmount acc) (totalTaxableAmount acc));
         ot_taxableAmount := round2 (totalTaxableAmount acc);
         ot_totalGstAmount := round2 (totalGSTAmount acc);
         ot_cgstAmount :=
           if sameAsStore v s then Some (round2 (totalCGSTAmount acc)) else None;
         ot_sgstAmount :=
           if sameAsStore v s then Some (round2 (totalSGSTAmount acc)) else None;
         ot_igstAmount :=
           if sameAsStore v s then None else Some (round2 (totalIGSTAmount acc)) |}.
Proof.
  unfold calculateLineItemGST.
  destruct (extractCustomerState order) as [v|e]; [|discriminate].
  destruct (lineLoop s v (id order) priced emptyLineAcc) as [acc|e] eqn:L; [|discriminate].
  intros H. injection H as <-. cbn [lineItems orderTotalBreakdown].
  destruct (lineLoop_inv _ _ _ _ _ _ L) as (entries & R & M & F & T & G & I).
  cbn [emptyLineAcc lineItemResults totalTaxableAmount totalGSTAmount totalIGSTAmount app]
    in R, T, G, I.
  exists v, acc. rewrite R. repeat split; auto.
Qed.


(** X10: each line is taxed on its own: the amount taxed is price times
    quantity, and the rate is chosen by that amount, not by the total of the
    order the line belongs to. *)
Theorem calculateLineItemGST_rate_per_line (s : string) (order : ShopifyOrder)
    (priced : list PricedLineItem) (r : LineItemGST) :
  calculateLineItemGST s order priced = Ok r ->
  map le_lineItem (lineItems r) = priced /\
  Forall (fun e =>
            0 < lineItemTotal (le_lineItem e) /\
            taxableAmount (le_gstBreakdown e) = lineItemTotal (le_lineItem e) /\
            gstRate (le_gstBreakdown e)
            = determineGSTRate (lineItemTotal (le_lineItem e)) DEFAULT_GST_CONFIG)
         (lineItems r).
Proof.
  intros H. destruct (calculateLineItemGST_inv _ _ _ _ H) as (v & acc & _ & _ & _ & M & F & _).
  split; [exact M|].
  eapply Forall_impl; [|exact F]. cbv beta. intros e (c & a & _ & E).
  destruct (calculateGST_success _ _ _ E) as ((_ & P & _) & R & T & _).
  cbn [lineContext orderTotal subtotal] in P, R, T. auto.
Qed.

Lemma calculateLineItemGST_rate_per_line_witness :
  exists r,
    calculateLineItemGST "KA" (twoLineOrder "MH") twoLines = Ok r /\
    map le_lineItem (lineItems r) = twoLines /\
    Forall (fun e =>
              0 < lineItemTotal (le_lineItem e) /\
              taxableAmount (le_gstBreakdown e) = lineItemTotal (le_lineItem e) /\
              gstRate (le_gstBreakdown e)
              = determineGSTRate (lineItemTotal (le_lineItem e)) DEFAULT_GST_CONFIG)
           (lineItems r).
Proof.
  destruct (calculateLineItemGST "KA" (twoLineOrder "MH") twoLines) as [r|e] eqn:E;
    [|vm_compute in E; discriminate E].
  exists r. split; [reflexivity|].
  exact (calculateLineItemGST_rate_per_line "KA" (twoLineOrder "MH") twoLines r E).
Defined.

(** X11: a line whose price times quantity is not positive (a free item, a
    quantity of zero, a price that is no number) makes the whole
    computation throw. *)
Theorem calculateLineItemGST_throws_on_free_line (s : string) (order : ShopifyOrder)
    (priced : list PricedLineItem) (p : PricedLineItem) :
  In p priced -> lineItemTotal p <= 0 ->
  exists e, calculateLineItemGST s order priced = Throw e.
Proof.
  intros I L. destruct (calculateLineItemGST s order priced) as [r|e] eqn:H; [|now exists e].
  exfalso. destruct (calculateLineItemGST_inv _ _ _ _ H) as (v & acc & _ & _ & _ & M & F & _).
  rewrite <- M in I. apply in_map_iff in I. destruct I as (e & <- & I).
  rewrite Forall_forall in F. destruct (F e I) as (c & a & _ & E).
  destruct (calculateGST_success _ _ _ E) as ((_ & P & _) & _).
  cbn [lineContext orderTotal] in P. apply (Qlt_not_le _ _ P L).
Qed.

Lemma calculateLineItemGST_throws_on_free_line_witness :
  In (pricedLine "Sticker" "0.00" 1) (twoLines ++ [pricedLine "Sticker" "0.00" 1]) /\
  lineItemTotal (pricedLine "Sticker" "0.00" 1) <= 0 /\
  exists e,
    calculateLineItemGST "KA" (twoLineOrder "MH") (twoLines ++ [pricedLine "Sticker" "0.00" 1])
    = Throw e.
Proof.
  assert (I : In (pricedLine "Sticker" "0.00" 1) (twoLines ++ [pricedLine "Sticker" "0.00" 1])).
  { right. right. left. reflexivity. }
  assert (L : lineItemTotal (pricedLine "Sticker" "0.00" 1) <= 0).
  { vm_compute. discriminate. }
  repeat split; [exact I|exact L|].
  exact (calculateLineItemGST_throws_on_free_line "KA" (twoLineOrder "MH") _ _ I L).
Defined.



(** X13: the per-line calculation compares state codes after normalising them,
    the order-level summary compares them as written.  With a store state
    that differs from the customer's only in letter case, every line is
    split into CGST and SGST while the order is reported as IGST, with an
    IGST amount of zero. *)
Theorem calculateLineItemGST_letter_case_mismatch (s : string) (order : ShopifyOrder)
    (priced : list PricedLineItem) (r : LineItemGST) (c : string) :
  calculateLineItemGST s order priced = Ok r ->
  extractCustomerState order = Ok (StateCode c) ->
  s <> c -> toUpperCase s = c ->
  Forall (fun e => gstType (le_gstBreakdown e) = CGST_SGST) (lineItems r) /\
  ot_gstType (orderTotalBreakdown r) = IGST /\
  ot_cgstAmount (orderTotalBreakdown r) = None /\
  ot_sgstAmount (orderTotalBreakdown r) = None /\
  exists z, ot_igstAmount (orderTotalBreakdown r) = Some z /\ z == 0.
Proof.
  intros H X D U.
  destruct (calculateLineItemGST_inv _ _ _ _ H)
    as (v & acc & X' & _ & _ & _ & F & _ & _ & I & B).
  assert (v = StateCode c) by congruence. subst v.
  assert (Up : toUpperCase c = c) by (rewrite <- U; apply toUpperCase_idempotent).
  assert (A : Forall (fun e => gstType (le_gstBreakdown e) = CGST_SGST) (lineItems r)).
  { eapply Forall_impl; [|exact F]. cbv beta. intros e (c' & a & C & E).
    injection C as <-.
    destruct (calculateGST_success _ _ _ E) as (_ & _ & _ & _ & _ & T).
    cbn [lineContext customerState storeState] in T.
    rewrite Up, U, String.eqb_refl in T. exact T. }
  split; [exact A|]. rewrite B.
  cbn [ot_gstType ot_cgstAmount ot_sgstAmount ot_igstAmount sameAsStore].
  assert (E : (c =? s)%string = false).
  { apply String.eqb_neq. congruence. }
  rewrite E, (I A). repeat split. exists (round2 0). split; [reflexivity|].
  vm_compute. reflexivity.
Qed.

Lemma calculateLineItemGST_letter_case_mismatch_witness :
  exists r,
    calculateLineItemGST "mh" (twoLineOrder "MH") twoLines = Ok r /\
    Forall (fun e => gstType (le_gstBreakdown e) = CGST_SGST) (lineItems r) /\
    ot_gstType (orderTotalBreakdown r) = IGST /\
    ot_cgstAmount (orderTotalBreakdown r) = None /\
    ot_sgstAmount (orderTotalBreakdown r) = None /\
    exists z, ot_igstAmount (orderTotalBreakdown r) = Some z /\ z == 0.
Proof.
  destruct (calculateLineItemGST "mh" (twoLineOrder "MH") twoLines) as [r|e] eqn:E;
    [|vm_compute in E; discriminate E].
  exists r. split; [reflexivity|].
  refine (calculateLineItemGST_letter_case_mismatch
            "mh" (twoLineOrder "MH") twoLines r "MH" E eq_refl _ eq_refl).
  discriminate.
Defined.

Lemma find_none_all (A : Type) (f : A -> bool) (l : list A) :
  (forall x, In x l -> f x = false) -> find f l = None.
Proof.
  induction l as [|a l IH]; intros H; cbn [find]; [reflexivity|].
  rewrite (H a (or_introl eq_refl)). apply IH. intros x I. apply H. now right.
Qed.

(** X14: a line none of whose properties names an HSN code is invoiced under
    6109, whatever its material: the codes by material are not consulted. *)
Theorem calculateLineItemGST_default_hsn (s : string) (order : ShopifyOrder)
    (priced : list PricedLineItem) (r : LineItemGST) (e : LineEntry) :
  calculateLineItemGST s order priced = Ok r ->
  In e (lineItems r) ->
  noHsnProperty (pli_item (le_lineItem e)) ->
  bd_hsnCode (le_gstBreakdown e) = Some "6109".
Proof.
  intros H I N.
  destruct (calculateLineItemGST_inv _ _ _ _ H) as (v & acc & _ & _ & _ & _ & F & _).
  rewrite Forall_forall in F. destruct (F e I) as (c & a & _ & E).
  destruct (calculateGST_success _ _ _ E) as (_ & _ & _ & _ & Hs & _).
  rewrite Hs. cbn [lineContext productType hsnCode].
  unfold getLineItemHSNCode. rewrite find_none_all; [reflexivity|].
  intros prop Ip. destruct (N prop Ip) as [A B]. now rewrite A, B.
Qed.

Lemma calculateLineItemGST_default_hsn_witness :
  exists r,
    calculateLineItemGST "KA" (twoLineOrder "MH") twoLines = Ok r /\
    Forall (fun e => bd_hsnCode (le_gstBreakdown e) = Some "6109") (lineItems r).
Proof.
  destruct (calculateLineItemGST "KA" (twoLineOrder "MH") twoLines) as [r|e] eqn:E;
    [|vm_compute in E; discriminate E].
  exists r. split; [reflexivity|].
  apply Forall_forall. intros e I.
  apply (calculateLineItemGST_default_hsn "KA" (twoLineOrder "MH") twoLines r e E I).
  destruct (calculateLineItemGST_inv _ _ _ _ E) as (_ & _ & _ & _ & _ & M & _).
  assert (P : In (le_lineItem e) twoLines) by (rewrite <- M; now apply in_map).
  destruct P as [<-|[<-|[]]]; intros prop [].
Defined.

End LineItemFacts.

(** ** Summaries and validation of orders *)
Section SummaryFacts.
Import JS GstCalculator GstService GstServiceMore Props PropsMore.
Local Open Scope Q_scope.

Lemma bumpState_counts (states : list (string * StateEntry)) (c : string) (b : GSTBreakdown) :
  countedOrders (bumpState states c b) = S (countedOrders states).
Proof.
  unfold countedOrders. induction states as [|[k e] rest IH]; [reflexivity|].
  cbn [bumpState]. destruct (k =? c)%string; cbn [map list_sum fold_right snd orderCount].
  - reflexivity.
  - fold (list_sum (map (fun e0 => orderCount (snd e0)) (bumpState rest c b))).
    fold (list_sum (map (fun e0 : string * StateEntry => orderCount (snd e0)) rest)).
    rewrite IH. lia.
Qed.

Lemma summaryStep_spec (s : string) (acc : SummaryAcc) (order : ShopifyOrder) :
  if gstSucceeds s order then
    countedOrders (stateWise (summaryStep s acc order)) = S (countedOrders (stateWise acc)) /\
    sum_taxable (summaryStep s acc order)
    = addNum (sum_taxable acc) (getOrderSubtotal order)
  else summaryStep s acc order = acc.
Proof.
  unfold gstSucceeds, summaryStep.
  destruct (calculateOrderGST s order) as [b|e] eqn:E; [|reflexivity].
  destruct (calculateOrderGST_inv _ _ _ E) as (c & a & X & G).
  rewrite X. cbn [stateWise sum_taxable]. split; [apply bumpState_counts|].
  destruct (calculateGST_success _ _ _ G) as (_ & _ & T & _). cbn [subtotal] in T.
  now rewrite T.
Qed.

Lemma summary_fold (s : string) (orders : list ShopifyOrder) :
  forall acc,
    countedOrders (stateWise (fold_left (summaryStep s) orders acc))
    = (countedOrders (stateWise acc) + List.length (filter (gstSucceeds s) orders))%nat /\
    sum_taxable (fold_left (summaryStep s) orders acc)
    = sumFrom (sum_taxable acc) (map getOrderSubtotal (filter (gstSucceeds s) orders)).
Proof.
  induction orders as [|o rest IH]; intros acc; cbn [fold_left filter].
  - cbn. split; [lia|reflexivity].
  - pose proof (summaryStep_spec s acc o) as S.
    destruct (gstSucceeds s o).
    + destruct S as [C T]. destruct (IH (summaryStep s acc o)) as [C' T'].
      rewrite C', T', C, T. cbn [List.length map]. split; [lia|reflexivity].
    + rewrite S. apply IH.
Qed.

(** X15: the summary counts every order it was given, but the state-wise
    breakdown and the totals cover only the orders whose GST could be
    calculated; the others are left out without a trace in the result. *)
Theorem createGSTSummary_counts (s : string) (orders : list ShopifyOrder) :
  totalOrders (createGSTSummary s orders) = List.length orders /\
  countedOrders (stateWiseBreakdown (createGSTSummary s orders))
  = List.length (filter (gstSucceeds s) orders) /\
  sm_totalTaxableAmount (createGSTSummary s orders)
  = round2 (sumFrom 0 (map getOrderSubtotal (filter (gstSucceeds s) orders))).
Proof.
  unfold createGSTSummary. cbv zeta.
  cbn [totalOrders stateWiseBreakdown sm_totalTaxableAmount].
  destruct (summary_fold s orders (emptySummaryAcc)) as [C T].
  rewrite C, T. repeat split.
Qed.

Lemma orZero_positive (x : option Q) :
  0 < orZero x -> exists q, x = Some q /\ 0 < q.
Proof.
  destruct x as [q|]; cbn [orZero].
  - destruct (truthyNum q); intros H; [now exists q|]. exfalso. lra.
  - intros H. exfalso. lra.
Qed.

Lemma positive_price_passes (s : string) :
  0 < orZero (parseFloat s) -> negb (truthy s) || parsesNonPositive s = false.
Proof.
  intros H. destruct (orZero_positive _ H) as (q & P & L).
  unfold parsesNonPositive. rewrite P.
  assert (T : truthy s = true).
  { destruct s; [discriminate P|reflexivity]. }
  rewrite T. cbn [negb orb]. unfold leNum.
  destruct (Qle_bool q 0) eqn:B; [|reflexivity].
  apply Qle_bool_iff in B. exfalso. lra.
Qed.

(** X16: an order whose GST can be calculated passes every check of
    [validateOrderForGST] on amounts and state; the only complaints left
    are a missing id and an empty list of lines, which the calculation
    does not look at. *)
Theorem calculateOrderGST_ok_validation (s : string) (order : ShopifyOrder)
    (b : GSTBreakdown) (e : string) :
  calculateOrderGST s order = Ok b ->
  In e (errors (validateOrderForGST order)) ->
  e = "Order ID is required" \/ e = "Order must have at least one line item".
Proof.
  intros H. destruct (calculateOrderGST_inv _ _ _ H) as (c & a & X & G).
  destruct (calculateGST_success _ _ _ G) as ((Hs & Ht & _) & _).
  cbn [orderTotal subtotal] in Hs, Ht.
  unfold validateOrderForGST. cbv zeta. cbn [errors].
  rewrite (positive_price_passes _ Ht), (positive_price_passes _ Hs), X.
  unfold pushIf.
  destruct (negb (truthy (id order))), (List.length (line_items order) =? 0)%nat;
    cbn [app In]; intuition auto.
Qed.

Lemma calculateOrderGST_ok_validation_witness :
  exists b,
    calculateOrderGST "KA" (shippedTo "MH" "840.00" "800.00" []) = Ok b /\
    In "Order must have at least one line item"
       (errors (validateOrderForGST (shippedTo "MH" "840.00" "800.00" []))) /\
    ("Order must have at least one line item" = "Order ID is required" \/
     "Order must have at least one line item" = "Order must have at least one line item").
Proof.
  destruct (calculateOrderGST "KA" (shippedTo "MH" "840.00" "800.00" [])) as [b|e] eqn:E;
    [|vm_compute in E; discriminate E].
  exists b. split; [reflexivity|].
  assert (I : In "Order must have at least one line item"
                 (errors (validateOrderForGST (shippedTo "MH" "840.00" "800.00" [])))).
  { left. reflexivity. }
  split; [exact I|].
  exact (calculateOrderGST_ok_validation "KA" _ b _ E I).
Defined.

End SummaryFacts.

(** ** Storing, reading and deleting files *)
Section StorageFacts.
Import JS NodePath Fs FileStorageService FileStorageMore Props PropsMore.

Lemma issued_name_plain (now : Z) (filename : string) :
  plainSegment (intToString now ++ "-" ++ sanitizeFilename filename).
Proof.
  destruct (intToString_plain now) as [A Hd].
  apply headNotDot_plain.
  - destruct (intToString now); [discriminate Hd | exact Hd].
  - rewrite allChars_app, A. cbn [andb].
    change ("-" ++ ?x) with (String "-" x). cbn [allChars].
    apply sanitized_notSlash.
Qed.

Lemma resolve_root (cwd : string) : resolve cwd root = root.
Proof. reflexivity. Qed.

Lemma startsWith_root (x : string) : startsWith (root ++ x) root = true.
Proof. unfold startsWith. apply prefix_app. Qed.

(** What [storeFile] does when it returns. *)
Lemma storeFile_inv (shop : string) (now : Z) (f f' : FileSystem) (buffer : Buffer)
    (filename : string) (stored : StoredFile) :
  plainSegment (sanitizeShopName shop) ->
  storeFile defaultStoragePath shop now f buffer filename = Ok (f', stored) ->
  let name := intToString now ++ "-" ++ sanitizeFilename filename in
  let key := sanitizeShopName shop ++ "/" ++ name in
  writable f = true /\
  fileKey stored = key /\
  downloadUrl stored = "/api/download/" ++ URI.encodeURIComponent key /\
  f' = {| files := (root ++ "/" ++ key, buffer) :: files f;
          writable := writable f; cwd := cwd f |}.
Proof.
  intros Hs. cbv zeta. unfold storeFile, writeFile.
  destruct (writable f); [|discriminate].
  intros H. injection H as <- <-. cbn [fileKey downloadUrl].
  repeat split.
  assert (E : resolve (cwd f)
                (join2 root (sanitizeShopName shop ++ "/" ++ intToString now ++ "-"
                             ++ sanitizeFilename filename))
              = root ++ "/" ++ sanitizeShopName shop ++ "/" ++ intToString now ++ "-"
                ++ sanitizeFilename filename).
  { rewrite (join2_two_segments _ _ Hs (issued_name_plain now filename)).
    apply (resolve_two_segments _ _ _ Hs (issued_name_plain now filename)). }
  exact (f_equal (fun p => {| files := (p, buffer) :: files f;
                              writable := true; cwd := cwd f |}) E).
Qed.

(** Reading a key of two plain segments looks at one place on the disk. *)
Lemma getFile_two_segments (fs : FileSystem) (a b : string) :
  plainSegment a -> plainSegment b ->
  getFile defaultStoragePath fs (a ++ "/" ++ b)
  = match lookupFile (files fs) (root ++ "/" ++ a ++ "/" ++ b) with
    | Some data => Ok data
    | None => Throw "Failed to retrieve file: File not found"
    end.
Proof.
  intros Ha Hb. unfold getFile, existsSync, readFile. fold root.
  rewrite (join2_two_segments _ _ Ha Hb), (resolve_two_segments _ _ _ Ha Hb), resolve_root.
  rewrite startsWith_root. cbn [negb].
  destruct (lookupFile (files fs) _); reflexivity.
Qed.

Lemma getFileUrl_two_segments (fs : FileSystem) (a b : string) :
  plainSegment a -> plainSegment b ->
  getFileUrl defaultStoragePath fs (a ++ "/" ++ b)
  = match lookupFile (files fs) (root ++ "/" ++ a ++ "/" ++ b) with
    | Some _ => Some ("/api/download/" ++ URI.encodeURIComponent (a ++ "/" ++ b))
    | None => None
    end.
Proof.
  intros Ha Hb. unfold getFileUrl, existsSync. fold root.
  rewrite (join2_two_segments _ _ Ha Hb), (resolve_two_segments _ _ _ Ha Hb).
  destruct (lookupFile (files fs) _); reflexivity.
Qed.

(** X17: what was stored can be read back under the key that was returned, and
    [getFileUrl] gives the URL that was returned. *)
Theorem storeFile_then_getFile (shop : string) (now : Z) (f f' : FileSystem)
    (buffer : Buffer) (filename : string) (stored : StoredFile) :
  plainSegment (sanitizeShopName shop) ->
  storeFile defaultStoragePath shop now f buffer filename = Ok (f', stored) ->
  getFile defaultStoragePath f' (fileKey stored) = Ok buffer /\
  getFileUrl defaultStoragePath f' (fileKey stored) = Some (downloadUrl stored).
Proof.
  intros Hs H. destruct (storeFile_inv _ _ _ _ _ _ _ Hs H) as (_ & K & U & F).
  rewrite K, U, F.
  rewrite (getFile_two_segments _ _ _ Hs (issued_name_plain now filename)).
  rewrite (getFileUrl_two_segments _ _ _ Hs (issued_name_plain now filename)).
  cbn [files lookupFile]. rewrite String.eqb_refl. split; reflexivity.
Qed.

Lemma storeFile_then_getFile_witness :
  exists f' stored,
    storeFile defaultStoragePath "acme.myshopify.com" 1730000000000 twoShopsFs
      "%PDF-1.7" "invoice INV/1002.pdf" = Ok (f', stored) /\
    getFile defaultStoragePath f' (fileKey stored) = Ok "%PDF-1.7" /\
    getFileUrl defaultStoragePath f' (fileKey stored) = Some (downloadUrl stored).
Proof.
  destruct (storeFile defaultStoragePath "acme.myshopify.com" 1730000000000 twoShopsFs
              "%PDF-1.7" "invoice INV/1002.pdf") as [[f' stored]|e] eqn:E;
    [|vm_compute in E; discriminate E].
  exists f', stored. split; [reflexivity|].
  exact (storeFile_then_getFile _ _ _ _ _ _ _ acme_plain E).
Defined.

Lemma lookupFile_filter_same (l : list (string * Buffer)) (p : string) :
  lookupFile (filter (fun e => negb (fst e =? p)) l) p = None.
Proof.
  induction l as [|[q b] l IH]; [reflexivity|].
  cbn [filter fst]. destruct (q =? p) eqn:E; cbn [negb]; [exact IH|].
  cbn [lookupFile]. now rewrite E.
Qed.

Lemma lookupFile_filter_other (l : list (string * Buffer)) (p q : string) :
  q <> p -> lookupFile (filter (fun e => negb (fst e =? p)) l) q = lookupFile l q.
Proof.
  intros D. induction l as [|[r b] l IH]; [reflexivity|].
  cbn [filter fst]. destruct (r =? p) eqn:E; cbn [negb lookupFile].
  - apply String.eqb_eq in E. subst r.
    assert (N : (p =? q) = false) by (apply String.eqb_neq; congruence).
    now rewrite N.
  - now rewrite IH.
Qed.

(** X18: [deleteFile] answers [true] only for a file that was there and lies
    under a path starting with the storage path; that file is then gone and
    every other file is as before.  When it answers [false] nothing has
    changed. *)
Theorem deleteFile_removes_exactly_one (storagePath : string) (fs : FileSystem)
    (fileKey : string) :
  let path := resolve (cwd fs) (join2 storagePath fileKey) in
  match deleteFile storagePath fs fileKey with
  | (fs', true) =>
      startsWith path (resolve (cwd fs) storagePath) = true /\
      lookupFile (files fs) path <> None /\
      lookupFile (files fs') path = None /\
      (forall other, other <> path ->
         lookupFile (files fs') other = lookupFile (files fs) other) /\
      cwd fs' = cwd fs
  | (fs', false) => fs' = fs
  end.
Proof.
  cbv zeta. unfold deleteFile, existsSync, unlink.
  destruct (startsWith _ _) eqn:P; cbn [negb]; [|reflexivity].
  destruct (lookupFile (files fs) _) eqn:L; [|reflexivity].
  destruct (writable fs); cbn [negb]; [|reflexivity].
  cbn [files cwd]. repeat split.
  - discriminate.
  - apply lookupFile_filter_same.
  - intros other D. now apply lookupFile_filter_other.
Qed.

(** X19: a stored file can be deleted under its key, after which reading it
    fails and no URL is given for it. *)
Theorem storeFile_then_deleteFile (shop : string) (now : Z) (f f' : FileSystem)
    (buffer : Buffer) (filename : string) (stored : StoredFile) :
  plainSegment (sanitizeShopName shop) ->
  storeFile defaultStoragePath shop now f buffer filename = Ok (f', stored) ->
  snd (deleteFile defaultStoragePath f' (fileKey stored)) = true /\
  getFile defaultStoragePath (fst (deleteFile defaultStoragePath f' (fileKey stored)))
    (fileKey stored) = Throw "Failed to retrieve file: File not found" /\
  getFileUrl defaultStoragePath (fst (deleteFile defaultStoragePath f' (fileKey stored)))
    (fileKey stored) = None.
Proof.
  intros Hs H. destruct (storeFile_inv _ _ _ _ _ _ _ Hs H) as (W & K & _ & F).
  pose proof (issued_name_plain now filename) as Hn.
  rewrite K.
  rewrite (getFile_two_segments _ _ _ Hs Hn), (getFileUrl_two_segments _ _ _ Hs Hn).
  unfold deleteFile, existsSync, unlink. fold root.
  rewrite (join2_two_segments _ _ Hs Hn), (resolve_two_segments _ _ _ Hs Hn), resolve_root.
  rewrite startsWith_root. cbn [negb].
  rewrite F. cbn [files lookupFile writable cwd]. rewrite String.eqb_refl, W.
  cbn [negb fst snd files]. rewrite lookupFile_filter_same. repeat split.
Qed.

Lemma storeFile_then_deleteFile_witness :
  exists f' stored,
    storeFile defaultStoragePath "acme.myshopify.com" 1730000000000 twoShopsFs
      "%PDF-1.7" "invoice-INV-1002.pdf" = Ok (f', stored) /\
    snd (deleteFile defaultStoragePath f' (fileKey stored)) = true /\
    getFile defaultStoragePath (fst (deleteFile defaultStoragePath f' (fileKey stored)))
      (fileKey stored) = Throw "Failed to retrieve file: File not found" /\
    getFileUrl defaultStoragePath (fst (deleteFile defaultStoragePath f' (fileKey stored)))
      (fileKey stored) = None.
Proof.
  destruct (storeFile defaultStoragePath "acme.myshopify.com" 1730000000000 twoShopsFs
              "%PDF-1.7" "invoice-INV-1002.pdf") as [[f' stored]|e] eqn:E;
    [|vm_compute in E; discriminate E].
  exists f', stored. split; [reflexivity|].
  exact (storeFile_then_deleteFile _ _ _ _ _ _ _ acme_plain E).
Defined.

End StorageFacts.

(** ** Encoding and decoding keys *)
Section UriFacts.
Import JS URI Props PropsMore.

Lemma hexValue_hexDigit (n : nat) : (n < 16)%nat -> hexValue (hexDigit n) = Some n.
Proof.
  intros H. do 16 (destruct n as [|n]; [reflexivity|]). lia.
Qed.

Lemma unreserved_not_percent (c : ascii) : isUnreserved c = true -> Ascii.eqb c "%" = false.
Proof.
  destruct (Ascii.eqb c "%") eqn:E; [|reflexivity].
  apply Ascii.eqb_eq in E. subst c. intros H. discriminate H.
Qed.

Lemma code_split (c : ascii) : (16 * (code c / 16) + code c mod 16)%nat = code c.
Proof. symmetry. apply Nat.div_mod_eq. Qed.

Lemma code_high_bound (c : ascii) : (code c / 16 < 16)%nat.
Proof.
  apply Nat.Div0.div_lt_upper_bound. pose proof (nat_ascii_bounded c). unfold code. lia.
Qed.

Lemma code_low_bound (c : ascii) : (code c mod 16 < 16)%nat.
Proof. apply Nat.mod_upper_bound. discriminate. Qed.

(** The bytes the decoder reads from an encoded string: one per character
    of the original, marked as escaped when it was written as an escape. *)
Lemma unescapeBytes_encode (s : string) :
  unescapeBytes (encodeURIComponent s)
  = Ok (map (fun c => (negb (isUnreserved c), code c)) (list_ascii_of_string s)).
Proof.
  induction s as [|c s IH]; [reflexivity|].
  cbn [encodeURIComponent list_ascii_of_string map].
  destruct (isUnreserved c) eqn:U.
  - cbn [unescapeBytes]. rewrite (unreserved_not_percent c U), IH. reflexivity.
  - cbn [unescapeBytes]. change (Ascii.eqb "%" "%") with true. cbv iota.
    rewrite (hexValue_hexDigit _ (code_high_bound c)).
    rewrite (hexValue_hexDigit _ (code_low_bound c)).
    rewrite IH, code_split. reflexivity.
Qed.

Lemma utf8Escapes_ascii (s : string) :
  allChars isAscii s = true ->
  utf8Escapes 0 128 191
    (map (fun c => (negb (isUnreserved c), code c)) (list_ascii_of_string s)) = true.
Proof.
  induction s as [|c s IH]; [reflexivity|].
  cbn [allChars list_ascii_of_string map utf8Escapes]. intros H.
  apply andb_true_iff in H. destruct H as [Hc Hs].
  unfold isAscii in Hc. apply Nat.ltb_lt in Hc.
  assert (L : (128 <=? code c)%nat = false) by (apply Nat.leb_gt; exact Hc).
  rewrite L, andb_false_r. exact (IH Hs).
Qed.

Lemma bytesToString_codes (f : ascii -> bool) (s : string) :
  bytesToString (map (fun c => (f c, code c)) (list_ascii_of_string s)) = s.
Proof.
  induction s as [|c s IH]; [reflexivity|].
  cbn [list_ascii_of_string map bytesToString]. unfold code at 1.
  now rewrite ascii_nat_embedding, IH.
Qed.

Lemma decodeURIComponent_encodeURIComponent_aux (s : string) :
  allChars isAscii s = true ->
  decodeURIComponent (encodeURIComponent s) = Ok s.
Proof.
  intros H. unfold decodeURIComponent.
  rewrite unescapeBytes_encode, (utf8Escapes_ascii s H), bytesToString_codes.
  reflexivity.
Qed.

(** X20: decoding undoes encoding on strings of ASCII characters, and what
    encoding produces has no character that would need encoding again. *)
Theorem decodeURIComponent_encodeURIComponent (s : string) :
  allChars isAscii s = true ->
  decodeURIComponent (encodeURIComponent s) = Ok s /\
  allChars (fun c => isUnreserved c || Ascii.eqb c "%") (encodeURIComponent s) = true.
Proof.
  intros H. split; [now apply decodeURIComponent_encodeURIComponent_aux|].
  clear H. induction s as [|c s IH]; [reflexivity|].
  cbn [encodeURIComponent]. destruct (isUnreserved c) eqn:U.
  - cbn [allChars]. now rewrite U, IH.
  - cbn [allChars]. rewrite IH.
    assert (D : forall n, (n < 16)%nat -> isUnreserved (hexDigit n) = true).
    { intros n L. do 16 (destruct n as [|n]; [reflexivity|]). lia. }
    rewrite (D _ (code_high_bound c)), (D _ (code_low_bound c)). reflexivity.
Qed.

Lemma decodeURIComponent_encodeURIComponent_witness :
  allChars isAscii "acme shop/17-invoice #1001 (50%).pdf" = true /\
  encodeURIComponent "acme shop/17-invoice #1001 (50%).pdf"
  = "acme%20shop%2F17-invoice%20%231001%20(50%25).pdf" /\
  decodeURIComponent (encodeURIComponent "acme shop/17-invoice #1001 (50%).pdf")
  = Ok "acme shop/17-invoice #1001 (50%).pdf".
Proof.
  split; [reflexivity|]. split; [reflexivity|].
  exact (proj1 (decodeURIComponent_encodeURIComponent
                  "acme shop/17-invoice #1001 (50%).pdf" eq_refl)).
Defined.

(** A string without a percent sign decodes to itself. *)
Lemma decodeURIComponent_plain (s : string) :
  allChars (fun c => negb (Ascii.eqb c "%")) s = true -> decodeURIComponent s = Ok s.
Proof.
  intros H. unfold decodeURIComponent.
  assert (U : unescapeBytes s
              = Ok (map (fun c => (false, code c)) (list_ascii_of_string s))).
  { induction s as [|c s IH]; [reflexivity|].
    cbn [allChars] in H. apply andb_true_iff in H. destruct H as [Hc Hs].
    apply negb_true_iff in Hc.
    cbn [unescapeBytes list_ascii_of_string map]. now rewrite Hc, (IH Hs). }
  rewrite U.
  assert (V : forall l : list ascii,
              utf8Escapes 0 128 191 (map (fun c => (false, code c)) l) = true).
  { induction l as [|c l IHl]; [reflexivity|]. cbn [map utf8Escapes andb]. exact IHl. }
  rewrite V. now rewrite (bytesToString_codes (fun _ => false)).
Qed.

End UriFacts.

(** ** More on the print route *)
Section PrintRouteFacts.
Import JS Fs Db PrintApi Props PropsMore.

Variable env : Collaborators.

Ltac run_single :=
  unfold generateSingle, bind, liftExc, throw, ret, getDb, getFs, putDb, putFs; cbn [db fs].

Lemma invoiceCreate_inv (d d' : Database) (row : Invoice) :
  invoiceCreate d row = Ok d' ->
  ~ In (invoiceNumber row) (numbersOf d) /\
  d' = {| invoices := (invoices d ++ [row])%list;
          printJobs := printJobs d; settings := settings d |}.
Proof.
  unfold invoiceCreate.
  destruct (existsb _ (invoices d)) eqn:E; [discriminate|].
  intros H. injection H as <-. split; [|reflexivity].
  intros I. unfold numbersOf in I. apply in_map_iff in I. destruct I as (i & Hn & Hi).
  assert (X : existsb (fun i => invoiceNumber i =? invoiceNumber row) (invoices d) = true).
  { apply existsb_exists. exists i. split; [exact Hi|]. now apply String.eqb_eq. }
  congruence.
Qed.

Lemma invoiceCreate_taken (d : Database) (row : Invoice) :
  In (invoiceNumber row) (numbersOf d) -> exists e, invoiceCreate d row = Throw e.
Proof.
  intros I. destruct (invoiceCreate d row) as [d'|e] eqn:C; [|now exists e].
  destruct (invoiceCreate_inv _ _ _ C) as [N _]. now elim N.
Qed.

(** Everything a run of the handler for one order can do. *)
Lemma generateSingle_cases (shop orderId : string) (job : PrintJob) (w : World) :
  let number := nextInvoiceNumber (db w) shop in
  match generateSingle env shop orderId job w with
  | (w', outcome) =>
      (w' = w /\ exists e, outcome = Throw e) \/
      (exists buffer f' stored,
         FileStorageService.storeFile FileStorageService.defaultStoragePath shop (now env)
           (fs w) buffer ("invoice-" ++ number ++ ".pdf") = Ok (f', stored) /\
         fs w' = f' /\
         ((db w' = db w /\ In number (numbersOf (db w)) /\ exists e, outcome = Throw e) \/
          (~ In number (numbersOf (db w)) /\
           settings (db w') = settings (db w) /\
           (exists row,
              invoices (db w') = (invoices (db w) ++ [row])%list /\
              inv_shop row = shop /\ inv_orderId row = orderId /\
              invoiceNumber row = number /\
              inv_fileKey row = Some (FileStorageService.fileKey stored)) /\
           ((exists e, outcome = Throw e) \/
            exists filename,
              outcome = Ok {| status := 200;
                              body := Generated (FileStorageService.downloadUrl stored)
                                                (FileStorageService.fileKey stored)
                                                number (job_id job) buffer filename |}))))
  end.
Proof.
  cbv zeta. run_single.
  destruct (fetchOrder env orderId) as [[o|]|e] eqn:F;
    try (left; split; [reflexivity|eexists; reflexivity]).
  destruct (calculateGSTBreakdown env _ _) as [g|e] eqn:G;
    [|left; split; [reflexivity|eexists; reflexivity]].
  destruct (generateOrderPDF env _ _) as [r|e] eqn:P;
    [|left; split; [reflexivity|eexists; reflexivity]].
  destruct (usableBuffer r) as [b|] eqn:U;
    [|left; split; [reflexivity|eexists; reflexivity]].
  destruct (FileStorageService.storeFile _ shop (now env) (fs w) b _)
    as [[f' sf]|e] eqn:S; [|left; split; [destruct w; reflexivity|eexists; reflexivity]].
  cbn [db fs].
  destruct (invoiceCreate (db w) _) as [d'|e] eqn:C.
  - destruct (invoiceCreate_inv _ _ _ C) as [N ->]. cbn [invoiceNumber] in N.
    destruct (closeBrowser env) as [[]|e]; cbn [db fs];
      right; exists b, f', sf; (split; [exact S|]); (split; [reflexivity|]);
      right; (split; [exact N|]); (split; [reflexivity|]);
      (split; [eexists; repeat split; reflexivity|]).
    + right. eexists. reflexivity.
    + left. eexists. reflexivity.
  - right. exists b, f', sf. split; [exact S|]. split; [reflexivity|].
    left. split; [reflexivity|].
    split; [|eexists; reflexivity].
    destruct (existsb (fun i => invoiceNumber i =? nextInvoiceNumber (db w) shop)
                      (invoices (db w))) eqn:E.
    + apply existsb_exists in E. destruct E as (i & Hi & Hn). apply String.eqb_eq in Hn.
      unfold numbersOf. rewrite <- Hn. now apply in_map.
    + unfold invoiceCreate in C. cbn [invoiceNumber] in C. rewrite E in C. discriminate C.
Qed.

Lemma storeFile_files (storagePath shop : string) (now : Z) (f f' : FileSystem)
    (buffer : Buffer) (filename : string) (stored : FileStorageService.StoredFile) :
  FileStorageService.storeFile storagePath shop now f buffer filename = Ok (f', stored) ->
  exists path, files f' = (path, buffer) :: files f.
Proof.
  unfold FileStorageService.storeFile, writeFile.
  destruct (writable f); [|discriminate].
  intros H. injection H as <- _. eexists. reflexivity.
Qed.

Lemma numbersOf_ext (d d' : Database) : invoices d' = invoices d -> numbersOf d' = numbersOf d.
Proof. unfold numbersOf. now intros ->. Qed.

(** What a run of the handler leaves behind, whatever its outcome. *)
Lemma generateSingle_footprint (shop orderId : string) (job : PrintJob) (w : World) :
  let w' := fst (generateSingle env shop orderId job w) in
  settings (db w') = settings (db w) /\
  (exists rows,
     invoices (db w') = (invoices (db w) ++ rows)%list /\ (List.length rows <= 1)%nat /\
     Forall (fun r => inv_shop r = shop /\
                      invoiceNumber r = nextInvoiceNumber (db w) shop) rows) /\
  (exists written,
     files (fs w') = (written ++ files (fs w))%list /\ (List.length written <= 1)%nat).
Proof.
  cbv zeta. pose proof (generateSingle_cases shop orderId job w) as C. cbv zeta in C.
  destruct (generateSingle env shop orderId job w) as [w' outcome]. cbn [fst].
  destruct C as [[-> _]|(b & f' & sf & S & F & C)].
  - split; [reflexivity|]. split.
    + exists []. rewrite app_nil_r. repeat split; auto.
    + exists []. repeat split; auto.
  - destruct (storeFile_files _ _ _ _ _ _ _ _ S) as [path Fi].
    assert (W : exists written,
                files (fs w') = (written ++ files (fs w))%list /\
                (List.length written <= 1)%nat).
    { exists [(path, b)]. rewrite F, Fi. split; [reflexivity|cbn; lia]. }
    destruct C as [(D & _)|(_ & St & (row & I & Hs & _ & Hn & _) & _)].
    + rewrite D. split; [reflexivity|]. split; [|exact W].
      exists []. rewrite app_nil_r. repeat split; auto.
    + split; [exact St|]. split; [|exact W].
      exists [row]. split; [exact I|]. split; [cbn; lia|].
      constructor; [split; assumption|constructor].
Qed.

(** X21: the route never alters or removes an invoice row and never touches
    the settings: a request adds at most one row, for the shop of the
    session and under the number computed from the table as the request
    found it, and it writes to the disk at most once. *)
Theorem action_only_appends (request : Request) (w : World) :
  let shop := session_shop request in
  let w' := fst (action env request w) in
  settings (db w') = settings (db w) /\
  (exists rows,
     invoices (db w') = (invoices (db w) ++ rows)%list /\ (List.length rows <= 1)%nat /\
     Forall (fun r => inv_shop r = shop /\
                      invoiceNumber r = nextInvoiceNumber (db w) shop) rows) /\
  (exists written,
     files (fs w') = (written ++ files (fs w))%list /\ (List.length written <= 1)%nat).
Proof.
  cbv zeta.
  assert (Same : forall w', settings (db w') = settings (db w) ->
                            invoices (db w') = invoices (db w) -> fs w' = fs w ->
            settings (db w') = settings (db w) /\
            (exists rows,
               invoices (db w') = (invoices (db w) ++ rows)%list /\
               (List.length rows <= 1)%nat /\
               Forall (fun r => inv_shop r = session_shop request /\
                                invoiceNumber r
                                = nextInvoiceNumber (db w) (session_shop request)) rows) /\
            (exists written,
               files (fs w') = (written ++ files (fs w))%list /\
               (List.length written <= 1)%nat)).
  { intros w' S I F. split; [exact S|]. split.
    - exists []. rewrite app_nil_r. repeat split; auto.
    - exists []. rewrite F. repeat split; auto. }
  destruct (method request =? "POST")%string eqn:Hm.
  - apply String.eqb_eq in Hm.
    destruct (body_orderIds request) as [[|orderId [|o2 rest]]|] eqn:Hb.
    + unfold action, handle. rewrite Hm, Hb. now apply Same.
    + rewrite (action_single env request w orderId Hm Hb). cbv zeta.
      set (created := printJobCreate _ _ _ _ _).
      pose proof (generateSingle_footprint (session_shop request) orderId (snd created)
                    {| db := fst created; fs := fs w |}) as R.
      cbv zeta in R. cbn [db fs] in R.
      assert (N : nextInvoiceNumber (fst created) (session_shop request)
                  = nextInvoiceNumber (db w) (session_shop request))
        by (apply nextInvoiceNumber_ext; reflexivity).
      rewrite N in R.
      change (settings (fst created)) with (settings (db w)) in R.
      change (invoices (fst created)) with (invoices (db w)) in R.
      destruct (generateSingle env _ _ _ _) as [w2 [resp|e]]; exact R.
    + unfold action, handle. rewrite Hm, Hb. now apply Same.
    + unfold action, handle. rewrite Hm, Hb. now apply Same.
  - unfold action. rewrite Hm. now apply Same.
Qed.

(** X22: invoice numbers are counted per shop but must be unique across the
    table.  When the number computed for a shop is already on record, a
    request for one order is answered with 500 and records nothing, and the
    shop is left where it was: the next request computes the same number. *)
Theorem action_blocked_by_taken_number (request : Request) (w : World) (orderId : string) :
  method request = "POST" ->
  body_orderIds request = Some [orderId] ->
  In (nextInvoiceNumber (db w) (session_shop request)) (numbersOf (db w)) ->
  let w' := fst (action env request w) in
  status (snd (action env request w)) = 500 /\
  invoices (db w') = invoices (db w) /\
  nextInvoiceNumber (db w') (session_shop request)
  = nextInvoiceNumber (db w) (session_shop request).
Proof.
  intros Hm Hb Taken. cbv zeta.
  rewrite (action_single env request w orderId Hm Hb). cbv zeta.
  set (created := printJobCreate _ _ _ _ _).
  pose proof (generateSingle_cases (session_shop request) orderId (snd created)
                {| db := fst created; fs := fs w |}) as C.
  cbv zeta in C. cbn [db fs] in C.
  assert (N : nextInvoiceNumber (fst created) (session_shop request)
              = nextInvoiceNumber (db w) (session_shop request))
    by (apply nextInvoiceNumber_ext; reflexivity).
  rewrite N in C.
  change (numbersOf (fst created)) with (numbersOf (db w)) in C.
  destruct (generateSingle env _ _ _ _) as [w2 outcome].
  assert (D : invoices (db w2) = invoices (db w) /\ settings (db w2) = settings (db w) /\
              exists e, outcome = Throw e).
  { destruct C as [[-> E]|(b & f' & sf & _ & _ & [(D & _ & E)|(NotTaken & _)])].
    - repeat split; [exact E].
    - rewrite D. repeat split; [exact E].
    - now elim NotTaken. }
  destruct D as (I & S & e & ->). cbn [fst snd db status failWith].
  split; [reflexivity|]. split; [exact I|].
  apply nextInvoiceNumber_ext; [exact I|exact S].
Qed.

(** What stands behind a response that carries a generated invoice. *)
Lemma action_generated_inv (request : Request) (w : World) (url key number : string)
    (jobId : nat) (pdf : Buffer) (filename : option string) :
  body (snd (action env request w)) = Generated url key number jobId pdf filename ->
  let shop := session_shop request in
  let w' := fst (action env request w) in
  exists stored row,
    FileStorageService.storeFile FileStorageService.defaultStoragePath shop (now env)
      (fs w) pdf ("invoice-" ++ number ++ ".pdf") = Ok (fs w', stored) /\
    number = nextInvoiceNumber (db w) shop /\
    ~ In number (numbersOf (db w)) /\
    invoices (db w') = (invoices (db w) ++ [row])%list /\
    inv_shop row = shop /\ invoiceNumber row = number /\ inv_fileKey row = Some key /\
    key = FileStorageService.fileKey stored /\
    url = FileStorageService.downloadUrl stored /\
    status (snd (action env request w)) = 200.
Proof.
  cbv zeta.
  destruct (method request =? "POST")%string eqn:Hm.
  2: { unfold action. rewrite Hm. cbn [negb snd body]. discriminate. }
  apply String.eqb_eq in Hm.
  destruct (body_orderIds request) as [[|orderId [|o2 rest]]|] eqn:Hb;
    try (unfold action, handle; rewrite Hm, Hb; cbn; discriminate).
  rewrite (action_single env request w orderId Hm Hb). cbv zeta.
  set (created := printJobCreate _ _ _ _ _).
  pose proof (generateSingle_cases (session_shop request) orderId (snd created)
                {| db := fst created; fs := fs w |}) as C.
  cbv zeta in C. cbn [db fs] in C.
  assert (N : nextInvoiceNumber (fst created) (session_shop request)
              = nextInvoiceNumber (db w) (session_shop request))
    by (apply nextInvoiceNumber_ext; reflexivity).
  rewrite N in C.
  change (numbersOf (fst created)) with (numbersOf (db w)) in C.
  change (invoices (fst created)) with (invoices (db w)) in C.
  destruct (generateSingle env _ _ _ _) as [w2 [resp|e]];
    [|cbn [snd body failWith]; discriminate].
  cbn [fst snd]. intros B.
  destruct C as [[_ [e E]]|(b & f' & sf & S & F & [(_ & _ & e & E)|(NT & _ & R & [[e E]|[fn E]])])];
    try discriminate E.
  injection E as ->. cbn [body] in B. injection B as <- <- <- _ <- _.
  destruct R as (row & I & Hs & _ & Hn & Hk).
  exists sf, row. rewrite F. repeat split; assumption.
Qed.

(** X23: a generated invoice carries the number computed from the table as the
    request found it; that number was not on record before, it is the one
    added, and the shop's count goes up by one. *)
Theorem action_generated_number (request : Request) (w : World) (url key number : string)
    (jobId : nat) (pdf : Buffer) (filename : option string) :
  body (snd (action env request w)) = Generated url key number jobId pdf filename ->
  let shop := session_shop request in
  let w' := fst (action env request w) in
  status (snd (action env request w)) = 200 /\
  number = nextInvoiceNumber (db w) shop /\
  ~ In number (numbersOf (db w)) /\
  numbersOf (db w') = (numbersOf (db w) ++ [number])%list /\
  invoiceCount (db w') shop = S (invoiceCount (db w) shop).
Proof.
  intros B. cbv zeta.
  destruct (action_generated_inv _ _ _ _ _ _ _ _ B)
    as (sf & row & _ & N & NT & I & Hs & Hn & _ & _ & _ & St).
  split; [exact St|]. split; [exact N|]. split; [exact NT|]. split.
  - unfold numbersOf. rewrite I, map_app. cbn [map]. now rewrite Hn.
  - unfold invoiceCount. rewrite I, filter_app, length_app. cbn [filter].
    rewrite Hs, String.eqb_refl. cbn [List.length]. lia.
Qed.

End PrintRouteFacts.

Section PrintRouteExamples.
Import JS Fs Db PrintApi Props PropsMore.

Lemma action_blocked_by_taken_number_witness :
  nextInvoiceNumber twoShopsDb "third.myshopify.com" = "INV-1001" /\
  In "INV-1001" (numbersOf twoShopsDb) /\
  status (snd (action (sampleEnv (Ok samplePdf))
                      (singleRequest "third.myshopify.com" "3001") twoShopsWorld)) = 500 /\
  invoices (db (fst (action (sampleEnv (Ok samplePdf))
                            (singleRequest "third.myshopify.com" "3001") twoShopsWorld)))
  = invoices twoShopsDb.
Proof.
  assert (T : In (nextInvoiceNumber (db twoShopsWorld)
                    (session_shop (singleRequest "third.myshopify.com" "3001")))
                 (numbersOf (db twoShopsWorld))).
  { left. reflexivity. }
  split; [reflexivity|]. split; [exact T|].
  destruct (action_blocked_by_taken_number (sampleEnv (Ok samplePdf))
              (singleRequest "third.myshopify.com" "3001") twoShopsWorld "3001"
              eq_refl eq_refl T) as (A & B & _).
  split; [exact A|exact B].
Defined.

Lemma action_generated_number_witness :
  body (snd (action (sampleEnv (Ok samplePdf))
                    (singleRequest "acme.myshopify.com" "1001") twoShopsWorld))
  = Generated "/api/download/acme.myshopify.com%2F1730000000000-invoice-INV-1002.pdf"
              "acme.myshopify.com/1730000000000-invoice-INV-1002.pdf"
              "INV-1002" 0 "%PDF-1.7" (Some "invoice.pdf") /\
  "INV-1002" = nextInvoiceNumber twoShopsDb "acme.myshopify.com" /\
  numbersOf (db (fst (action (sampleEnv (Ok samplePdf))
                             (singleRequest "acme.myshopify.com" "1001") twoShopsWorld)))
  = (numbersOf twoShopsDb ++ ["INV-1002"])%list.
Proof.
  assert (B : body (snd (action (sampleEnv (Ok samplePdf))
                           (singleRequest "acme.myshopify.com" "1001") twoShopsWorld))
              = Generated
                  "/api/download/acme.myshopify.com%2F1730000000000-invoice-INV-1002.pdf"
                  "acme.myshopify.com/1730000000000-invoice-INV-1002.pdf"
                  "INV-1002" 0 "%PDF-1.7" (Some "invoice.pdf")).
  { vm_compute. reflexivity. }
  split; [exact B|].
  destruct (action_generated_number _ _ _ _ _ _ _ _ _ B) as (_ & N & _ & M & _).
  split; [exact N|exact M].
Defined.

End PrintRouteExamples.

(** ** From generation to download *)
Section GenerateThenDownload.
Import JS Fs Db PrintApi Props PropsMore.

Lemma sanitizeChar_ascii (c : ascii) : isAscii (FileStorageService.sanitizeChar c) = true.
Proof. destruct c as [[] [] [] [] [] [] [] []]; reflexivity. Qed.

Lemma sanitized_ascii (s : string) :
  allChars isAscii (mapChars FileStorageService.sanitizeChar s) = true.
Proof.
  induction s as [|c s IH]; [reflexivity|].
  cbn [mapChars allChars]. now rewrite sanitizeChar_ascii, IH.
Qed.

Lemma uint_ascii (u : Decimal.uint) : allChars isAscii (NilEmpty.string_of_uint u) = true.
Proof. induction u; cbn [NilEmpty.string_of_uint allChars]; try rewrite IHu; reflexivity. Qed.

Lemma intToString_ascii (z : Z) : allChars isAscii (intToString z) = true.
Proof.
  unfold intToString, NilZero.string_of_int.
  destruct (Z.to_int z) as [u|u]; unfold NilZero.string_of_uint;
    destruct u; cbn [NilEmpty.string_of_uint allChars];
    rewrite ?uint_ascii; reflexivity.
Qed.

Lemma issued_key_ascii (shop : string) (now : Z) (filename : string) :
  allChars isAscii
    (FileStorageService.sanitizeShopName shop ++ "/" ++ intToString now ++ "-"
     ++ FileStorageService.sanitizeFilename filename) = true.
Proof.
  rewrite allChars_app. unfold FileStorageService.sanitizeShopName at 1.
  rewrite sanitized_ascii. cbn [andb].
  change ("/" ++ ?x) with (String "/" x). cbn [allChars].
  change (isAscii "/") with true. cbn [andb].
  rewrite allChars_app, intToString_ascii. cbn [andb].
  change ("-" ++ ?x) with (String "-" x). cbn [allChars].
  change (isAscii "-") with true. cbn [andb].
  apply sanitized_ascii.
Qed.

Lemma encodeURIComponent_truthy (s : string) :
  s <> "" -> truthy (URI.encodeURIComponent s) = true.
Proof.
  destruct s as [|c r]; [congruence|]. intros _. cbn [URI.encodeURIComponent].
  destruct (URI.isUnreserved c); reflexivity.
Qed.

Lemma invoiceFindFirst_finds (d : Database) (key shop : string) (row : Invoice) :
  In row (invoices d) -> inv_fileKey row = Some key -> inv_shop row = shop ->
  exists i, invoiceFindFirst d key shop = Some i.
Proof.
  intros I K S. unfold invoiceFindFirst.
  destruct (find _ (invoices d)) as [i|] eqn:E; [now exists i|].
  pose proof (find_none _ _ E row I) as N. cbv beta in N.
  rewrite K, S, !String.eqb_refl in N. discriminate N.
Qed.

(** X24: the URL returned with a generated invoice works: the download route,
    asked by the same shop for the key as it is written in that URL, answers
    200 with the very PDF that was generated. *)
Theorem generated_invoice_downloadable (env : Collaborators) (request : Request) (w : World)
    (url key number : string) (jobId : nat) (pdf : Buffer) (filename : option string) :
  plainSegment (FileStorageService.sanitizeShopName (session_shop request)) ->
  body (snd (action env request w)) = Generated url key number jobId pdf filename ->
  let w' := fst (action env request w) in
  url = "/api/download/" ++ URI.encodeURIComponent key /\
  exists disposition,
    Download.loader (db w') (fs w') (session_shop request)
      (Some (URI.encodeURIComponent key))
    = {| Download.status := 200; Download.body := Download.Pdf pdf disposition |}.
Proof.
  intros Hs B. cbv zeta.
  destruct (action_generated_inv env _ _ _ _ _ _ _ _ B)
    as (sf & row & S & _ & _ & I & Hsh & _ & Hk & K & U & _).
  cbv zeta in S, I.
  destruct (storeFile_inv _ _ _ _ _ _ _ Hs S) as (_ & K' & U' & F).
  cbv zeta in K', U', F.
  pose proof (issued_name_plain (now env) ("invoice-" ++ number ++ ".pdf")) as Hn.
  assert (A : allChars isAscii key = true) by (rewrite K, K'; apply issued_key_ascii).
  assert (NE : key <> "").
  { rewrite K, K'. destruct Hs as (Hs1 & _).
    destruct (FileStorageService.sanitizeShopName (session_shop request));
      [now elim Hs1|discriminate]. }
  split; [rewrite U, U', K, K'; reflexivity|].
  unfold Download.loader.
  rewrite (encodeURIComponent_truthy key NE). cbn [negb].
  rewrite (decodeURIComponent_encodeURIComponent_aux key A).
  destruct (invoiceFindFirst_finds (db (fst (action env request w))) key
              (session_shop request) row) as [i Fi]; try assumption.
  { rewrite I. apply in_or_app. right. left. reflexivity. }
  rewrite Fi.
  assert (G : FileStorageService.getFile FileStorageService.defaultStoragePath
                (fs (fst (action env request w))) key = Ok pdf).
  { rewrite K, K'. rewrite (getFile_two_segments _ _ _ Hs Hn), F.
    cbn [files Fs.lookupFile]. now rewrite String.eqb_refl. }
  rewrite G. eexists. reflexivity.
Qed.

Lemma generated_invoice_downloadable_witness :
  body (snd (action (sampleEnv (Ok samplePdf))
                    (singleRequest "acme.myshopify.com" "1001") twoShopsWorld))
  = Generated "/api/download/acme.myshopify.com%2F1730000000000-invoice-INV-1002.pdf"
              "acme.myshopify.com/1730000000000-invoice-INV-1002.pdf"
              "INV-1002" 0 "%PDF-1.7" (Some "invoice.pdf") /\
  exists disposition,
    Download.loader
      (db (fst (action (sampleEnv (Ok samplePdf))
                       (singleRequest "acme.myshopify.com" "1001") twoShopsWorld)))
      (fs (fst (action (sampleEnv (Ok samplePdf))
                       (singleRequest "acme.myshopify.com" "1001") twoShopsWorld)))
      "acme.myshopify.com"
      (Some (URI.encodeURIComponent "acme.myshopify.com/1730000000000-invoice-INV-1002.pdf"))
    = {| Download.status := 200; Download.body := Download.Pdf "%PDF-1.7" disposition |}.
Proof.
  assert (B : body (snd (action (sampleEnv (Ok samplePdf))
                           (singleRequest "acme.myshopify.com" "1001") twoShopsWorld))
              = Generated
                  "/api/download/acme.myshopify.com%2F1730000000000-invoice-INV-1002.pdf"
                  "acme.myshopify.com/1730000000000-invoice-INV-1002.pdf"
                  "INV-1002" 0 "%PDF-1.7" (Some "invoice.pdf")).
  { vm_compute. reflexivity. }
  split; [exact B|].
  exact (proj2 (generated_invoice_downloadable
                  (sampleEnv (Ok samplePdf)) (singleRequest "acme.myshopify.com" "1001")
                  twoShopsWorld _ _ _ _ _ _ acme_plain B)).
Defined.

End GenerateThenDownload.

(** ** The bulk job seen from outside *)
Section BulkFacts.
Import JS Db BulkInvoice BulkInvoiceMore Props PropsMore.

Variable gen : string -> string -> Exc string.
Variable statOrder : list (string * string) -> list (string * string).
Variable zipBytes : list (string * Fs.Buffer) -> Fs.Buffer.

Lemma uint_chars (p : ascii -> bool) (u : Decimal.uint) :
  allChars p "0123456789" = true -> allChars p (NilEmpty.string_of_uint u) = true.
Proof.
  cbn [allChars]. intros H.
  repeat (apply andb_true_iff in H; destruct H as [? H]).
  induction u; cbn [NilEmpty.string_of_uint allChars]; try rewrite IHu;
    rewrite ?andb_true_r; auto.
Qed.

(** The characters of the decimal text of an integer. *)
Lemma intToString_chars (p : ascii -> bool) (z : Z) :
  allChars p "-0123456789" = true -> allChars p (intToString z) = true.
Proof.
  intros H. cbn [allChars] in H. apply andb_true_iff in H. destruct H as [M D].
  unfold intToString, NilZero.string_of_int.
  destruct (Z.to_int z) as [u|u]; unfold NilZero.string_of_uint.
  - destruct u; try (apply uint_chars; exact D).
    cbn [allChars]. cbn [allChars] in D. apply andb_true_iff in D. destruct D as [D _].
    now rewrite D.
  - cbn [allChars]. rewrite M. cbn [andb].
    destruct u; try (apply uint_chars; exact D).
    cbn [allChars]. cbn [allChars] in D. apply andb_true_iff in D. destruct D as [D _].
    now rewrite D.
Qed.

Lemma zip_name_chars (p : ascii -> bool) (now : Z) :
  allChars p "invoices-.zip0123456789" = true ->
  allChars p ("invoices-" ++ intToString now ++ ".zip") = true.
Proof.
  intros H. rewrite allChars_app, allChars_app.
  rewrite (intToString_chars p now).
  - cbn [allChars] in *.
    repeat (apply andb_true_iff in H; destruct H as [? H]).
    repeat (apply andb_true_iff; split); auto.
  - cbn [allChars] in *.
    repeat (apply andb_true_iff in H; destruct H as [? H]).
    repeat (apply andb_true_iff; split); auto.
Qed.

Lemma key_has_slash (a b : string) : allChars notSlash (a ++ "/" ++ b) = false.
Proof.
  rewrite allChars_app. change ("/" ++ b) with (String "/" b). cbn [allChars].
  change (notSlash "/") with false. cbn [andb]. apply andb_false_r.
Qed.

(** X25: the link a finished bulk job hands out names the archive by its bare
    file name.  The download route looks that name up among the keys of the
    invoice table, where every key has the shape shop/name: the link is
    answered with 404 for every shop and every state of the disk. *)
Theorem bulk_download_link_not_served (now : Z) (disk : Fs.FileSystem)
    (job : BulkInvoiceJob) (d : Database) (fs : Fs.FileSystem) (session : string) :
  keysIssuedByStoreFile d ->
  let name := ("invoices-" ++ intToString now ++ ".zip")%string in
  (Fs.writable disk = true ->
   exists out, processJob gen statOrder zipBytes now disk job = Ok out) /\
  (forall out,
     processJob gen statOrder zipBytes now disk job = Ok out ->
     res_downloadUrl (result out) = "/api/download/" ++ name ++ "?shop=" ++ shop job) /\
  Download.loader d fs session (Some name)
  = {| Download.status := 404; Download.body := Download.Text "Invoice not found" |}.
Proof.
  intros K. cbv zeta. split; [|split].
  - intros W. unfold processJob, createZipFile, Fs.writeFile. cbv zeta. rewrite W.
    eexists. reflexivity.
  - intros out. unfold processJob, createZipFile. cbv zeta.
    destruct (Fs.writeFile _ _ _); [|discriminate].
    intros H. injection H as <-. reflexivity.
  - unfold Download.loader.
    change (truthy ("invoices-" ++ intToString now ++ ".zip")) with true. cbn [negb].
    rewrite decodeURIComponent_plain by (apply zip_name_chars; reflexivity).
    unfold invoiceFindFirst. rewrite find_none_all; [reflexivity|].
    intros i Hi. destruct (inv_fileKey i) as [k|] eqn:E; [|reflexivity].
    destruct (K i k Hi E) as (n & _ & ->).
    destruct (_ =? _)%string eqn:Q; [|reflexivity].
    apply String.eqb_eq in Q.
    pose proof (key_has_slash (FileStorageService.sanitizeShopName (inv_shop i)) n) as S.
    rewrite Q, (zip_name_chars notSlash now eq_refl) in S. discriminate S.
Qed.

(** While a job is being processed, the progress stored on it carries the
    exact number of invoices completed so far, the total, and a number of
    failures that is never above the true one. *)
Lemma loopFrom_persisted (shop : string) (total : nat) (ids : list string) :
  forall (i : nat) (s : LoopState),
    match persisted s with
    | Some p => completed p = st_completed s /\ (failed p <= st_failed s)%nat /\
                BulkInvoice.total p = total
    | None => st_completed s = 0%nat
    end ->
    let s' := loopFrom gen shop total i ids s in
    match persisted s' with
    | Some p => completed p = st_completed s' /\ (failed p <= st_failed s')%nat /\
                BulkInvoice.total p = total
    | None => st_completed s' = 0%nat
    end.
Proof.
  induction ids as [|id ids IH]; intros i s Inv; cbn [loopFrom]; [exact Inv|].
  apply IH. unfold processItem. destruct (gen id shop) as [f|e];
    cbn [persisted completed failed BulkInvoice.total st_completed st_failed].
  - repeat split. lia.
  - destruct (persisted s) as [p|]; [|exact Inv].
    destruct Inv as (A & B & C). repeat split; auto.
Qed.

(** X26: what [getJobStatus] shows of a job that has gone through the orders
    [processed] so far: the number completed is exact, the number failed is
    never above the true one, and the total is the job's, or still 0 when no
    order has succeeded yet. *)
Theorem getJobStatus_during_processing (shop state : string) (total : nat)
    (processed : list string) :
  let s := loopFrom gen shop total 0 processed initialState in
  exists st,
    getJobStatus (Some (state, persisted s)) = Ok st /\
    js_completed st = st_completed s /\
    (js_failed st <= st_failed s)%nat /\
    (js_total st = total \/ (js_total st = 0%nat /\ st_completed s = 0%nat)).
Proof.
  cbv zeta.
  pose proof (loopFrom_persisted shop total processed 0 initialState eq_refl) as Inv.
  cbv zeta in Inv.
  eexists. split; [reflexivity|].
  cbn [js_completed js_failed js_total].
  destruct (persisted (loopFrom gen shop total 0 processed initialState)) as [p|].
  - destruct Inv as (A & B & C). repeat split; auto.
  - repeat split; [now rewrite Inv|lia|right; split; [reflexivity|exact Inv]].
Qed.

End BulkFacts.

Section BulkExamples.
Import JS Db BulkInvoice BulkInvoiceMore Props PropsMore.

Lemma bulk_download_link_not_served_witness :
  keysIssuedByStoreFile twoShopsDb /\
  (exists out,
     processJob (failOn "o2") (@rev (string * string)) entryNames 1730000000000
                sampleDisk sampleJob = Ok out /\
     res_downloadUrl (result out)
     = "/api/download/invoices-1730000000000.zip?shop=acme.myshopify.com") /\
  Download.loader twoShopsDb twoShopsFs "acme.myshopify.com"
    (Some "invoices-1730000000000.zip")
  = {| Download.status := 404; Download.body := Download.Text "Invoice not found" |}.
Proof.
  split; [exact twoShops_issued|].
  destruct (bulk_download_link_not_served (failOn "o2") (@rev (string * string)) entryNames
              1730000000000 sampleDisk sampleJob
              twoShopsDb twoShopsFs "acme.myshopify.com" twoShops_issued)
    as (Runs & Link & NotServed).
  split; [|exact NotServed].
  destruct (Runs eq_refl) as [out E]. exists out. split; [exact E|exact (Link out E)].
Defined.

End BulkExamples.

(** ** Sending an invoice by e-mail *)
Section SendInvoiceFacts.
Import JS NodePath Fs Db SendInvoice Props PropsMore.

Ltac plain_seg :=
  first [ assumption | reflexivity
        | split; [|split; [|split]]; first [assumption | discriminate | reflexivity] ].

Lemma normalizeString_three (a b c : string) :
  plainSegment a -> plainSegment b -> plainSegment c ->
  normalizeString (root ++ "/" ++ a ++ "/" ++ b ++ "/" ++ c) false
  = "var/www/letsprint/storage/invoices/" ++ a ++ "/" ++ b ++ "/" ++ c.
Proof.
  intros Ha Hb Hc. pose proof Ha as (Ha1 & Ha2 & Ha3 & Ha4).
  pose proof Hb as (Hb1 & Hb2 & Hb3 & Hb4). pose proof Hc as (Hc1 & Hc2 & Hc3 & Hc4).
  unfold normalizeString, root, FileStorageService.defaultStoragePath.
  change ("/var/www/letsprint/storage/invoices" ++ "/" ++ a ++ "/" ++ b ++ "/" ++ c)
    with ("" ++ "/" ++ ("var" ++ "/" ++ ("www" ++ "/" ++ ("letsprint" ++ "/" ++
          ("storage" ++ "/" ++ ("invoices" ++ "/" ++ (a ++ "/" ++ (b ++ "/" ++ c)))))))).
  rewrite !split_app by plain_seg. rewrite (split_plain c Hc4).
  cbn [fold_left]. change (pushSegment false [] "") with (@nil string).
  repeat (rewrite pushSegment_plain by plain_seg). reflexivity.
Qed.

Lemma append_cancel_l (p x y : string) : p ++ x = p ++ y -> x = y.
Proof.
  induction p as [|c p IH]; cbn [append]; [auto|].
  intros H. injection H as H. now apply IH.
Qed.

(** A path three directories deep is none of the paths two deep. *)
Lemma three_deep_not_two_deep (a b x y z : string) :
  plainSegment a -> plainSegment b -> plainSegment x -> plainSegment y -> plainSegment z ->
  root ++ "/" ++ a ++ "/" ++ b <> root ++ "/" ++ x ++ "/" ++ y ++ "/" ++ z.
Proof.
  intros (_ & _ & _ & Ha) (_ & _ & _ & Hb) (_ & _ & _ & Hx) (_ & _ & _ & Hy)
         (_ & _ & _ & Hz) E.
  apply append_cancel_l in E. apply (append_cancel_l "/") in E.
  apply (f_equal (split "/")) in E.
  rewrite (split_app a b Ha), (split_plain b Hb) in E.
  rewrite (split_app x _ Hx), (split_app y z Hy), (split_plain z Hz) in E.
  discriminate E.
Qed.

Lemma sanitizeShopName_plain (shop : string) :
  plainSegment shop -> plainSegment (FileStorageService.sanitizeShopName shop).
Proof.
  intros (H1 & H2 & H3 & _). unfold FileStorageService.sanitizeShopName.
  assert (Dot : forall c, FileStorageService.sanitizeChar c = "."%char -> c = "."%char).
  { intros c. unfold FileStorageService.sanitizeChar.
    destruct (FileStorageService.isSafeChar c); [auto|discriminate]. }
  repeat split.
  - destruct shop; [now elim H1|discriminate].
  - destruct shop as [|c [|c' r]]; try discriminate.
    cbn [mapChars]. intros E. injection E as E. apply Dot in E. subst c. now elim H2.
  - destruct shop as [|c [|c' [|c2 r]]]; try discriminate.
    cbn [mapChars]. intros E. injection E as E E'. apply Dot in E, E'. subst c c'.
    now elim H3.
  - apply sanitized_notSlash.
Qed.

Lemma lookupFile_none (l : list (string * Buffer)) (path : string) :
  ~ In path (map fst l) -> lookupFile l path = None.
Proof.
  induction l as [|[q b] l IH]; [reflexivity|]. cbn [map fst In lookupFile]. intros N.
  destruct (q =? path)%string eqn:E.
  - apply String.eqb_eq in E. elim N. now left.
  - apply IH. intros I. apply N. now right.
Qed.

(** Where the action looks for the PDF of a key of the shape shop/name. *)
Lemma attachment_path (shop a b : string) :
  plainSegment shop -> plainSegment a -> plainSegment b ->
  pathJoin ["/var/www/letsprint/storage/invoices"; shop; a ++ "/" ++ b]
  = root ++ "/" ++ shop ++ "/" ++ a ++ "/" ++ b.
Proof.
  intros Hs Ha Hb. unfold pathJoin. cbn [filter].
  change (truthy "/var/www/letsprint/storage/invoices") with true. cbv iota.
  assert (T1 : truthy shop = true).
  { destruct Hs as (H & _). destruct shop; [now elim H|reflexivity]. }
  assert (T2 : truthy (a ++ "/" ++ b) = true).
  { destruct Ha as (H & _). destruct a; [now elim H|reflexivity]. }
  rewrite T1, T2. unfold join. cbn [concat].
  change "/var/www/letsprint/storage/invoices" with root.
  unfold normalize.
  assert (NE : (root ++ "/" ++ shop ++ "/" ++ a ++ "/" ++ b =? "")%string = false)
    by reflexivity.
  rewrite NE.
  change (isAbsolute (root ++ "/" ++ shop ++ "/" ++ a ++ "/" ++ b)) with true.
  cbv iota. cbn [negb].
  rewrite (normalizeString_three _ _ _ Hs Ha Hb).
  assert (E : root ++ "/" ++ shop ++ "/" ++ a ++ "/" ++ b
              = ("/var/www/letsprint/storage/invoices/" ++ shop ++ "/" ++ a ++ "/") ++ b).
  { unfold root, FileStorageService.defaultStoragePath. cbn [append].
    repeat (rewrite append_assoc; cbn [append]). reflexivity. }
  rewrite E at 1. rewrite (endsWithSlash_under_root _ b Hb).
  assert (NE' : ("var/www/letsprint/storage/invoices/" ++ shop ++ "/" ++ a ++ "/" ++ b
                 =? "")%string = false) by reflexivity.
  rewrite NE'. reflexivity.
Qed.

(** X27: the action reads the PDF at storage path / shop / key, and the key
    already begins with the shop's directory.  On a disk laid out by
    [storeFile] no file is there: for an invoice recorded by the print route
    the action never gets as far as the mail service, whatever the form and
    the settings. *)
Theorem send_invoice_never_delivers (d : Database) (fs : FileSystem) (shop : string)
    (form : Form) (invoice : Invoice) (smtpPassword smtpFromEmail : option string)
    (deliver : Invoice -> Buffer -> Response) :
  keysIssuedByStoreFile d -> laidOutByStoreFile fs ->
  In invoice (invoices d) -> plainSegment shop ->
  let response := action fs shop form (Some invoice) smtpPassword smtpFromEmail deliver in
  success response = false /\
  (status response = 400 \/ status response = 404 \/
   (status response = 500 /\ message response = "PDF file not accessible")).
Proof.
  intros K L I Hs. cbv zeta. unfold action.
  destruct (negb (present (invoiceId form)) || negb (present (customerEmail form)));
    [cbn; auto|].
  destruct (inv_shop invoice =? shop)%string eqn:S; cbn [negb]; [|cbn; auto].
  apply String.eqb_eq in S.
  destruct (negb (present smtpPassword) || negb (present smtpFromEmail)); [cbn; auto|].
  destruct (inv_fileKey invoice) as [k|] eqn:E; cbn [present negb]; [|cbn; auto].
  destruct (truthy k); cbn [negb]; [|cbn; auto].
  cbv zeta. destruct (K invoice k I E) as (name & Hn & ->). rewrite S.
  pose proof (sanitizeShopName_plain shop Hs) as Hss.
  rewrite (attachment_path shop _ name Hs Hss Hn).
  unfold readFile.
  assert (R : resolve (cwd fs)
                (root ++ "/" ++ shop ++ "/" ++ FileStorageService.sanitizeShopName shop
                 ++ "/" ++ name)
              = root ++ "/" ++ shop ++ "/" ++ FileStorageService.sanitizeShopName shop
                ++ "/" ++ name).
  { unfold resolve.
    change (isAbsolute (root ++ "/" ++ shop ++ "/"
                        ++ FileStorageService.sanitizeShopName shop ++ "/" ++ name))
      with true. cbv iota.
    now rewrite (normalizeString_three _ _ _ Hs Hss Hn). }
  rewrite R. rewrite lookupFile_none; [cbn; auto|].
  intros In3. destruct (L _ In3) as (a & b & Ha & Hb & Eq).
  symmetry in Eq. exact (three_deep_not_two_deep _ _ _ _ _ Ha Hb Hs Hss Hn Eq).
Qed.

Lemma acmeFs_laid_out : laidOutByStoreFile acmeFs.
Proof.
  intros path [<-|[]]. exists "acme.myshopify.com", "17-invoice-INV-1001.pdf".
  repeat split; discriminate.
Qed.

Lemma acme_shop_plain : plainSegment "acme.myshopify.com".
Proof. repeat split; discriminate. Qed.

Lemma send_invoice_never_delivers_witness :
  FileStorageService.getFile FileStorageService.defaultStoragePath acmeFs
    "acme.myshopify.com/17-invoice-INV-1001.pdf" = Ok "%PDF acme" /\
  action acmeFs "acme.myshopify.com"
    {| invoiceId := Some "inv_1"; customerEmail := Some "buyer@example.com" |}
    (Some acmeInvoice) (Some "SG.key") (Some "billing@acme.example")
    (fun _ _ => {| status := 200; success := true; message := "Invoice sent successfully" |})
  = {| status := 500; success := false; message := "PDF file not accessible" |} /\
  success
    (action acmeFs "acme.myshopify.com"
       {| invoiceId := Some "inv_1"; customerEmail := Some "buyer@example.com" |}
       (Some acmeInvoice) (Some "SG.key") (Some "billing@acme.example")
       (fun _ _ => {| status := 200; success := true; message := "Invoice sent successfully" |}))
  = false.
Proof.
  split; [reflexivity|]. split; [reflexivity|].
  refine (proj1 (send_invoice_never_delivers twoShopsDb acmeFs "acme.myshopify.com"
                   {| invoiceId := Some "inv_1"; customerEmail := Some "buyer@example.com" |}
                   acmeInvoice (Some "SG.key") (Some "billing@acme.example")
                   (fun _ _ => {| status := 200; success := true;
                                  message := "Invoice sent successfully" |})
                   twoShops_issued acmeFs_laid_out _ acme_shop_plain)).
  left. reflexivity.
Defined.

End SendInvoiceFacts.

(** ** Invoice numbers on record *)
Section InvoiceNumbersMore.
Import JS Db PrintApi Props.

(** X28: however the steps of two requests interleave, if both have inserted
    their row then the two numbers differ and both are on record: the
    unique index turns a clash into a failed insert, never into two rows
    with one number. *)
Theorem inserted_numbers_never_collide (schedule : list bool) (d d' : Database)
    (a b a' b' : Req) (n m : string) :
  pc a = AtCount -> pc b = AtCount ->
  runSchedule schedule d a b = (d', a', b') ->
  pc a' = Finished n (Ok tt) -> pc b' = Finished m (Ok tt) ->
  n <> m /\ In n (numbersOf d') /\ In m (numbersOf d').
Proof.
  intros Pa Pb R Fa Fb.
  assert (Ra : recorded d a) by (unfold recorded; now rewrite Pa).
  assert (Rb : recorded d b) by (unfold recorded; now rewrite Pb).
  assert (D : distinctWhenBothInserted a b)
    by (unfold distinctWhenBothInserted; now rewrite Pa).
  pose proof (inserted_numbers_distinct schedule d a b Ra Rb D) as H.
  rewrite R in H. destruct H as (Ha & Hb & Hd).
  unfold recorded in Ha, Hb. unfold distinctWhenBothInserted in Hd.
  rewrite Fa in Ha, Hd. rewrite Fb in Hb, Hd. auto.
Qed.

Lemma inserted_numbers_never_collide_witness :
  pc (requestFor "A") = AtCount /\ pc (requestFor "B") = AtCount /\
  "INV-1004" <> "INV-1005" /\
  In "INV-1004"
     (numbersOf (fst (fst (runSchedule [true; true; false; true; false]
                             threeInvoicesDb (requestFor "A") (requestFor "B"))))) /\
  In "INV-1005"
     (numbersOf (fst (fst (runSchedule [true; true; false; true; false]
                             threeInvoicesDb (requestFor "A") (requestFor "B"))))).
Proof.
  split; [reflexivity|]. split; [reflexivity|].
  exact (inserted_numbers_never_collide
           [true; true; false; true; false] threeInvoicesDb
           (fst (fst (runSchedule [true; true; false; true; false]
                        threeInvoicesDb (requestFor "A") (requestFor "B"))))
           (requestFor "A") (requestFor "B")
           (snd (fst (runSchedule [true; true; false; true; false]
                        threeInvoicesDb (requestFor "A") (requestFor "B"))))
           (snd (runSchedule [true; true; false; true; false]
                   threeInvoicesDb (requestFor "A") (requestFor "B")))
           "INV-1004" "INV-1005" eq_refl eq_refl eq_refl eq_refl eq_refl).
Defined.

End InvoiceNumbersMore.

(** ** The path check of the storage service *)
Section StoragePathCheck.
Import JS NodePath Fs FileStorageService FileStorageMore Props PropsMore.

Ltac plain_part :=
  first [ assumption | reflexivity
        | split; [|split; [|split]]; first [assumption | discriminate | reflexivity] ].

Lemma prefix_cancel (p a b : string) : String.prefix (p ++ a) (p ++ b) = String.prefix a b.
Proof.
  induction p as [|c p IH]; [reflexivity|]. cbn [append String.prefix].
  destruct (ascii_dec c c) as [_|N]; [exact IH|now elim N].
Qed.

Lemma sibling_plain (suffix : string) :
  allChars notSlash suffix = true -> plainSegment ("invoices" ++ suffix).
Proof.
  intros H. repeat split; try discriminate.
  rewrite allChars_app, H. reflexivity.
Qed.

(** Where a key that steps out of the storage directory and into a
    directory beside it lands. *)
Lemma join2_sibling (d name : string) :
  plainSegment d -> plainSegment name ->
  join2 root (".." ++ "/" ++ d ++ "/" ++ name)
  = "/var/www/letsprint/storage/" ++ d ++ "/" ++ name.
Proof.
  intros Hd Hn. pose proof Hd as (Hd1 & Hd2 & Hd3 & Hd4).
  pose proof Hn as (Hn1 & Hn2 & Hn3 & Hn4).
  unfold join2. change (root =? "")%string with false. cbv iota.
  change (".." ++ "/" ++ d ++ "/" ++ name =? "")%string with false. cbv iota.
  unfold normalize.
  change (root ++ "/" ++ ".." ++ "/" ++ d ++ "/" ++ name =? "")%string with false.
  change (isAbsolute (root ++ "/" ++ ".." ++ "/" ++ d ++ "/" ++ name)) with true.
  cbv iota. cbn [negb].
  assert (N : normalizeString (root ++ "/" ++ ".." ++ "/" ++ d ++ "/" ++ name) false
              = "var/www/letsprint/storage/" ++ d ++ "/" ++ name).
  { unfold normalizeString, root, defaultStoragePath.
    change ("/var/www/letsprint/storage/invoices" ++ "/" ++ ".." ++ "/" ++ d ++ "/" ++ name)
      with ("" ++ "/" ++ ("var" ++ "/" ++ ("www" ++ "/" ++ ("letsprint" ++ "/" ++
            ("storage" ++ "/" ++ ("invoices" ++ "/" ++ (".." ++ "/" ++ (d ++ "/" ++ name)))))))).
    do 6 (rewrite split_app by plain_part).
    rewrite split_app by reflexivity. rewrite split_app by assumption.
    rewrite (split_plain name Hn4).
    cbn [fold_left]. change (pushSegment false [] "") with (@nil string).
    change (pushSegment false
              (pushSegment false
                 (pushSegment false
                    (pushSegment false
                       (pushSegment false (pushSegment false [] "var") "www")
                       "letsprint") "storage") "invoices") "..")
      with ["storage"; "letsprint"; "www"; "var"].
    repeat (rewrite pushSegment_plain by plain_part). reflexivity. }
  rewrite N.
  assert (E : root ++ "/" ++ ".." ++ "/" ++ d ++ "/" ++ name
              = ("/var/www/letsprint/storage/invoices/../" ++ d ++ "/") ++ name).
  { unfold root, defaultStoragePath. cbn [append].
    repeat (rewrite append_assoc; cbn [append]). reflexivity. }
  rewrite E. rewrite (endsWithSlash_under_root _ name Hn).
  change ("var/www/letsprint/storage/" ++ d ++ "/" ++ name =? "")%string with false.
  reflexivity.
Qed.

Lemma resolve_sibling (cwd d name : string) :
  plainSegment d -> plainSegment name ->
  resolve cwd ("/var/www/letsprint/storage/" ++ d ++ "/" ++ name)
  = "/var/www/letsprint/storage/" ++ d ++ "/" ++ name.
Proof.
  intros Hd Hn. pose proof Hd as (Hd1 & Hd2 & Hd3 & Hd4).
  pose proof Hn as (Hn1 & Hn2 & Hn3 & Hn4).
  unfold resolve.
  change (isAbsolute ("/var/www/letsprint/storage/" ++ d ++ "/" ++ name)) with true.
  cbv iota. unfold normalizeString.
  change ("/var/www/letsprint/storage/" ++ d ++ "/" ++ name)
    with ("" ++ "/" ++ ("var" ++ "/" ++ ("www" ++ "/" ++ ("letsprint" ++ "/" ++
          ("storage" ++ "/" ++ (d ++ "/" ++ name)))))) at 1.
  rewrite !split_app by plain_part. rewrite (split_plain name Hn4).
  cbn [fold_left]. change (pushSegment false [] "") with (@nil string).
  repeat (rewrite pushSegment_plain by plain_part). reflexivity.
Qed.

(** X29: the check that keeps [getFile] and [deleteFile] inside the storage
    directory compares the resolved path with the storage path as strings.
    A directory beside the storage directory whose name merely begins with
    its name passes the check: a key stepping into it is read, and deleted,
    although the file is not inside the storage directory. *)
Theorem path_check_admits_sibling_directory (fs : FileSystem) (suffix name : string)
    (data : Buffer) :
  suffix <> "" -> allChars notSlash suffix = true -> plainSegment name ->
  writable fs = true ->
  lookupFile (files fs) (root ++ suffix ++ "/" ++ name) = Some data ->
  startsWith (root ++ suffix ++ "/" ++ name) (root ++ "/") = false /\
  getFile defaultStoragePath fs ("../invoices" ++ suffix ++ "/" ++ name) = Ok data /\
  snd (deleteFile defaultStoragePath fs ("../invoices" ++ suffix ++ "/" ++ name)) = true.
Proof.
  intros Hne Hs Hn W L.
  pose proof (sibling_plain suffix Hs) as Hd.
  assert (P : "/var/www/letsprint/storage/" ++ ("invoices" ++ suffix) ++ "/" ++ name
              = root ++ suffix ++ "/" ++ name).
  { unfold root, defaultStoragePath. cbn [append]. rewrite ?append_assoc. reflexivity. }
  assert (J : join2 root ("../invoices" ++ suffix ++ "/" ++ name)
              = root ++ suffix ++ "/" ++ name).
  { rewrite <- P, <- (join2_sibling _ _ Hd Hn). reflexivity. }
  assert (R : resolve (cwd fs) (root ++ suffix ++ "/" ++ name)
              = root ++ suffix ++ "/" ++ name).
  { rewrite <- P. apply (resolve_sibling _ _ _ Hd Hn). }
  split; [|split].
  - unfold startsWith. rewrite prefix_cancel.
    destruct suffix as [|c r]; [now elim Hne|].
    cbn [allChars] in Hs. apply andb_true_iff in Hs. destruct Hs as [Hc _].
    unfold notSlash in Hc. apply negb_true_iff in Hc. apply Ascii.eqb_neq in Hc.
    cbn [append String.prefix]. destruct (ascii_dec "/" c) as [E|_]; [|reflexivity].
    now elim Hc.
  - unfold getFile, existsSync, readFile. fold root. rewrite J, R, resolve_root.
    rewrite startsWith_root, L. reflexivity.
  - unfold deleteFile, existsSync, unlink. fold root. rewrite J, R, resolve_root.
    rewrite startsWith_root, L, W. reflexivity.
Qed.

Lemma path_check_admits_sibling_directory_witness :
  startsWith "/var/www/letsprint/storage/invoices-2023/archive.pdf"
             "/var/www/letsprint/storage/invoices/" = false /\
  getFile defaultStoragePath twoShopsFs "../invoices-2023/archive.pdf" = Ok "%PDF old" /\
  snd (deleteFile defaultStoragePath twoShopsFs "../invoices-2023/archive.pdf") = true.
Proof.
  assert (N : plainSegment "archive.pdf") by (repeat split; discriminate).
  assert (S : "-2023" <> "") by discriminate.
  exact (path_check_admits_sibling_directory twoShopsFs "-2023" "archive.pdf" "%PDF old"
           S eq_refl N eq_refl eq_refl).
Defined.

End StoragePathCheck.

(** ** What the print route keeps true of table and disk *)
Section StorageInvariants.
Import JS Fs Db PrintApi Props PropsMore.

Variable env : Collaborators.

(** The disk after a request: as before, or after one [storeFile]. *)
Lemma action_disk (request : Request) (w : World) :
  let w' := fst (action env request w) in
  fs w' = fs w \/
  exists buffer filename stored,
    FileStorageService.storeFile FileStorageService.defaultStoragePath
      (session_shop request) (now env) (fs w) buffer filename = Ok (fs w', stored).
Proof.
  cbv zeta.
  destruct (method request =? "POST")%string eqn:Hm.
  2: { unfold action. rewrite Hm. now left. }
  apply String.eqb_eq in Hm.
  destruct (body_orderIds request) as [[|orderId [|o2 rest]]|] eqn:Hb;
    try (unfold action, handle; rewrite Hm, Hb; now left).
  rewrite (action_single env request w orderId Hm Hb). cbv zeta.
  set (created := printJobCreate _ _ _ _ _).
  pose proof (generateSingle_cases env (session_shop request) orderId (snd created)
                {| db := fst created; fs := fs w |}) as C.
  cbv zeta in C. cbn [db fs] in C.
  destruct (generateSingle env _ _ _ _) as [w2 outcome].
  assert (D : fs w2 = fs w \/
              exists buffer filename stored,
                FileStorageService.storeFile FileStorageService.defaultStoragePath
                  (session_shop request) (now env) (fs w) buffer filename
                = Ok (fs w2, stored)).
  { destruct C as [[-> _]|(b & f' & sf & S & F & _)]; [now left|].
    right. exists b. eexists. exists sf. rewrite F. exact S. }
  destruct outcome as [resp|e]; exact D.
Qed.

(** X30: both conditions under which the download route and the mail route
    were examined are kept by every request of a shop whose sanitized name
    is a plain path segment: the keys on record have the shape shop/name,
    and the files lie at storage root / directory / name. *)
Theorem action_keeps_storage_layout (request : Request) (w : World) :
  plainSegment (FileStorageService.sanitizeShopName (session_shop request)) ->
  keysIssuedByStoreFile (db w) -> laidOutByStoreFile (fs w) ->
  keysIssuedByStoreFile (db (fst (action env request w))) /\
  laidOutByStoreFile (fs (fst (action env request w))).
Proof.
  intros Hs K L. split; [now apply action_keeps_issued_keys|].
  destruct (action_disk request w) as [->|(b & fn & sf & S)]; [exact L|].
  destruct (storeFile_inv _ _ _ _ _ _ _ Hs S) as (_ & _ & _ & F).
  cbv zeta in F. rewrite F. intros path [<-|I].
  - exists (FileStorageService.sanitizeShopName (session_shop request)).
    exists (intToString (now env) ++ "-" ++ FileStorageService.sanitizeFilename fn).
    split; [exact Hs|]. split; [apply issued_name_plain|reflexivity].
  - exact (L path I).
Qed.

End StorageInvariants.

Section StorageInvariantsExamples.
Import JS Fs Db PrintApi Props PropsMore.

Lemma action_keeps_storage_layout_witness :
  keysIssuedByStoreFile twoShopsDb /\ laidOutByStoreFile acmeFs /\
  keysIssuedByStoreFile
    (db (fst (action (sampleEnv (Ok samplePdf)) (singleRequest "acme.myshopify.com" "1001")
                {| db := twoShopsDb; fs := acmeFs |}))) /\
  laidOutByStoreFile
    (fs (fst (action (sampleEnv (Ok samplePdf)) (singleRequest "acme.myshopify.com" "1001")
                {| db := twoShopsDb; fs := acmeFs |}))).
Proof.
  split; [exact twoShops_issued|]. split; [exact acmeFs_laid_out|].
  exact (action_keeps_storage_layout (sampleEnv (Ok samplePdf))
           (singleRequest "acme.myshopify.com" "1001")
           {| db := twoShopsDb; fs := acmeFs |}
           acme_plain twoShops_issued acmeFs_laid_out).
Defined.

End StorageInvariantsExamples.
